(** * Amazon seller scraper: a shallow embedding of the scraping pipeline

    The repository holds three generations of [scraper.js] next to
    [constants.js] and the orchestrating [main.js]:

    - [ScraperAod]    : [src/scraper.js], which opens the product page and
                        its "All Offers Display" panel (the flow through
                        both in [ScraperAodFlow]);
    - [ScraperInline] : the offer-listing scraper with one link selector
                        ([src/unnamed/part_000]);
    - [ScraperMulti]  : the offer-listing scraper with three extraction
                        strategies ([src/unnamed/part_001]);
    - [Main]          : the scraping loop of [main.js]
                        ([src/unnamed/part_002]).

    [isAmazonSeller], the detail-block parser and the record literal are
    the same text in the three scrapers and are embedded once.

    A string is a text in UTF-8, as a string literal of this file denotes
    it: a character of U+0080 and above takes two to four bytes, so the
    no-break space U+00A0 is the two bytes 194 160 ([Samples.nbsp]), and
    a byte 160 by itself is no character.  [trim] and [\s] know the
    white space of the language in this encoding ([JS.whiteSpace]), and
    [includes], [split], [join] and the patterns, whose literals are
    ASCII text, give on the bytes what the language gives on the
    characters.  A page is represented by what the code reads from it:
    [Dom] for the in-page code, [Eff.PageState] for the calls on the
    Playwright page.
    Exceptions, the log and the waiting time are explicit: a computation
    maps a state to a result or a thrown message and the next state. *)

From Stdlib Require Import String Ascii List Bool Arith Lia.
From stdpp Require Import gmap strings pretty.
Import ListNotations.
Local Open Scope string_scope.
Local Open Scope list_scope.

(* stdpp keeps [String.append] folded; the proofs below compute with it. *)
#[local] Arguments String.append !_ _ / : simpl nomatch.

(** ** JavaScript string primitives *)
Module JS.

Definition byte (c : ascii) : nat := nat_of_ascii c.

(** The string of the given bytes. *)
Definition bytes (l : list nat) : string :=
  List.fold_right (fun n s => String (ascii_of_nat n) s) EmptyString l.

(** [WhiteSpace] and [LineTerminator] of the language are what
    [String.prototype.trim] strips and what [\s] matches.  Those of one
    byte are TAB, LF, VT, FF, CR and SP. *)
Definition isWhitespace (c : ascii) : bool :=
  let n := byte c in
  ((n =? 9) || (n =? 10) || (n =? 11) || (n =? 12) || (n =? 13) || (n =? 32))%nat.

(** The white space of two bytes: the no-break space U+00A0. *)
Definition isBlank2 (c1 c2 : ascii) : bool :=
  ((byte c1 =? 194) && (byte c2 =? 160))%nat.

(** The white space of three bytes: U+1680, U+2000 .. U+200A, the line
    and paragraph separators U+2028 and U+2029, U+202F, U+205F, the
    ideographic space U+3000 and U+FEFF. *)
Definition isBlank3 (c1 c2 c3 : ascii) : bool :=
  let n1 := byte c1 in
  let n2 := byte c2 in
  let n3 := byte c3 in
  ((n1 =? 225) && (n2 =? 154) && (n3 =? 128)
   || (n1 =? 226) && (n2 =? 128)
      && ((128 <=? n3) && (n3 <=? 138) || (n3 =? 168) || (n3 =? 169) || (n3 =? 175))
   || (n1 =? 226) && (n2 =? 129) && (n3 =? 159)
   || (n1 =? 227) && (n2 =? 128) && (n3 =? 128)
   || (n1 =? 239) && (n2 =? 187) && (n3 =? 191))%nat.

(** The number of bytes of the white-space character that [s] starts
    with; 0 when [s] starts with another character or is empty. *)
Definition blankWidth (s : string) : nat :=
  match s with
  | EmptyString => 0
  | String c1 s1 =>
      if isWhitespace c1 then 1
      else match s1 with
           | EmptyString => 0
           | String c2 s2 =>
               if isBlank2 c1 c2 then 2
               else match s2 with
                    | EmptyString => 0
                    | String c3 _ => if isBlank3 c1 c2 c3 then 3 else 0
                    end
           end
  end.

(** [s] without its first [n] bytes. *)
Fixpoint skip (n : nat) (s : string) : string :=
  match n, s with
  | S k, String _ s' => skip k s'
  | _, _ => s
  end.

(** [b] is one white-space character. *)
Definition blankChar (b : string) : bool :=
  negb (String.eqb b EmptyString) && (blankWidth b =? String.length b)%nat.

(** The white-space characters of the language, [WhiteSpace] and
    [LineTerminator] of the standard, in UTF-8. *)
Definition whiteSpace : list string :=
  [ bytes [9]; bytes [10]; bytes [11]; bytes [12]; bytes [13];   (* TAB LF VT FF CR *)
    bytes [32];                                                  (* SP *)
    bytes [194; 160];                                            (* U+00A0 *)
    bytes [225; 154; 128];                                       (* U+1680 *)
    bytes [226; 128; 128]; bytes [226; 128; 129]; bytes [226; 128; 130];
    bytes [226; 128; 131]; bytes [226; 128; 132]; bytes [226; 128; 133];
    bytes [226; 128; 134]; bytes [226; 128; 135]; bytes [226; 128; 136];
    bytes [226; 128; 137]; bytes [226; 128; 138];                (* U+2000 .. U+200A *)
    bytes [226; 128; 168]; bytes [226; 128; 169];                (* U+2028 U+2029 *)
    bytes [226; 128; 175];                                       (* U+202F *)
    bytes [226; 129; 159];                                       (* U+205F *)
    bytes [227; 128; 128];                                       (* U+3000 *)
    bytes [239; 187; 191] ].                                     (* U+FEFF *)

Definition isUpper (c : ascii) : bool :=
  let n := byte c in ((65 <=? n) && (n <=? 90))%nat.

Definition isLower (c : ascii) : bool :=
  let n := byte c in ((97 <=? n) && (n <=? 122))%nat.

Definition isDigit (c : ascii) : bool :=
  let n := byte c in ((48 <=? n) && (n <=? 57))%nat.

(** The lower case of an ASCII letter lies 32 above it; every other byte
    is kept. *)
Definition lowerChar (c : ascii) : ascii :=
  if isUpper c then ascii_of_nat (byte c + 32) else c.

(** The capital letters U+00C0 .. U+00DE: the byte 195 and a byte of
    128 .. 158; U+00D7 (195 151) is the multiplication sign. *)
Definition isUpperLatin1 (c1 c2 : ascii) : bool :=
  ((byte c1 =? 195) && (128 <=? byte c2) && (byte c2 <=? 158) && negb (byte c2 =? 151))%nat.

(** U+0130, the capital I with a dot above. *)
Definition isDottedI (c1 c2 : ascii) : bool :=
  ((byte c1 =? 196) && (byte c2 =? 176))%nat.

(** U+212A, the Kelvin sign. *)
Definition isKelvin (c1 c2 c3 : ascii) : bool :=
  ((byte c1 =? 226) && (byte c2 =? 132) && (byte c3 =? 170))%nat.

(** "i" and the combining dot above U+0307, the lower case of U+0130. *)
Definition dottedLowerI : string :=
  String "i" (String (ascii_of_nat 204) (String (ascii_of_nat 135) EmptyString)).

(** [s.toLowerCase()].  A capital letter of ASCII or of U+00C0 .. U+00DE
    lies 32 below its lower-case letter, U+0130 becomes "i" with U+0307
    and the Kelvin sign becomes "k".  These are the characters below
    U+0100 that the language changes, and the characters whose lower
    case holds an ASCII character.  The capital letters of other scripts
    are kept as they are: the code compares lower-cased text with ASCII
    text only, and the lower case of such a letter holds no ASCII
    character. *)
Fixpoint toLowerCase (s : string) : string :=
  match s with
  | EmptyString => EmptyString
  | String c1 s1 =>
      match s1 with
      | EmptyString => String (lowerChar c1) EmptyString
      | String c2 s2 =>
          if isUpperLatin1 c1 c2
          then String c1 (String (ascii_of_nat (byte c2 + 32)) (toLowerCase s2))
          else if isDottedI c1 c2 then dottedLowerI ++ toLowerCase s2
          else match s2 with
               | EmptyString => String (lowerChar c1) (toLowerCase s1)
               | String c3 s3 =>
                   if isKelvin c1 c2 c3 then String "k" (toLowerCase s3)
                   else String (lowerChar c1) (toLowerCase s1)
               end
      end
  end.

Definition isEmpty (s : string) : bool :=
  match s with EmptyString => true | _ => false end.

(** A string in a boolean position: only [""] is falsy. *)
Definition truthy (s : string) : bool := negb (isEmpty s).

(** [s.trimStart()]: without the white space it starts with. *)
Fixpoint trimStart (s : string) : string :=
  match s with
  | EmptyString => EmptyString
  | String c1 s1 =>
      if isWhitespace c1 then trimStart s1
      else match s1 with
           | EmptyString => s
           | String c2 s2 =>
               if isBlank2 c1 c2 then trimStart s2
               else match s2 with
                    | EmptyString => s
                    | String c3 s3 => if isBlank3 c1 c2 c3 then trimStart s3 else s
                    end
           end
  end.

(** The string is made of white space only. *)
Fixpoint allWhitespace (s : string) : bool :=
  match s with
  | EmptyString => true
  | String c1 s1 =>
      if isWhitespace c1 then allWhitespace s1
      else match s1 with
           | EmptyString => false
           | String c2 s2 =>
               if isBlank2 c1 c2 then allWhitespace s2
               else match s2 with
                    | EmptyString => false
                    | String c3 s3 => isBlank3 c1 c2 c3 && allWhitespace s3
                    end
           end
  end.

(** [s.trimEnd()]: up to the white space it ends with. *)
Fixpoint trimEnd (s : string) : string :=
  match s with
  | EmptyString => EmptyString
  | String c s' => if allWhitespace s then EmptyString else String c (trimEnd s')
  end.

(** [s.trim()] *)
Definition trim (s : string) : string := trimEnd (trimStart s).

Fixpoint startsWith (s p : string) : bool :=
  match p, s with
  | EmptyString, _ => true
  | String a p', String b s' => Ascii.eqb a b && startsWith s' p'
  | String _ _, EmptyString => false
  end.

(** [s.includes(sub)] *)
Fixpoint includes (s sub : string) : bool :=
  startsWith s sub
  || match s with
     | EmptyString => false
     | String _ s' => includes s' sub
     end.

(** [arr.join(sep)] *)
Fixpoint join (sep : string) (l : list string) : string :=
  match l with
  | [] => EmptyString
  | [x] => x
  | x :: rest => x ++ sep ++ join sep rest
  end.

(** [s.split(sep)] for a one-character separator: always at least one
    piece. *)
Fixpoint splitChar (sep : ascii) (s : string) : list string :=
  match s with
  | EmptyString => [EmptyString]
  | String c s' =>
      if Ascii.eqb c sep then EmptyString :: splitChar sep s'
      else match splitChar sep s' with
           | [] => [String c EmptyString]
           | p :: ps => String c p :: ps
           end
  end.

(** [a || b] on possibly-undefined strings: the left operand when it is
    truthy, else the right one. *)
Definition orElse (a : option string) (b : option string) : option string :=
  match a with
  | Some s => if truthy s then a else b
  | None => b
  end.

End JS.

(** ** constants.js *)
Module Constants.

Record Marketplace := {
  code : string;
  domain : string;
  currency : string;
  tld : string
}.

Definition MARKETPLACES : list Marketplace :=
  [ {| code := "UK"; domain := "amazon.co.uk"; currency := "GBP"; tld := "co.uk" |};
    {| code := "IE"; domain := "amazon.ie"; currency := "EUR"; tld := "ie" |};
    {| code := "DE"; domain := "amazon.de"; currency := "EUR"; tld := "de" |};
    {| code := "NL"; domain := "amazon.nl"; currency := "EUR"; tld := "nl" |};
    {| code := "SE"; domain := "amazon.se"; currency := "SEK"; tld := "se" |};
    {| code := "BE"; domain := "amazon.com.be"; currency := "EUR"; tld := "com.be" |};
    {| code := "PL"; domain := "amazon.pl"; currency := "PLN"; tld := "pl" |};
    {| code := "ES"; domain := "amazon.es"; currency := "EUR"; tld := "es" |};
    {| code := "IT"; domain := "amazon.it"; currency := "EUR"; tld := "it" |};
    {| code := "AE"; domain := "amazon.ae"; currency := "AED"; tld := "ae" |};
    {| code := "JP"; domain := "amazon.co.jp"; currency := "JPY"; tld := "co.jp" |};
    {| code := "SA"; domain := "amazon.sa"; currency := "SAR"; tld := "sa" |};
    {| code := "TR"; domain := "amazon.com.tr"; currency := "TRY"; tld := "com.tr" |} ].

Definition AMAZON_SELLER_NAMES : list string :=
  [ "amazon"; "amazon.co.uk"; "amazon.de"; "amazon.fr"; "amazon.it";
    "amazon.es"; "amazon.nl"; "amazon.pl"; "amazon.se"; "amazon.com.be";
    "amazon.ie"; "amazon.ae"; "amazon.co.jp"; "amazon.sa"; "amazon.com.tr";
    "amazon uk"; "amazon eu s.a.r.l."; "amazon eu"; "amazon europe" ].

End Constants.

(** ** isAmazonSeller (identical in the three scrapers) *)

(** [sellerName] is [None] for an absent ([null]/[undefined]) name. *)
Definition isAmazonSeller (sellerName : option string) : bool :=
  match sellerName with
  | None => false
  | Some s =>
      if JS.isEmpty s then false
      else
        let normalized := JS.trim (JS.toLowerCase s) in
        existsb (fun name => JS.includes normalized name || JS.includes name normalized)
                Constants.AMAZON_SELLER_NAMES
  end.

(** ** Regular expressions

    The scrapers only use patterns made of literal characters, character
    classes, greedy repetitions of a class and one capture group.  A
    pattern is a list of atoms; an atom flagged [true] lies inside the
    capture group.  Matching backtracks as [RegExp.prototype.exec] does:
    a repetition takes as much as it can and gives characters back until
    the rest of the pattern matches.  A class is a class of bytes: its
    members are ASCII characters or, for [[^\n]], every character but an
    ASCII one, of which a repetition takes the bytes one after the
    other; [\s] alone has members of more than one byte, which [RepS]
    takes whole. *)
Module Regex.

Inductive Atom :=
| Ch (cls : ascii -> bool)                 (* one character of the class *)
| Rep (cls : ascii -> bool) (min : nat)    (* cls* (min = 0), cls+ (min = 1) *)
| RepS (cls : ascii -> bool) (min : nat)   (* the same for a class with \s in it:
                                              the white space of more than one byte
                                              is added to [cls] *)
| Opt (cls : ascii -> bool).               (* cls? *)

Definition Pattern := list (Atom * bool).

Definition keep (cap : bool) (c : ascii) (m : string) : string :=
  if cap then String c m else m.

Fixpoint repGreedy (wide : bool) (cls : ascii -> bool) (cap : bool)
         (k : string -> option string) (min : nat) (s : string) : option string :=
  let stop := match min with O => k s | S _ => None end in
  match s with
  | String c1 s1 =>
      if cls c1 then
        match repGreedy wide cls cap k (pred min) s1 with
        | Some m => Some (keep cap c1 m)
        | None => stop
        end
      else if wide then
        match s1 with
        | String c2 s2 =>
            if JS.isBlank2 c1 c2 then
              match repGreedy wide cls cap k (pred min) s2 with
              | Some m => Some (keep cap c1 (keep cap c2 m))
              | None => stop
              end
            else
              match s2 with
              | String c3 s3 =>
                  if JS.isBlank3 c1 c2 c3 then
                    match repGreedy wide cls cap k (pred min) s3 with
                    | Some m => Some (keep cap c1 (keep cap c2 (keep cap c3 m)))
                    | None => stop
                    end
                  else stop
              | EmptyString => stop
              end
        | EmptyString => stop
        end
      else stop
  | EmptyString => stop
  end.

(** Match the pattern at the start of [s]; the result is the text of the
    capture group. *)
Fixpoint matchHere (p : Pattern) (s : string) : option string :=
  match p with
  | [] => Some EmptyString
  | (Ch cls, cap) :: p' =>
      match s with
      | String c s' =>
          if cls c then option_map (keep cap c) (matchHere p' s') else None
      | EmptyString => None
      end
  | (Rep cls min, cap) :: p' => repGreedy false cls cap (matchHere p') min s
  | (RepS cls min, cap) :: p' => repGreedy true cls cap (matchHere p') min s
  | (Opt cls, cap) :: p' =>
      match s with
      | String c s' =>
          if cls c then
            match matchHere p' s' with
            | Some m => Some (keep cap c m)
            | None => matchHere p' s
            end
          else matchHere p' s
      | EmptyString => matchHere p' s
      end
  end.

(** [s.match(p)] without the [g] flag: the leftmost match, [None] for
    [null]; the value is capture group 1. *)
Fixpoint search (p : Pattern) (s : string) : option string :=
  match matchHere p s with
  | Some m => Some m
  | None =>
      match s with
      | String _ s' => search p s'
      | EmptyString => None
      end
  end.

Definition only (a : ascii) : ascii -> bool := Ascii.eqb a.

(** An ASCII character of a pattern under the [i] flag (without [u]): a
    letter matches its two cases and nothing else, as the standard lets
    no character beyond ASCII stand for an ASCII letter. *)
Definition isCI (a : ascii) : ascii -> bool :=
  fun c => Ascii.eqb (JS.lowerChar a) (JS.lowerChar c).

(** A literal, case-sensitive or under the [i] flag. *)
Fixpoint lit (s : string) : Pattern :=
  match s with
  | EmptyString => []
  | String a s' => (Ch (only a), false) :: lit s'
  end.

Fixpoint litCI (s : string) : Pattern :=
  match s with
  | EmptyString => []
  | String a s' => (Ch (isCI a), false) :: litCI s'
  end.

Definition newline : ascii := ascii_of_nat 10.

Definition space : ascii -> bool := JS.isWhitespace.       (* \s, under [RepS] *)
Definition digit : ascii -> bool := JS.isDigit.                        (* \d *)
Definition digitDot (c : ascii) : bool := JS.isDigit c || only "." c.    (* [\d.] *)
Definition digitComma (c : ascii) : bool := JS.isDigit c || only "," c.  (* [\d,] *)
Definition colonSpace (c : ascii) : bool :=                (* [:\s], under [RepS] *)
  only ":" c || JS.isWhitespace c.
Definition notNewline (c : ascii) : bool := negb (only newline c).       (* [^\n] *)
Definition upperDigit (c : ascii) : bool := JS.isUpper c || JS.isDigit c.   (* [A-Z0-9] *)
Definition alnumCI (c : ascii) : bool :=
  JS.isUpper c || JS.isLower c || JS.isDigit c.                        (* [A-Z0-9] under i *)
Definition eqSlash (c : ascii) : bool := only "=" c || only "/" c.         (* [=\/] *)

(** The position of the leftmost case-insensitive occurrence of a
    literal. *)
Fixpoint startsWithCI (s l : string) : bool :=
  match l, s with
  | EmptyString, _ => true
  | String a l', String c s' => isCI a c && startsWithCI s' l'
  | String _ _, EmptyString => false
  end.

Fixpoint indexOfCI (s l : string) : option nat :=
  if startsWithCI s l then Some 0
  else match s with
       | String _ s' => option_map S (indexOfCI s' l)
       | EmptyString => None
       end.

(** Every character of [s] lies in the class. *)
Fixpoint allChars (cls : ascii -> bool) (s : string) : bool :=
  match s with
  | EmptyString => true
  | String c s' => cls c && allChars cls s'
  end.

(** The text stops here or goes on with a line break. *)
Definition endOfLine (s : string) : bool :=
  match s with
  | EmptyString => true
  | String c _ => only newline c
  end.

End Regex.

(** ** Numbers

    [parseInt] and [parseFloat] are applied to digit strings only.  A
    number is a decimal [mantissa / 10 ^ scale], standing for the double
    nearest to it, or [NaN]. *)
Module Num.

Inductive Number :=
| NaN
| Dec (mantissa : N) (scale : nat).

(** Falsy numbers: [0] and [NaN]. *)
Definition truthy (n : Number) : bool :=
  match n with
  | NaN => false
  | Dec m _ => negb (N.eqb m 0)
  end.

Definition digitValue (c : ascii) : N := N.of_nat (nat_of_ascii c - 48).

(** Leading decimal digits of [s], accumulated onto [acc]; also the
    number of digits read and the unread rest. *)
Fixpoint readDigits (acc : N) (s : string) : N * nat * string :=
  match s with
  | String c s' =>
      if JS.isDigit c then
        let '(v, n, r) := readDigits (acc * 10 + digitValue c)%N s' in (v, S n, r)
      else (acc, O, s)
  | EmptyString => (acc, O, s)
  end.

(** [parseInt(s, 10)] on a string without sign or leading blanks. *)
Definition parseInt (s : string) : Number :=
  let '(v, n, _) := readDigits 0%N s in
  match n with O => NaN | S _ => Dec v 0 end.

(** [parseFloat(s)] on a string of digits and dots. *)
Definition parseFloat (s : string) : Number :=
  let '(v, n, r) := readDigits 0%N s in
  match r with
  | String "." r' =>
      let '(v', n', _) := readDigits v r' in
      match n, n' with
      | O, O => NaN
      | _, _ => Dec v' n'
      end
  | _ => match n with O => NaN | S _ => Dec v 0 end
  end.

(** [s.replace(/,/g, '')] *)
Fixpoint removeCommas (s : string) : string :=
  match s with
  | EmptyString => EmptyString
  | String c s' => if Ascii.eqb c "," then removeCommas s' else String c (removeCommas s')
  end.

End Num.

(** ** The rendered document, as the in-page code reads it *)
Module Dom.

(** An [a] element. *)
Record Anchor := {
  hrefAttr : option string;        (* the href attribute as written *)
  href : string;                   (* a.href, the resolved URL; "" without attribute *)
  textContent : string;            (* a.textContent *)
  previousSiblingText : string;    (* a.previousSibling?.textContent || '' *)
  parentText : string              (* a.parentElement?.textContent || '' *)
}.

(** An [h3] element with the innerText of
    [closest('div[class*="a-column"], div[class*="a-box"], section')
     || parentElement?.parentElement], [None] when both are missing. *)
Record Heading := {
  headingText : string;
  container : option string
}.

Record Document := {
  anchors : list Anchor;               (* document order *)
  debugInfo : string;                  (* JSON.stringify of the diagnostic object *)
  h1 : option string;                  (* textContent of the first h1 *)
  body : option string;                (* document.body.innerText; None without body *)
  h3 : list Heading;                   (* document order *)
  ratingLinkDiv : option (option string)
    (* the first a[href="#"][class*="link"], and the innerText of its
       closest div when it has one *)
}.

(** [a[href*="..."]] *)
Definition hrefContains (sub : string) (a : Anchor) : bool :=
  match hrefAttr a with
  | Some h => JS.includes h sub
  | None => false
  end.

End Dom.

(** ** Objects

    The profile ([result = {}] filled property by property), the
    [{ error }] object and the emitted record are plain JavaScript
    objects: finite maps from property names to values.  A property that
    was never written reads as [undefined], here [None]. *)
Module Obj.

Inductive Value :=
| VNull
| VBool (b : bool)
| VNum (n : Num.Number)
| VStr (s : string).

Abbreviation Object := (gmap string Value).

Definition truthy (v : Value) : bool :=
  match v with
  | VNull => false
  | VBool b => b
  | VNum n => Num.truthy n
  | VStr s => JS.truthy s
  end.

(** [!o.k]: true for a missing property and for a falsy value. *)
Definition falsy (p : option Value) : bool :=
  match p with
  | Some v => negb (truthy v)
  | None => true
  end.

(** [p || d] *)
Definition orDefault (p : option Value) (d : Value) : Value :=
  match p with
  | Some v => if truthy v then v else d
  | None => d
  end.

Definition ofOption {A} (f : A -> Value) (o : option A) : Value :=
  match o with
  | Some a => f a
  | None => VNull
  end.

End Obj.

(** ** Effects: exceptions, the page, the log *)
Module Eff.

Inductive Exc (A : Type) :=
| Ok (a : A)
| Throw (message : string).
Arguments Ok {A} a.
Arguments Throw {A} message.

Inductive Level := Info | Warning | Error.

Record LogEntry := { level : Level; text : string }.

(** The state of the Playwright page between two navigations. *)
Record PageState := {
  url : string;                        (* page.url() *)
  title : Exc string;                  (* await page.title() *)
  captchaForm : Exc bool;              (* await page.$('form[action*="validateCaptcha"]') !== null *)
  appears : string -> bool;            (* waitForSelector(sel) resolves before its timeout *)
  document : Exc Dom.Document          (* what evaluate runs on; Throw when evaluate is rejected *)
}.

(** The browser and the sites behind it. *)
Record Browser := {
  navigate : string -> PageState -> Exc unit * PageState;
    (* page.goto(url): resolves or rejects, and the page it leaves *)
  searchParams : string -> option (list (string * string))
    (* new URL(href).searchParams in order; None when the constructor throws *)
}.

Record St := {
  page : PageState;
  log : list LogEntry;                 (* oldest first *)
  clock : nat                          (* milliseconds spent in delay() *)
}.

(** Computations over a state [S] that return or throw; the state
    survives a throw, as the variables of the program do. *)
Definition M (S A : Type) : Type := S -> Exc A * S.

Definition ret {S A} (a : A) : M S A := fun st => (Ok a, st).

Definition bind {S A B} (m : M S A) (f : A -> M S B) : M S B :=
  fun st =>
    match m st with
    | (Ok a, st') => f a st'
    | (Throw e, st') => (Throw e, st')
    end.

Definition throw {S A} (e : string) : M S A := fun st => (Throw e, st).

(** [try { m } catch (err) { h(err.message) }] *)
Definition tryCatch {S A} (m : M S A) (h : string -> M S A) : M S A :=
  fun st =>
    match m st with
    | (Ok a, st') => (Ok a, st')
    | (Throw e, st') => h e st'
    end.

Definition lift {S A} (x : Exc A) : M S A := fun st => (x, st).

(** [for (const x of xs) { body }] *)
Fixpoint forEach {S A} (xs : list A) (body : A -> M S unit) : M S unit :=
  match xs with
  | [] => ret tt
  | x :: xs' => bind (body x) (fun _ => forEach xs' body)
  end.

Definition getPage : M St PageState := fun st => (Ok (page st), st).

Definition logAt (l : Level) (msg : string) : M St unit :=
  fun st => (Ok tt, {| page := page st;
                       log := log st ++ [{| level := l; text := msg |}];
                       clock := clock st |}).

Definition delay (ms : nat) : M St unit :=
  fun st => (Ok tt, {| page := page st; log := log st; clock := clock st + ms |}).

Definition now : M St nat := fun st => (Ok (clock st), st).

Definition goto (b : Browser) (target : string) : M St unit :=
  fun st =>
    let '(r, p) := navigate b target (page st) in
    (r, {| page := p; log := log st; clock := clock st |}).

(** [page.evaluate(f)]: rejected when the page rejects the evaluation or
    when [f] throws. *)
Definition evaluate {A} (f : Dom.Document -> Exc A) : M St A :=
  fun st =>
    match document (page st) with
    | Ok d => (f d, st)
    | Throw e => (Throw e, st)
    end.

Definition messages (l : Level) (st : St) : list string :=
  List.map text
    (List.filter (fun e => match level e, l with
                           | Info, Info | Warning, Warning | Error, Error => true
                           | _, _ => false
                           end) (log st)).

End Eff.

Declare Scope eff_scope.
Delimit Scope eff_scope with eff.
Notation "x <- m ;; k" := (Eff.bind m (fun x => k))
  (at level 100, m at next level, right associativity) : eff_scope.
Notation "m ;;; k" := (Eff.bind m (fun _ => k))
  (at level 100, right associativity) : eff_scope.

(** ** The in-page extraction of a seller profile *)
Module Profile.
Import Obj.

(** [/Customer Service Phone[:\s]+([^\n]+)/i] *)
Definition csPhonePattern : Regex.Pattern :=
  Regex.litCI "Customer Service Phone"
    ++ [(Regex.RepS Regex.colonSpace 1, false); (Regex.Rep Regex.notNewline 1, true)].

(** [/([\d.]+)\s*out of\s*5\s*stars/] *)
Definition ratingPattern : Regex.Pattern :=
  [(Regex.Rep Regex.digitDot 1, true); (Regex.RepS Regex.space 0, false)]
    ++ Regex.lit "out of" ++ [(Regex.RepS Regex.space 0, false)]
    ++ Regex.lit "5" ++ [(Regex.RepS Regex.space 0, false)]
    ++ Regex.lit "stars".

(** [/([\d.]+)\s*out of\s*5/], the pattern of [src/scraper.js] *)
Definition ratingPatternAod : Regex.Pattern :=
  [(Regex.Rep Regex.digitDot 1, true); (Regex.RepS Regex.space 0, false)]
    ++ Regex.lit "out of" ++ [(Regex.RepS Regex.space 0, false)]
    ++ Regex.lit "5".

(** [/(\d+)%\s*positive/] *)
Definition percentPattern : Regex.Pattern :=
  [(Regex.Rep Regex.digit 1, true)]
    ++ Regex.lit "%" ++ [(Regex.RepS Regex.space 0, false)]
    ++ Regex.lit "positive".

(** [/\(( \d[\d,]* )\s*ratings?\)/] (blanks added around the group) *)
Definition countPattern : Regex.Pattern :=
  Regex.lit "("
    ++ [(Regex.Ch Regex.digit, true); (Regex.Rep Regex.digitComma 0, true);
        (Regex.RepS Regex.space 0, false)]
    ++ Regex.lit "rating" ++ [(Regex.Opt (Regex.only "s"), false)]
    ++ Regex.lit ")".

(** [/\((\d+)\s*ratings?\)/], the pattern of [src/scraper.js] *)
Definition countPatternAod : Regex.Pattern :=
  Regex.lit "("
    ++ [(Regex.Rep Regex.digit 1, true); (Regex.RepS Regex.space 0, false)]
    ++ Regex.lit "rating" ++ [(Regex.Opt (Regex.only "s"), false)]
    ++ Regex.lit ")".

(** The lines that continue an address: up to the first line with a
    colon or with "This seller". *)
Fixpoint addrLines (following : list string) : list string :=
  match following with
  | [] => []
  | l :: rest =>
      if JS.includes l ":" || JS.includes l "This seller" then []
      else l :: addrLines rest
  end.

(** A line that neither ends an address nor starts another entry. *)
Definition continuesAddress (l : string) : Prop :=
  JS.includes l ":" = false /\ JS.includes l "This seller" = false.

(** One turn of the loop over [lines]: [line] is [lines[i]] and
    [following] is [lines[i+1 ..]]. *)
Definition parseLine (line : string) (following : list string) (result : Object) : Object :=
  if negb (JS.includes line ":") then result
  else
    match JS.splitChar ":" line with
    | [] => result
    | rawKey :: rest =>
        let key := JS.trim rawKey in
        let value := JS.trim (JS.join ":" rest) in
        let keyLower := JS.toLowerCase key in
        if JS.truthy value then
          if String.eqb keyLower "business name" then <["businessName" := VStr value]> result
          else if String.eqb keyLower "business type" then <["businessType" := VStr value]> result
          else if String.eqb keyLower "trade register number"
               then <["tradeRegisterNumber" := VStr value]> result
          else if String.eqb keyLower "vat number" then <["vatNumber" := VStr value]> result
          else if String.eqb keyLower "phone number" then <["phoneNumber" := VStr value]> result
          else if String.eqb keyLower "email" then <["email" := VStr value]> result
          else result
        else if String.eqb keyLower "business address"
                || String.eqb keyLower "customer services address" then
          let addr := JS.join ", " (addrLines following) in
          if String.eqb keyLower "business address"
          then <["businessAddress" := VStr addr]> result
          else <["customerServiceAddress" := VStr addr]> result
        else result
    end.

Fixpoint parseLines (lines : list string) (result : Object) : Object :=
  match lines with
  | [] => result
  | line :: following => parseLines following (parseLine line following result)
  end.

(** [allText.split('\n').map(l => l.trim()).filter(Boolean)] *)
Definition textLines (allText : string) : list string :=
  List.filter JS.truthy (List.map JS.trim (JS.splitChar Regex.newline allText)).

(** The business properties that only the detail block can fill. *)
Definition blockOnly : list string :=
  [ "businessName"; "businessType"; "tradeRegisterNumber"; "vatNumber"; "email";
    "businessAddress"; "customerServiceAddress" ].

Definition isDetailHeading (h : Dom.Heading) : bool :=
  JS.includes (Dom.headingText h) "Detailed Seller Information".

(** Reading [innerText] of a missing [document.body]. *)
Definition nullBody : string :=
  "TypeError: Cannot read properties of null (reading 'innerText')".

Definition bodyText (d : Dom.Document) : Eff.Exc string :=
  match Dom.body d with
  | Some t => Eff.Ok t
  | None => Eff.Throw nullBody
  end.

Definition ratingProps (ratingP countP : Regex.Pattern) (commas : bool)
           (ratingText : string) (result : Object) : Object :=
  let result :=
    <["rating" := ofOption (fun m => VNum (Num.parseFloat m)) (Regex.search ratingP ratingText)]>
      result in
  let result :=
    <["positivePercent" :=
        ofOption (fun m => VNum (Num.parseInt m)) (Regex.search percentPattern ratingText)]>
      result in
  <["ratingCount" :=
      ofOption (fun m => VNum (Num.parseInt (if commas then Num.removeCommas m else m)))
               (Regex.search countP ratingText)]>
    result.

(** The callback given to [page.evaluate] by the two offer-listing
    scrapers. *)
Definition sellerInfoInPage (d : Dom.Document) : Eff.Exc Object :=
  let result : Object := ∅ in
  let result := <["sellerDisplayName" := ofOption (fun t => VStr (JS.trim t)) (Dom.h1 d)]> result in
  let result :=
    match bodyText d with
    | Eff.Ok ratingText => ratingProps ratingPattern countPattern true ratingText result
    | Eff.Throw _ => result                         (* catch: ignore *)
    end in
  match List.find isDetailHeading (Dom.h3 d) with
  | None =>
      let result := <["hasDetailedInfo" := VBool false]> result in
      match bodyText d with
      | Eff.Throw e => Eff.Throw e
      | Eff.Ok text =>
          match Regex.search csPhonePattern text with
          | Some m =>
              Eff.Ok (<["customerServicePhone" := VStr (JS.trim m)]>
                        (<["phoneNumber" := VStr (JS.trim m)]> result))
          | None => Eff.Ok result
          end
      end
  | Some detailHeading =>
      let result := <["hasDetailedInfo" := VBool true]> result in
      match Dom.container detailHeading with
      | None => Eff.Ok result
      | Some allText =>
          let result := parseLines (textLines allText) result in
          match bodyText d with
          | Eff.Throw e => Eff.Throw e
          | Eff.Ok text =>
              match Regex.search csPhonePattern text with
              | Some m =>
                  let result := <["customerServicePhone" := VStr (JS.trim m)]> result in
                  Eff.Ok (if falsy (result !! "phoneNumber")
                          then <["phoneNumber" := VStr (JS.trim m)]> result
                          else result)
              | None => Eff.Ok result
              end
          end
      end
  end.

(** The callback of [src/scraper.js]. *)
Definition sellerInfoInPageAod (d : Dom.Document) : Eff.Exc Object :=
  let result : Object := ∅ in
  let result := <["sellerDisplayName" := ofOption (fun t => VStr (JS.trim t)) (Dom.h1 d)]> result in
  let result :=
    match Dom.ratingLinkDiv d with
    | Some (Some divText) =>
        let ratingText := JS.trim divText in
        if JS.truthy ratingText
        then ratingProps ratingPatternAod countPatternAod false ratingText result
        else result
    | _ => result
    end in
  match List.find isDetailHeading (Dom.h3 d) with
  | None => Eff.Ok (<["hasDetailedInfo" := VBool false]> result)
  | Some detailHeading =>
      let result := <["hasDetailedInfo" := VBool true]> result in
      match Dom.container detailHeading with
      | None => Eff.Ok result
      | Some allText =>
          let result := parseLines (textLines allText) result in
          match bodyText d with
          | Eff.Throw e => Eff.Throw e
          | Eff.Ok fullPageText =>
              let csPhoneMatch := Regex.search csPhonePattern fullPageText in
              let result :=
                match csPhoneMatch with
                | Some m => if falsy (result !! "phoneNumber")
                            then <["phoneNumber" := VStr (JS.trim m)]> result
                            else result
                | None => result
                end in
              match csPhoneMatch with
              | Some m => Eff.Ok (<["customerServicePhone" := VStr (JS.trim m)]> result)
              | None => Eff.Ok result
              end
          end
      end
  end.

End Profile.

(** ** What the three scrapers share *)
Module Scraper.
Import Obj Eff.
Local Open Scope eff_scope.

Record Options := {
  skipAmazonSellers : bool;
  delayBetweenRequests : nat
}.

(** A discovered seller: [{ name, sellerId, href }], with [strategy] in the
    multi-strategy scraper. *)
Record Seller := {
  name : string;
  sellerId : string;
  sellerHref : string;
  strategy : option string
}.

(** [Map.prototype.set]: a known key keeps its place and takes the new
    value, a new key goes last. *)
Fixpoint mapSet {V} (k : string) (v : V) (m : list (string * V)) : list (string * V) :=
  match m with
  | [] => [(k, v)]
  | (k', v') :: m' =>
      if String.eqb k k' then (k, v) :: m' else (k', v') :: mapSet k v m'
  end.

(** [new Map(entries)] *)
Definition mapOf {V} (entries : list (string * V)) : list (string * V) :=
  fold_left (fun m e => mapSet (fst e) (snd e) m) entries [].

(** [[...new Map(sellers.map(s => [s.sellerId, s])).values()]] *)
Definition uniqueBySellerId (sellers : list Seller) : list Seller :=
  List.map snd (mapOf (List.map (fun s => (sellerId s, s)) sellers)).

(** [url.searchParams.get(k)] *)
Fixpoint paramGet (k : string) (ps : list (string * string)) : option string :=
  match ps with
  | [] => None
  | (k', v) :: ps' => if String.eqb k k' then Some v else paramGet k ps'
  end.

(** [`${v}`]; only strings, [null] and booleans are ever printed. *)
Definition show (v : Value) : string :=
  match v with
  | VStr s => s
  | VNull => "null"
  | VBool true => "true"
  | VBool false => "false"
  | VNum _ => "[number]"
  end.

(** The object literal pushed for one visited seller.  [scrapedAt] is the
    clock of the run instead of an ISO date. *)
Definition sellerRecord (asin : string) (marketplace : Constants.Marketplace)
           (seller : Seller) (sellerInfo : Object) (scrapedAt : nat) : Object :=
  list_to_map
    [ ("asin", VStr asin);
      ("marketplace", VStr (Constants.code marketplace));
      ("marketplaceDomain", VStr (Constants.domain marketplace));
      ("sellerName", VStr (name seller));
      ("sellerId", VStr (sellerId seller));
      ("sellerDisplayName", orDefault (sellerInfo !! "sellerDisplayName") (VStr (name seller)));
      ("businessName", orDefault (sellerInfo !! "businessName") VNull);
      ("businessType", orDefault (sellerInfo !! "businessType") VNull);
      ("phoneNumber", orDefault (sellerInfo !! "phoneNumber") VNull);
      ("customerServicePhone", orDefault (sellerInfo !! "customerServicePhone") VNull);
      ("email", orDefault (sellerInfo !! "email") VNull);
      ("vatNumber", orDefault (sellerInfo !! "vatNumber") VNull);
      ("tradeRegisterNumber", orDefault (sellerInfo !! "tradeRegisterNumber") VNull);
      ("businessAddress", orDefault (sellerInfo !! "businessAddress") VNull);
      ("customerServiceAddress", orDefault (sellerInfo !! "customerServiceAddress") VNull);
      ("rating", orDefault (sellerInfo !! "rating") VNull);
      ("positivePercent", orDefault (sellerInfo !! "positivePercent") VNull);
      ("ratingCount", orDefault (sellerInfo !! "ratingCount") VNull);
      ("hasDetailedInfo", orDefault (sellerInfo !! "hasDetailedInfo") (VBool false));
      ("scrapedAt", VNum (Num.Dec (N.of_nat scrapedAt) 0)) ].

(** The properties written as [sellerInfo.k || null]. *)
Definition nullCoerced : list string :=
  [ "businessName"; "businessType"; "phoneNumber"; "customerServicePhone"; "email";
    "vatNumber"; "tradeRegisterNumber"; "businessAddress"; "customerServiceAddress";
    "rating"; "positivePercent"; "ratingCount" ].

Definition sellerProfileUrl (asin : string) (marketplace : Constants.Marketplace)
           (seller : Seller) : string :=
  "https://www." ++ Constants.domain marketplace ++ "/sp?seller=" ++ sellerId seller
    ++ "&asin=" ++ asin.

(** The loop over [sellersToVisit], the same in the three scrapers up to
    the [extractSellerInfo] it calls. *)
Fixpoint visitSellers (extractSellerInfo : string -> M St Object)
         (asin : string) (marketplace : Constants.Marketplace) (options : Options)
         (sellersToVisit : list Seller) (results : list Object) : M St (list Object) :=
  match sellersToVisit with
  | [] => ret results
  | seller :: rest =>
      delay (delayBetweenRequests options) ;;;
      sellerInfo <- extractSellerInfo (sellerProfileUrl asin marketplace seller) ;;
      scrapedAt <- now ;;
      visitSellers extractSellerInfo asin marketplace options rest
        (results ++ [sellerRecord asin marketplace seller sellerInfo scrapedAt])
  end.

(** [extractSellerInfo], given the in-page callback and the wording of its
    two log lines. *)
Definition extractSellerInfoWith (b : Browser) (inPage : Dom.Document -> Exc Object)
           (okPrefix : string) (failed : string -> string -> string)
           (sellerUrl : string) : M St Object :=
  tryCatch
    (goto b sellerUrl ;;;
     delay 1500 ;;;
     info <- evaluate inPage ;;
     (if negb (falsy (info !! "sellerDisplayName")) then
        logAt Info (okPrefix ++ show (orDefault (info !! "sellerDisplayName") VNull)
                      ++ " | Phone: " ++ show (orDefault (info !! "phoneNumber") (VStr "N/A"))
                      ++ " | Email: " ++ show (orDefault (info !! "email") (VStr "N/A")))
      else ret tt) ;;;
     ret info)
    (fun err =>
       logAt Warning (failed sellerUrl err) ;;;
       ret ({[ "error" := VStr err ]} : Object)).

(** The title and URL tests for a missing product. *)
Definition notFoundTitle (pageTitle : string) : bool :=
  JS.includes pageTitle "Page Not Found" || JS.includes pageTitle "404"
  || JS.includes pageTitle "Sorry".

(** [allSellers.filter(s => ...)] with its log line per removed seller. *)
Fixpoint dropAmazonSellers (marketplace : Constants.Marketplace)
         (allSellers : list Seller) : M St (list Seller) :=
  match allSellers with
  | [] => ret []
  | s :: rest =>
      if isAmazonSeller (Some (name s)) then
        logAt Info ("[" ++ Constants.code marketplace ++ "] Skipping Amazon seller: " ++ name s) ;;;
        dropAmazonSellers marketplace rest
      else
        kept <- dropAmazonSellers marketplace rest ;;
        ret (s :: kept)
  end.

(** [scrapeAsinOnMarketplace] of the two offer-listing scrapers, given
    their [extractAllSellers] and [extractSellerInfo]. *)
Definition scrapeWith
           (extractAllSellers : string -> Constants.Marketplace -> M St (list Seller))
           (extractSellerInfo : string -> M St Object)
           (asin : string) (marketplace : Constants.Marketplace) (options : Options)
  : M St (list Object) :=
  allSellers <- extractAllSellers asin marketplace ;;
  sellersToVisit <- (if skipAmazonSellers options
                     then dropAmazonSellers marketplace allSellers
                     else ret allSellers) ;;
  match sellersToVisit with
  | [] =>
      logAt Info ("[" ++ Constants.code marketplace ++ "] No third-party sellers to visit") ;;;
      ret []
  | _ =>
      logAt Info ("[" ++ Constants.code marketplace ++ "] Visiting "
                    ++ pretty (length sellersToVisit) ++ " seller profile(s)...") ;;;
      visitSellers extractSellerInfo asin marketplace options sellersToVisit []
  end.

End Scraper.

(** ** The offer-listing scraper with one link selector *)
Module ScraperInline.
Import Obj Eff Scraper.
Local Open Scope eff_scope.

Section WithBrowser.
Context (b : Browser).

(** [/seller=([A-Z0-9]+)/] *)
Definition sellerEqPattern : Regex.Pattern :=
  Regex.lit "seller=" ++ [(Regex.Rep Regex.upperDigit 1, true)].

(** The [sellerId] computed for one link: [null] is [None]. *)
Definition linkSellerId (href : string) : option string :=
  match searchParams b href with
  | Some ps => paramGet "seller" ps
  | None => Regex.search sellerEqPattern href
  end.

(** [links.map(a => ({ name, sellerId, href })).filter(s => s && s.name && s.sellerId)] *)
Definition sellersInPage (d : Dom.Document) : list Seller :=
  let links := List.filter (Dom.hrefContains "/gp/aag/main") (Dom.anchors d) in
  flat_map
    (fun a =>
       let linkName := JS.trim (Dom.textContent a) in
       match linkSellerId (Dom.href a) with
       | Some id =>
           if JS.truthy linkName && JS.truthy id
           then [{| name := linkName; sellerId := id; sellerHref := Dom.href a;
                    strategy := None |}]
           else []
       | None => []
       end)
    links.

Definition offerUrl (asin : string) (marketplace : Constants.Marketplace) : string :=
  "https://www." ++ Constants.domain marketplace ++ "/gp/offer-listing/"
    ++ asin ++ "/ref=dp_olp_NEW_mbc?condition=NEW".

Definition tagOf (marketplace : Constants.Marketplace) : string :=
  "[" ++ Constants.code marketplace ++ "] ".

Definition extractAllSellers (asin : string) (marketplace : Constants.Marketplace)
  : M St (list Seller) :=
  let tag := tagOf marketplace in
  logAt Info (String Regex.newline (tag ++ "Loading offers: " ++ offerUrl asin marketplace)) ;;;
  loaded <- tryCatch
              (goto b (offerUrl asin marketplace) ;;; delay 2500 ;;; ret true)
              (fun err => logAt Warning (tag ++ "Failed to load offer page: " ++ err) ;;;
                          ret false) ;;
  if negb loaded then ret []
  else
    p <- getPage ;;
    pageTitle <- lift (title p) ;;
    let currentUrl := url p in
    if notFoundTitle pageTitle || JS.includes currentUrl "/errors/" then
      logAt Info (tag ++ "Product not found on this marketplace") ;;;
      ret []
    else
      hasCaptcha <- lift (captchaForm p) ;;
      if (hasCaptcha : bool) then
        logAt Warning (tag ++ "CAPTCHA detected — skipping") ;;;
        ret []
      else
        sellers <- tryCatch (evaluate (fun d => Ok (sellersInPage d))) (fun _ => ret []) ;;
        let unique := uniqueBySellerId sellers in
        logAt Info (tag ++ "Found " ++ pretty (length unique) ++ " seller(s)") ;;;
        ret unique.

Definition extractSellerInfo : string -> M St Object :=
  extractSellerInfoWith b Profile.sellerInfoInPage "    "
    (fun _ err => "    Failed to extract seller info: " ++ err)%string.

Definition scrapeAsinOnMarketplace : string -> Constants.Marketplace -> Options -> M St (list Object) :=
  scrapeWith extractAllSellers extractSellerInfo.

End WithBrowser.
End ScraperInline.

(** ** The offer-listing scraper with three extraction strategies *)
Module ScraperMulti.
Import Obj Eff Scraper.
Local Open Scope eff_scope.

Section WithBrowser.
Context (b : Browser).

(** [/seller=([A-Z0-9]+)/i] *)
Definition sellerEqPattern : Regex.Pattern :=
  Regex.litCI "seller=" ++ [(Regex.Rep Regex.alnumCI 1, true)].

(** [/seller[=\/]([A-Z0-9]+)/i] *)
Definition sellerPathPattern : Regex.Pattern :=
  Regex.litCI "seller" ++ [(Regex.Ch Regex.eqSlash, false); (Regex.Rep Regex.alnumCI 1, true)].

Definition extractSellerId (href : string) : option string :=
  if JS.isEmpty href then None
  else
    match searchParams b href with
    | Some ps => JS.orElse (paramGet "seller" ps) (paramGet "sellerID" ps)
    | None => Regex.search sellerEqPattern href
    end.

(** The accumulators of the in-page code. *)
Record Acc := {
  found : list Seller;
  seenIds : gset string
}.

(** [if (sellerId && name && !seenIds.has(sellerId)) { seenIds.add; found.push }] *)
Definition accepts (acc : Acc) (linkName : string) (id : option string) : bool :=
  match id with
  | Some i => JS.truthy i && JS.truthy linkName && negb (bool_decide (i ∈ seenIds acc))
  | None => false
  end.

Definition record (acc : Acc) (s : Seller) : Acc :=
  {| found := found acc ++ [s]; seenIds := {[ sellerId s ]} ∪ seenIds acc |}.

Definition byLink (tag : string) (acc : Acc) (a : Dom.Anchor) : Acc :=
  let id := extractSellerId (Dom.href a) in
  let linkName := JS.trim (Dom.textContent a) in
  match id with
  | Some i =>
      if accepts acc linkName id
      then record acc {| name := linkName; sellerId := i; sellerHref := Dom.href a;
                         strategy := Some tag |}
      else acc
  | None => acc
  end.

Definition nearSoldBy (a : Dom.Anchor) : bool :=
  (JS.includes (JS.toLowerCase (Dom.previousSiblingText a)) "sold by"
   || JS.includes (JS.toLowerCase (Dom.parentText a)) "sold by")
  && JS.truthy (Dom.href a) && negb (JS.includes (Dom.href a) "#").

Definition bySoldBy (acc : Acc) (a : Dom.Anchor) : Acc :=
  if nearSoldBy a then
    let id := extractSellerId (Dom.href a) in
    let linkName := JS.trim (Dom.textContent a) in
    if accepts acc linkName id then
      match id with
      | Some i => record acc {| name := linkName; sellerId := i; sellerHref := Dom.href a;
                                strategy := Some "soldBy" |}
      | None => acc
      end
    else if JS.truthy linkName
            && negb (match id with Some i => JS.truthy i | None => false end)
            && JS.includes (Dom.href a) "/sp" then
      let pathId := Regex.search sellerPathPattern (Dom.href a) in
      match pathId with
      | Some i =>
          if JS.truthy i && negb (bool_decide (i ∈ seenIds acc))
          then record acc {| name := linkName; sellerId := i; sellerHref := Dom.href a;
                             strategy := Some "soldByPath" |}
          else acc
      | None => acc
      end
    else acc
  else acc.

(** The second [page.evaluate] callback: three passes over the links, in
    document order each, into one accumulator. *)
Definition sellersInPage (d : Dom.Document) : list Seller :=
  let acc := {| found := []; seenIds := ∅ |} in
  let acc := fold_left (byLink "aag")
                       (List.filter (Dom.hrefContains "/gp/aag/main") (Dom.anchors d)) acc in
  let acc := fold_left (byLink "sellerParam")
                       (List.filter (Dom.hrefContains "seller=") (Dom.anchors d)) acc in
  let acc := fold_left bySoldBy (Dom.anchors d) acc in
  found acc.

Definition offerSelectors : list string :=
  [ "#aod-offer-list #aod-offer"; "#aod-offer"; "#all-offers-display";
    "#olpOfferList"; ".olpOffer"; "#ppd" ].

Definition describe (s : Seller) : string :=
  name s ++ "(" ++ match strategy s with Some t => t | None => "undefined" end ++ ")".

(** What [extractAllSellers] does once the navigation is over. *)
Definition afterLoad (tag : string) : M St (list Seller) :=
  p <- getPage ;;
  let currentUrl := url p in
  pageTitle <- lift (title p) ;;
  logAt Info (tag ++ "Redirected to: " ++ currentUrl) ;;;
  logAt Info (tag ++ "Page title: " ++ pageTitle) ;;;
  if notFoundTitle pageTitle || JS.includes currentUrl "/errors/" then
    logAt Info (tag ++ "Product not found on this marketplace") ;;;
    ret []
  else
    hasCaptcha <- lift (captchaForm p) ;;
    if (hasCaptcha : bool) then
      logAt Warning (tag ++ "CAPTCHA detected — skipping") ;;;
      ret []
    else
      match List.find (appears p) offerSelectors with
      | Some sel => logAt Info (tag ++ "Found offers with selector: " ++ sel)
      | None =>
          logAt Info (tag ++ "No offer container found, waiting 5s as fallback...") ;;;
          delay 5000
      end ;;;
      debug <- tryCatch (evaluate (fun d => Ok (Dom.debugInfo d))) (fun _ => ret "{}") ;;
      logAt Info (tag ++ "Debug: " ++ debug) ;;;
      sellers <- tryCatch (evaluate (fun d => Ok (sellersInPage d))) (fun _ => ret []) ;;
      let unique := uniqueBySellerId sellers in
      logAt Info (tag ++ "Found " ++ pretty (length unique) ++ " seller(s): "
                    ++ JS.join ", " (List.map describe unique)) ;;;
      ret unique.

Definition offerUrl (asin : string) (marketplace : Constants.Marketplace) : string :=
  "https://www." ++ Constants.domain marketplace ++ "/gp/offer-listing/"
    ++ asin ++ "/ref=dp_olp_NEW_mbc?condition=NEW".

Definition tagOf (marketplace : Constants.Marketplace) : string :=
  "[" ++ Constants.code marketplace ++ "] ".

Definition extractAllSellers (asin : string) (marketplace : Constants.Marketplace)
  : M St (list Seller) :=
  let tag := tagOf marketplace in
  logAt Info (String Regex.newline (tag ++ "Loading offers: " ++ offerUrl asin marketplace)) ;;;
  tryCatch (goto b (offerUrl asin marketplace))
           (fun err => logAt Warning (tag ++ "Page load timeout, continuing anyway: " ++ err)) ;;;
  afterLoad tag.

Definition extractSellerInfo : string -> M St Object :=
  extractSellerInfoWith b Profile.sellerInfoInPage "    "
    (fun _ err => "    Failed to extract seller info: " ++ err)%string.

Definition scrapeAsinOnMarketplace : string -> Constants.Marketplace -> Options -> M St (list Object) :=
  scrapeWith extractAllSellers extractSellerInfo.

End WithBrowser.
End ScraperMulti.

(** ** Discovery as the specification words it

    Written from the specification, to be compared with the in-page code
    of [ScraperMulti]: every strategy yields candidates, a candidate needs
    a non-empty text and a non-empty seller id, the candidates of the
    strategies are put one after the other in priority order, and of the
    candidates with one seller id the first is kept. *)
Module DiscoverySpec.
Import Scraper.

Section WithBrowser.
Context (b : Eff.Browser).

Definition candidate (tag : string) (linkName : string) (id : option string)
           (href : string) : option Seller :=
  match id with
  | Some i =>
      if JS.truthy i && JS.truthy linkName
      then Some {| name := linkName; sellerId := i; sellerHref := href; strategy := Some tag |}
      else None
  | None => None
  end.

(** Strategies a and b: the seller id carried by the link. *)
Definition viaLink (tag : string) (a : Dom.Anchor) : option Seller :=
  candidate tag (JS.trim (Dom.textContent a))
            (ScraperMulti.extractSellerId b (Dom.href a)) (Dom.href a).

(** Strategy c: a link next to a "sold by" label; its id comes from the
    query, else from the path of a profile link. *)
Definition viaSoldBy (a : Dom.Anchor) : option Seller :=
  if ScraperMulti.nearSoldBy a then
    let id := ScraperMulti.extractSellerId b (Dom.href a) in
    match candidate "soldBy" (JS.trim (Dom.textContent a)) id (Dom.href a) with
    | Some s => Some s
    | None =>
        if negb (match id with Some i => JS.truthy i | None => false end)
           && JS.includes (Dom.href a) "/sp"
        then candidate "soldByPath" (JS.trim (Dom.textContent a))
                       (Regex.search ScraperMulti.sellerPathPattern (Dom.href a)) (Dom.href a)
        else None
    end
  else None.

Definition candidates (d : Dom.Document) : list Seller :=
  omap (viaLink "aag") (List.filter (Dom.hrefContains "/gp/aag/main") (Dom.anchors d))
  ++ omap (viaLink "sellerParam") (List.filter (Dom.hrefContains "seller=") (Dom.anchors d))
  ++ omap viaSoldBy (Dom.anchors d).

(** Keep a candidate unless its seller id was met before. *)
Fixpoint keepFirst (seen : gset string) (cands : list Seller) : list Seller :=
  match cands with
  | [] => []
  | c :: rest =>
      if bool_decide (sellerId c ∈ seen) then keepFirst seen rest
      else c :: keepFirst ({[ sellerId c ]} ∪ seen) rest
  end.

Definition discoverSellers (d : Dom.Document) : list Seller :=
  keepFirst ∅ (candidates d).

(** The accumulator of the in-page code after one more candidate. *)
Definition addNew (acc : ScraperMulti.Acc) (c : Seller) : ScraperMulti.Acc :=
  if bool_decide (sellerId c ∈ ScraperMulti.seenIds acc) then acc
  else ScraperMulti.record acc c.

End WithBrowser.
End DiscoverySpec.

(** ** The product-page scraper of [src/scraper.js]

    Its [extractSellerInfo] and step 3 of its [scrapeAsinOnMarketplace],
    the loop over [sellersToVisit], for sellers whose id is known.  Steps
    1 and 2, which collect [sellersToVisit] from the product page and the
    offers panel, follow in [ScraperAodFlow]. *)
Module ScraperAod.
Import Obj Eff Scraper.
Local Open Scope eff_scope.

Section WithBrowser.
Context (b : Browser).

Definition extractSellerInfo : string -> M St Object :=
  extractSellerInfoWith b Profile.sellerInfoInPageAod "    Seller: "
    (fun sellerUrl err =>
       "    Failed to extract seller info from " ++ sellerUrl ++ ": " ++ err)%string.

(** Step 3 of [scrapeAsinOnMarketplace]. *)
Definition visit : string -> Constants.Marketplace -> Options -> list Seller
                   -> M St (list Object) :=
  fun asin marketplace options sellersToVisit =>
    visitSellers extractSellerInfo asin marketplace options sellersToVisit [].

End WithBrowser.
End ScraperAod.

(** ** main.js

    The scraping loop with its two variables; the input defaults and
    the browser set-up before it are left out, the summary after it
    follows in [MainSummary]. *)
Module Main.
Import Obj Eff.
Local Open Scope eff_scope.

(** The input after its defaults were applied. *)
Record Input := {
  asins : list string;
  maxAsins : nat;
  selectedMarketplaces : list string;
  delayBetweenRequests : nat;
  skipAmazonSellers : bool
}.

Definition asinsToProcess (input : Input) : list string :=
  if (0 <? maxAsins input)%nat then firstn (maxAsins input) (asins input) else asins input.

Definition marketplacesToScrape (input : Input) : list Constants.Marketplace :=
  match selectedMarketplaces input with
  | [] => Constants.MARKETPLACES
  | _ => List.filter
           (fun m => existsb (String.eqb (Constants.code m)) (selectedMarketplaces input))
           Constants.MARKETPLACES
  end.

(** The variables of the scraping loop, the dataset behind
    [Actor.pushData], and the state of the scraper. *)
Record Run := {
  allResults : list Object;
  sellersSeen : gmap string string;      (* sellerId -> first marketplace found *)
  dataset : list Object;
  scraper : St
}.

Definition inScraper {A} (m : M St A) : M Run A :=
  fun run =>
    let '(r, st) := m (scraper run) in
    (r, {| allResults := allResults run; sellersSeen := sellersSeen run;
           dataset := dataset run; scraper := st |}).

(** [`${seller.sellerId}`] *)
Definition dedupeKey (seller : Object) : string :=
  match seller !! "sellerId" with
  | Some v => Scraper.show v
  | None => "undefined"
  end.

(** The records emitted while one marketplace is processed, read against
    the seen-map before ([seen]) and after ([seen']): a record whose key
    is known is a duplicate of the marketplace on file, a record whose key
    is new is filed under the current marketplace. *)
Fixpoint annotated (current : string) (seen : gmap string string)
         (emitted : list Object) (seen' : gmap string string) : Prop :=
  match emitted with
  | [] => seen' = seen
  | rec :: rest =>
      match seen !! dedupeKey rec with
      | Some first =>
          rec !! "isDuplicate" = Some (VBool true)
          /\ rec !! "firstSeenOnMarketplace" = Some (VStr first)
          /\ annotated current seen rest seen'
      | None =>
          rec !! "isDuplicate" = Some (VBool false)
          /\ rec !! "firstSeenOnMarketplace" = Some (VStr current)
          /\ annotated current (<[dedupeKey rec := current]> seen) rest seen'
      end
  end.

Section Loop.
Context (scrapeAsinOnMarketplace :
           string -> Constants.Marketplace -> Scraper.Options -> M St (list Object)).
Context (pushData : Object -> Exc unit).     (* Actor.pushData resolves or rejects *)
Context (input : Input).

(** The body of [for (const seller of sellers)]. *)
Definition emit (marketplace : Constants.Marketplace) (seller : Object) : M Run unit :=
  fun run =>
    let key := dedupeKey seller in
    let '(seller, seen) :=
      match sellersSeen run !! key with
      | Some first =>
          (<["isDuplicate" := VBool true]>
             (<["firstSeenOnMarketplace" := VStr first]> seller),
           sellersSeen run)
      | None =>
          (<["isDuplicate" := VBool false]>
             (<["firstSeenOnMarketplace" := VStr (Constants.code marketplace)]> seller),
           <[key := Constants.code marketplace]> (sellersSeen run))
      end in
    let results := allResults run ++ [seller] in
    match pushData seller with
    | Ok _ => (Ok tt, {| allResults := results; sellersSeen := seen;
                         dataset := dataset run ++ [seller]; scraper := scraper run |})
    | Throw e => (Throw e, {| allResults := results; sellersSeen := seen;
                              dataset := dataset run; scraper := scraper run |})
    end.

(** The body of [for (const marketplace of marketplacesToScrape)]. *)
Definition processMarketplace (asin : string) (marketplace : Constants.Marketplace)
  : M Run unit :=
  tryCatch
    (sellers <- inScraper
                  (scrapeAsinOnMarketplace asin marketplace
                     {| Scraper.skipAmazonSellers := skipAmazonSellers input;
                        Scraper.delayBetweenRequests := delayBetweenRequests input |}) ;;
     forEach sellers (emit marketplace))
    (fun err =>
       inScraper (logAt Error ("[" ++ Constants.code marketplace
                                 ++ "] Unexpected error for ASIN " ++ asin ++ ": " ++ err))) ;;;
  inScraper (delay (delayBetweenRequests input)).

Definition rule : string :=
  "============================================================".

Definition processAsin (asin : string) : M Run unit :=
  inScraper (logAt Info (String Regex.newline rule) ;;;
             logAt Info ("Processing ASIN: " ++ asin) ;;;
             logAt Info rule) ;;;
  forEach (marketplacesToScrape input) (processMarketplace asin).

Definition scrapingLoop : M Run unit :=
  forEach (asinsToProcess input) processAsin.

Definition start (st : St) : Run :=
  {| allResults := []; sellersSeen := ∅; dataset := []; scraper := st |}.

End Loop.
End Main.

(** ** Sample pages *)
Module Samples.
Import Obj Eff.

Definition nl : string := String Regex.newline EmptyString.

(** White space beyond ASCII: the no-break space U+00A0, the em space
    U+2003 and the ideographic space U+3000. *)
Definition nbsp : string := JS.bytes [194; 160].
Definition emSpace : string := JS.bytes [226; 128; 131].
Definition ideographicSpace : string := JS.bytes [227; 128; 128].

(** The Kelvin sign U+212A, whose lower case is "k". *)
Definition kelvin : string := JS.bytes [226; 132; 170].

Definition noLinks (heading : option string) (text : option string)
           (headings : list Dom.Heading) : Dom.Document :=
  {| Dom.anchors := []; Dom.debugInfo := "{}"; Dom.h1 := heading; Dom.body := text;
     Dom.h3 := headings; Dom.ratingLinkDiv := None |}.

(** The detail block of the address example, label without colon. *)
Definition addressLines : list string :=
  [ "Business Address"; "12 High Street"; "London, EC1 1AA"; "United Kingdom";
    "VAT Number: GB123456789" ].

(** The same block with the colon that the rendered label carries. *)
Definition addressLinesColon : list string :=
  [ "Business Address:"; "12 High Street"; "London, EC1 1AA"; "United Kingdom";
    "VAT Number: GB123456789" ].

(** A profile without h1 and without detail heading. *)
Definition bareProfile : Dom.Document := noLinks None (Some "Storefront") [].

(** A profile whose feedback summary shows zeros. *)
Definition zeroRated : Dom.Document :=
  noLinks (Some "New Shop")
          (Some ("New Shop" ++ nl ++ "0 out of 5 stars" ++ nl
                   ++ "0% positive in the last 12 months (0 ratings)")%string)
          [].

Definition acme : Scraper.Seller :=
  {| Scraper.name := "Acme Trading"; Scraper.sellerId := "A1XYZ";
     Scraper.sellerHref := "https://www.amazon.de/gp/aag/main?seller=A1XYZ";
     Scraper.strategy := Some "aag" |}.

Definition de : Constants.Marketplace :=
  {| Constants.code := "DE"; Constants.domain := "amazon.de";
     Constants.currency := "EUR"; Constants.tld := "de" |}.

Definition uk : Constants.Marketplace :=
  {| Constants.code := "UK"; Constants.domain := "amazon.co.uk";
     Constants.currency := "GBP"; Constants.tld := "co.uk" |}.

(** A profile without detail heading that shows a service phone. *)
Definition phoneOnly : Dom.Document :=
  noLinks (Some "Gulf Traders")
          (Some ("Gulf Traders" ++ nl ++ "Customer Service Phone: +44 20 7946 0958" ++ nl
                   ++ "Returns and refunds")%string)
          [].

(** A detail heading without any enclosing block. *)
Definition headingWithoutBlock : Dom.Document :=
  noLinks (Some "Gulf Traders")
          (Some ("Detailed Seller Information" ++ nl
                   ++ "Customer Service Phone: +44 20 7946 0958")%string)
          [ {| Dom.headingText := "Detailed Seller Information"; Dom.container := None |} ].

(** A detail block with its own phone number, and a service phone
    elsewhere on the page. *)
Definition fullProfile : Dom.Document :=
  noLinks (Some "Acme Trading")
          (Some ("Acme Trading" ++ nl ++ "Customer Service Phone: 0800 111" ++ nl
                   ++ "Detailed Seller Information" ++ nl ++ "Phone number: 030 222")%string)
          [ {| Dom.headingText := "Detailed Seller Information";
               Dom.container := Some ("Business Name: Acme GmbH" ++ nl
                                        ++ "Phone number: 030 222")%string |} ].

(** A browser that always lands on the given page. *)
Definition serving (p : PageState) : Browser :=
  {| navigate := fun _ _ => (Ok tt, p); searchParams := fun _ => None |}.

Definition showing (d : Dom.Document) : PageState :=
  {| url := "https://www.amazon.ae/sp?seller=A1XYZ"; title := Ok "Amazon.ae Seller Profile";
     captchaForm := Ok false; appears := fun _ => false; document := Ok d |}.

(** The query of a URL, split at [&] and [=] (no decoding). *)
Definition afterChar (sep : ascii) (s : string) : string :=
  match JS.splitChar sep s with
  | _ :: rest => JS.join (String sep EmptyString) rest
  | [] => EmptyString
  end.

Definition queryParams (href : string) : option (list (string * string)) :=
  if JS.startsWith href "http" then
    if JS.includes href "?" then
      Some (List.map (fun kv => (match JS.splitChar "=" kv with k :: _ => k | [] => EmptyString end,
                                 afterChar "=" kv))
                     (JS.splitChar "&" (afterChar "?" href)))
    else Some []
  else None.

Definition link (href text before parent : string) : Dom.Anchor :=
  {| Dom.hrefAttr := Some href; Dom.href := href; Dom.textContent := text;
     Dom.previousSiblingText := before; Dom.parentText := parent |}.

(** An offer listing that names seller A1XYZ three times: twice by
    storefront links with different texts, once next to "Sold by". *)
Definition repeatedSeller : Dom.Document :=
  {| Dom.anchors :=
       [ link "https://www.amazon.de/gp/aag/main?seller=A1XYZ&ref=1" "Acme" "" "Acme";
         link "https://www.amazon.de/gp/aag/main?seller=B2QRS" "Bolt GmbH" "" "Bolt GmbH";
         link "https://www.amazon.de/gp/aag/main?seller=A1XYZ&ref=2" "Acme Trading Ltd" ""
              "Acme Trading Ltd";
         link "https://www.amazon.de/sp?seller=A1XYZ" "Acme Store" "Sold by " "Sold by Acme Store" ];
     Dom.debugInfo := "{}"; Dom.h1 := None; Dom.body := Some ""; Dom.h3 := [];
     Dom.ratingLinkDiv := None |}.

Definition offers : PageState :=
  {| url := "https://www.amazon.de/dp/B07YDVWL4J"; title := Ok "Acme Widget : Amazon.de";
     captchaForm := Ok false; appears := fun sel => String.eqb sel "#ppd";
     document := Ok repeatedSeller |}.

(** A browser that lands on the offers. *)
Definition online : Browser :=
  {| navigate := fun _ _ => (Ok tt, offers); searchParams := queryParams |}.

(** A browser whose navigation times out after the offers were rendered. *)
Definition slow : Browser :=
  {| navigate := fun _ _ => (Throw "page.goto: Timeout 45000ms exceeded.", offers);
     searchParams := queryParams |}.

(** A browser that cannot reach any site. *)
Definition offline : Browser :=
  {| navigate := fun _ p => (Throw "net::ERR_INTERNET_DISCONNECTED", p);
     searchParams := fun _ => None |}.

Definition blankPage : PageState :=
  {| url := "about:blank"; title := Ok ""; captchaForm := Ok false;
     appears := fun _ => false; document := Ok (noLinks None (Some "") []) |}.

Definition idle : St := {| page := blankPage; log := []; clock := 0 |}.

Definition options : Scraper.Options :=
  {| Scraper.skipAmazonSellers := true; Scraper.delayBetweenRequests := 3000 |}.

Definition input : Main.Input :=
  {| Main.asins := ["B07YDVWL4J"]; Main.maxAsins := 0;
     Main.selectedMarketplaces := ["UK"; "DE"];
     Main.delayBetweenRequests := 3000; Main.skipAmazonSellers := true |}.

(** A dataset that accepts every record. *)
Definition accepting (record : Obj.Object) : Exc unit := Ok tt.

End Samples.

(** ** The product-page flow of [src/scraper.js]

    Steps 1 and 2 of its [scrapeAsinOnMarketplace] and the flow around
    them.  The product page is represented by what the selectors of
    [constants.js] read from it. *)
Module ScraperAodFlow.
Import Obj Eff.
Local Open Scope eff_scope.

(** What [page.$eval] and [page.$$eval] find on the page; [Throw] when no
    element matches or the call is rejected. *)
Record ProductView := {
  primarySellerLink : Exc Dom.Anchor;       (* SELECTORS.PRIMARY_SELLER_LINK *)
  resolvedParams : string -> option (list (string * string));
    (* new URL(href, location.origin).searchParams; None when the constructor throws *)
  merchantInfo : Exc string;                (* innerText of SELECTORS.MERCHANT_INFO *)
  otherSellersBox : Exc string;             (* innerText of SELECTORS.OTHER_SELLERS_BOX *)
  offerListShown : Exc unit;                (* waitForSelector(SELECTORS.AOD_OFFER_LIST) *)
  offerLinks : Exc (list (option Dom.Anchor))
    (* for every AOD_OFFER_LIST AOD_OFFER block, offer.querySelector(SELLER_LINK_IN_OFFER) *)
}.

(** The site under the browser: what a page shows and what a click on
    the "other sellers" link leaves. *)
Record Site := {
  browser : Browser;
  view : PageState -> ProductView;
  click : PageState -> Exc unit * PageState   (* page.click(SELECTORS.AOD_INGRESS_LINK) *)
}.

(** [{ name, sellerId, href }]; [sellerId] is [None] for [undefined]. *)
Record Found := {
  name : string;
  sellerId : option string;
  href : string
}.

Record ProductInfo := {
  primarySeller : option Found;
  hasOtherSellers : bool;
  otherSellersCount : Num.Number
}.

(** [`${seller.sellerId}`] *)
Definition idText (s : Found) : string :=
  match sellerId s with
  | Some i => i
  | None => "undefined"
  end.

(** [s.replace(/\s+/g, ' ')] *)
Fixpoint collapseFrom (inRun : bool) (s : string) : string :=
  match s with
  | EmptyString => EmptyString
  | String c1 s1 =>
      if JS.isWhitespace c1
      then if inRun then collapseFrom true s1 else String " " (collapseFrom true s1)
      else match s1 with
           | EmptyString => String c1 EmptyString
           | String c2 s2 =>
               if JS.isBlank2 c1 c2
               then if inRun then collapseFrom true s2 else String " " (collapseFrom true s2)
               else match s2 with
                    | EmptyString => String c1 (collapseFrom false s1)
                    | String c3 s3 =>
                        if JS.isBlank3 c1 c2 c3
                        then if inRun then collapseFrom true s3
                             else String " " (collapseFrom true s3)
                        else String c1 (collapseFrom false s1)
                    end
           end
  end.

Definition collapse : string -> string := collapseFrom false.

(** [s.replace(/\n/g, ' ')] *)
Fixpoint unbreak (s : string) : string :=
  match s with
  | EmptyString => EmptyString
  | String c s' => String (if Regex.only Regex.newline c then " "%char else c) (unbreak s')
  end.

(** [/\(( \d+ )\)/] (blanks added around the group) *)
Definition countInBrackets : Regex.Pattern :=
  Regex.lit "(" ++ [(Regex.Rep Regex.digit 1, true)] ++ Regex.lit ")".

(** A count in a template literal (counts below 10^21). *)
Definition showCount (n : Num.Number) : string :=
  match n with
  | Num.Dec v _ => pretty v
  | Num.NaN => "NaN"
  end.

Section WithSite.
Context (site : Site).

(** The callback on the primary seller link. *)
Definition readPrimary (v : ProductView) : Exc Found :=
  match primarySellerLink v with
  | Throw e => Throw e
  | Ok el =>
      match resolvedParams v (Dom.href el) with
      | None => Throw "TypeError: Invalid URL"
      | Some ps =>
          Ok {| name := JS.trim (Dom.textContent el);
                sellerId := JS.orElse (Scraper.paramGet "seller" ps)
                                      (Regex.search ScraperInline.sellerEqPattern (Dom.href el));
                href := Dom.href el |}
      end
  end.

Definition extractProductPageInfo : M St ProductInfo :=
  p <- getPage ;;
  let v := view site p in
  primary <- tryCatch
               (found <- lift (readPrimary v) ;;
                logAt Info ("  Primary seller: " ++ name found ++ " (" ++ idText found ++ ")") ;;;
                ret (Some found))
               (fun _ =>
                  tryCatch
                    (merchantText <- lift (match merchantInfo v with
                                           | Ok t => Ok (JS.trim t)
                                           | Throw e => Throw e
                                           end) ;;
                     logAt Info ("  Primary seller (no link): " ++ unbreak merchantText))
                    (fun _ => logAt Info "  Could not determine primary seller") ;;;
                  ret None) ;;
  others <- tryCatch
              (otherSellersText <- lift (match otherSellersBox v with
                                         | Ok t => Ok (collapse (JS.trim t))
                                         | Throw e => Throw e
                                         end) ;;
               let count := match Regex.search countInBrackets otherSellersText with
                            | Some m => Num.parseInt m
                            | None => Num.Dec 0 0
                            end in
               logAt Info ("  Other sellers found: " ++ showCount count) ;;;
               ret (true, count))
              (fun _ =>
                 logAt Info "  No other sellers box found" ;;;
                 ret (false, Num.Dec 0 0)) ;;
  ret {| primarySeller := primary; hasOtherSellers := fst others;
         otherSellersCount := snd others |}.

(** The callback of [page.$$eval] on the offer blocks. *)
Definition sellersInOffers (offers : list (option Dom.Anchor)) : list Scraper.Seller :=
  flat_map
    (fun offer =>
       match offer with
       | None => []
       | Some link =>
           let linkName := JS.trim (Dom.textContent link) in
           match ScraperInline.linkSellerId (browser site) (Dom.href link) with
           | Some id =>
               if JS.truthy linkName && JS.truthy id
               then [{| Scraper.name := linkName; Scraper.sellerId := id;
                        Scraper.sellerHref := Dom.href link; Scraper.strategy := None |}]
               else []
           | None => []
           end
       end)
    offers.

Definition clickIngress : M St unit :=
  fun st =>
    let '(r, p) := click site (page st) in
    (r, {| page := p; log := log st; clock := clock st |}).

Definition extractSellersFromAOD : M St (list Scraper.Seller) :=
  tryCatch
    (clickIngress ;;;
     (p <- getPage ;; lift (offerListShown (view site p))) ;;;
     delay 2000 ;;;
     sellers <- (p <- getPage ;;
                 lift (match offerLinks (view site p) with
                       | Ok offers => Ok (sellersInOffers offers)
                       | Throw e => Throw e
                       end)) ;;
     let unique := Scraper.uniqueBySellerId sellers in
     logAt Info ("  Extracted " ++ pretty (length unique) ++ " unique sellers from AOD panel") ;;;
     ret unique)
    (fun err =>
       logAt Warning ("  Failed to extract sellers from AOD: " ++ err) ;;;
       ret []).

Definition ofSeller (s : Scraper.Seller) : Found :=
  {| name := Scraper.name s; sellerId := Some (Scraper.sellerId s);
     href := Scraper.sellerHref s |}.

(** [a === b] on seller ids *)
Definition sameId (a b : option string) : bool :=
  match a, b with
  | Some x, Some y => String.eqb x y
  | None, None => true
  | _, _ => false
  end.

(** [for (const seller of aodSellers)] *)
Fixpoint addOthers (skipAmazonSellers : bool) (aodSellers : list Scraper.Seller)
         (sellersToVisit : list Found) : M St (list Found) :=
  match aodSellers with
  | [] => ret sellersToVisit
  | seller :: rest =>
      if skipAmazonSellers && isAmazonSeller (Some (Scraper.name seller)) then
        logAt Info ("  Skipping seller (Amazon): " ++ Scraper.name seller) ;;;
        addOthers skipAmazonSellers rest sellersToVisit
      else if existsb (fun s => sameId (sellerId s) (Some (Scraper.sellerId seller)))
                      sellersToVisit
      then addOthers skipAmazonSellers rest sellersToVisit
      else addOthers skipAmazonSellers rest (sellersToVisit ++ [ofSeller seller])
  end.

(** The record of a visited seller; a property that holds [undefined]
    reads as a missing one. *)
Definition foundRecord (asin : string) (marketplace : Constants.Marketplace)
           (seller : Found) (sellerInfo : Object) (scrapedAt : nat) : Object :=
  let written :=
    Scraper.sellerRecord asin marketplace
      {| Scraper.name := name seller; Scraper.sellerId := idText seller;
         Scraper.sellerHref := href seller; Scraper.strategy := None |}
      sellerInfo scrapedAt in
  match sellerId seller with
  | Some _ => written
  | None => delete "sellerId" written
  end.

Definition sellerProfileUrl (asin : string) (marketplace : Constants.Marketplace)
           (seller : Found) : string :=
  "https://www." ++ Constants.domain marketplace ++ "/sp?seller=" ++ idText seller
    ++ "&asin=" ++ asin.

(** Step 3: [for (const seller of sellersToVisit)] *)
Fixpoint visitFound (asin : string) (marketplace : Constants.Marketplace)
         (options : Scraper.Options) (sellersToVisit : list Found) (results : list Object)
  : M St (list Object) :=
  match sellersToVisit with
  | [] => ret results
  | seller :: rest =>
      delay (Scraper.delayBetweenRequests options) ;;;
      sellerInfo <- ScraperAod.extractSellerInfo (browser site)
                      (sellerProfileUrl asin marketplace seller) ;;
      scrapedAt <- now ;;
      visitFound asin marketplace options rest
        (results ++ [foundRecord asin marketplace seller sellerInfo scrapedAt])
  end.

Definition productUrl (asin : string) (marketplace : Constants.Marketplace) : string :=
  "https://www." ++ Constants.domain marketplace ++ "/dp/" ++ asin.

(** The sellers collected by steps 1 and 2. *)
Definition collectSellers (options : Scraper.Options) : M St (list Found) :=
  productInfo <- extractProductPageInfo ;;
  sellersToVisit <- match primarySeller productInfo with
                    | Some primary =>
                        if Scraper.skipAmazonSellers options
                           && isAmazonSeller (Some (name primary))
                        then logAt Info ("  Skipping primary seller (Amazon): "
                                           ++ name primary) ;;;
                             ret []
                        else ret [primary]
                    | None => ret []
                    end ;;
  if hasOtherSellers productInfo then
    aodSellers <- extractSellersFromAOD ;;
    addOthers (Scraper.skipAmazonSellers options) aodSellers sellersToVisit
  else ret sellersToVisit.

Definition scrapeAsinOnMarketplace (asin : string) (marketplace : Constants.Marketplace)
           (options : Scraper.Options) : M St (list Object) :=
  let tag := ("[" ++ Constants.code marketplace ++ "] ")%string in
  logAt Info (String Regex.newline (tag ++ "Scraping " ++ productUrl asin marketplace)) ;;;
  loaded <- tryCatch
              (goto (browser site) (productUrl asin marketplace) ;;; delay 2000 ;;; ret true)
              (fun err => logAt Warning (tag ++ "Failed to load product page: " ++ err) ;;;
                          ret false) ;;
  if negb loaded then ret []
  else
    p <- getPage ;;
    pageTitle <- lift (title p) ;;
    if Scraper.notFoundTitle pageTitle then
      logAt Info (tag ++ "Product not found on this marketplace") ;;;
      ret []
    else
      sellersToVisit <- collectSellers options ;;
      match sellersToVisit with
      | [] =>
          logAt Info (tag ++ "No third-party sellers to visit") ;;;
          ret []
      | _ =>
          logAt Info (tag ++ "Visiting " ++ pretty (length sellersToVisit)
                        ++ " seller profile(s)...") ;;;
          visitFound asin marketplace options sellersToVisit []
      end.

End WithSite.
End ScraperAodFlow.

(** ** The summary of [main.js] *)
Module MainSummary.
Import Obj Eff Main.
Local Open Scope eff_scope.

(** [allResults.filter(r => r[k]).length] *)
Definition countWith (k : string) (allResults : list Object) : nat :=
  length (List.filter (fun r => negb (falsy (r !! k))) allResults).

Definition summary (input : Input) : M Run unit :=
  fun run =>
    let withPhone := countWith "phoneNumber" (allResults run) in
    let withEmail := countWith "email" (allResults run) in
    inScraper
      (logAt Info (String Regex.newline rule) ;;;
       logAt Info "SCRAPING COMPLETE" ;;;
       logAt Info rule ;;;
       logAt Info ("Total seller records: " ++ pretty (length (allResults run))) ;;;
       logAt Info ("Unique sellers: " ++ pretty (size (sellersSeen run))) ;;;
       logAt Info ("ASINs processed: " ++ pretty (length (asinsToProcess input))) ;;;
       logAt Info ("Marketplaces checked: " ++ pretty (length (marketplacesToScrape input))) ;;;
       logAt Info ("Records with phone: " ++ pretty withPhone) ;;;
       logAt Info ("Records with email: " ++ pretty withEmail))
      run.

End MainSummary.

(** ** Reading the records *)
Module Reading.
Import Obj Scraper.

(** The record was built for seller [s] of marketplace [m] and product
    [asin]. *)
Definition recordOf (asin : string) (m : Constants.Marketplace) (s : Seller) (r : Object)
  : Prop :=
  r !! "asin" = Some (VStr asin)
  /\ r !! "marketplace" = Some (VStr (Constants.code m))
  /\ r !! "marketplaceDomain" = Some (VStr (Constants.domain m))
  /\ r !! "sellerName" = Some (VStr (name s))
  /\ r !! "sellerId" = Some (VStr (sellerId s)).

(** [allSellers.filter(s => !isAmazonSeller(s.name))] when
    [skipAmazonSellers] is set, [allSellers] when it is not. *)
Definition sellersToVisit (o : Options) (allSellers : list Seller) : list Seller :=
  if skipAmazonSellers o
  then List.filter (fun s => negb (isAmazonSeller (Some (name s)))) allSellers
  else allSellers.

(** The property that a label of the detail block fills, by the
    lower-cased label; [None] for any other label. *)
Definition labelled (keyLower : string) : option string :=
  if String.eqb keyLower "business name" then Some "businessName"
  else if String.eqb keyLower "business type" then Some "businessType"
  else if String.eqb keyLower "trade register number" then Some "tradeRegisterNumber"
  else if String.eqb keyLower "vat number" then Some "vatNumber"
  else if String.eqb keyLower "phone number" then Some "phoneNumber"
  else if String.eqb keyLower "email" then Some "email"
  else None.

(** The address that a label without a value of its own starts, by the
    lower-cased label; [None] for any other label. *)
Definition addressLabelled (keyLower : string) : option string :=
  if String.eqb keyLower "business address" then Some "businessAddress"
  else if String.eqb keyLower "customer services address" then Some "customerServiceAddress"
  else None.

(** The properties that the loop over the lines of the detail block can
    write. *)
Definition parsed : list string :=
  [ "businessName"; "businessType"; "tradeRegisterNumber"; "vatNumber"; "phoneNumber";
    "email"; "businessAddress"; "customerServiceAddress" ].

(** What opening the offers panel from page [p] comes to: the links of
    the offer blocks, or the message of the first call that was
    rejected (the click, the wait for the offer list, the evaluation). *)
Definition panel (site : ScraperAodFlow.Site) (p : Eff.PageState)
  : Eff.Exc (list (option Dom.Anchor)) :=
  match fst (ScraperAodFlow.click site p) with
  | Eff.Throw e => Eff.Throw e
  | Eff.Ok _ =>
      let opened := ScraperAodFlow.view site (snd (ScraperAodFlow.click site p)) in
      match ScraperAodFlow.offerListShown opened with
      | Eff.Throw e => Eff.Throw e
      | Eff.Ok _ => ScraperAodFlow.offerLinks opened
      end
  end.

(** The record is the object that the scraper returned, with the two
    provenance properties written onto it. *)
Definition annotates (seller rec : Object) : Prop :=
  forall k, k <> "isDuplicate" -> k <> "firstSeenOnMarketplace" -> rec !! k = seller !! k.

(** [Actor.pushData(rec)] resolves. *)
Definition accepted (pushData : Object -> Eff.Exc unit) (rec : Object) : bool :=
  match pushData rec with
  | Eff.Ok _ => true
  | Eff.Throw _ => false
  end.

(** What one turn of the marketplace loop emits, given what the scraper
    returned: nothing when it threw; else one record for every seller, in
    order, up to the first record that the dataset rejects; the dataset
    gains the records that it accepted. *)
Definition emittedFor (pushData : Object -> Eff.Exc unit) (returned : Eff.Exc (list Object))
           (emitted : list Object) (before after : list Object) : Prop :=
  after = before ++ List.filter (accepted pushData) emitted
  /\ match returned with
     | Eff.Throw _ => emitted = []
     | Eff.Ok sellers =>
         Forall2 annotates (firstn (length emitted) sellers) emitted
         /\ Forall (fun rec => accepted pushData rec = true) (removelast emitted)
         /\ (length emitted = length sellers
             \/ exists init rec, emitted = init ++ [rec] /\ accepted pushData rec = false)
     end.

(** The record was not flagged as a duplicate. *)
Definition firstOfSeller (r : Object) : bool :=
  match r !! "isDuplicate" with
  | Some (VBool false) => true
  | _ => false
  end.

(** The records agree with the seen-map: a record is marked as a
    duplicate exactly when an earlier record has its key, every record
    carries the marketplace that the map holds for its key, and the map
    holds no key without a record. *)
Definition consistent (results : list Object) (seen : gmap string string) : Prop :=
  (forall pre rec post,
      results = pre ++ rec :: post ->
      rec !! "isDuplicate"
      = Some (VBool (existsb (String.eqb (Main.dedupeKey rec)) (List.map Main.dedupeKey pre)))
      /\ exists first,
           rec !! "firstSeenOnMarketplace" = Some (VStr first)
           /\ seen !! Main.dedupeKey rec = Some first)
  /\ (forall k first, seen !! k = Some first -> In k (List.map Main.dedupeKey results)).

End Reading.

(** ** Further sample pages *)
Module Cases.
Import Obj Eff.

(** What Amazon serves for an ASIN that the marketplace does not list;
    the page answers no further query. *)
Definition missing : PageState :=
  {| url := "https://www.amazon.se/gp/offer-listing/B07YDVWL4J";
     title := Ok "Amazon.se Page Not Found";
     captchaForm := Throw "page.$: Target closed";
     appears := fun _ => false;
     document := Throw "page.evaluate: Target closed" |}.

(** A robot check under its usual address. *)
Definition challenged : PageState :=
  {| url := "https://www.amazon.de/gp/offer-listing/B07YDVWL4J";
     title := Ok "Amazon.de";
     captchaForm := Ok true;
     appears := fun _ => false;
     document := Ok (Samples.noLinks None (Some "Enter the characters you see below") []) |}.

(** A page that was closed under the scraper. *)
Definition closed : PageState :=
  {| url := "about:blank";
     title := Throw "page.title: Target closed";
     captchaForm := Throw "page.$: Target closed";
     appears := fun _ => false;
     document := Throw "page.evaluate: Target closed" |}.

(** An offer listing that rejects the evaluation. *)
Definition frozen : PageState :=
  {| url := "https://www.amazon.de/dp/B07YDVWL4J";
     title := Ok "Acme Widget : Amazon.de";
     captchaForm := Ok false;
     appears := fun _ => false;
     document := Throw "page.$$eval: Execution context was destroyed" |}.

(** An offer listing whose only offer is Amazon's own. *)
Definition firstParty : PageState :=
  {| url := "https://www.amazon.de/dp/B07YDVWL4J";
     title := Ok "Acme Widget : Amazon.de";
     captchaForm := Ok false;
     appears := fun sel => String.eqb sel "#ppd";
     document :=
       Ok {| Dom.anchors :=
               [ Samples.link "https://www.amazon.de/gp/aag/main?seller=A3JWKAKR8XB7XF"
                              " Amazon.de " "Sold by " "Sold by Amazon.de" ];
             Dom.debugInfo := "{}"; Dom.h1 := None; Dom.body := Some ""; Dom.h3 := [];
             Dom.ratingLinkDiv := None |} |}.

(** A browser that always lands on the given page and reads queries. *)
Definition landing (p : PageState) : Browser :=
  {| navigate := fun _ _ => (Ok tt, p); searchParams := Samples.queryParams |}.

(** A scraper that finds the same records everywhere. *)
Definition finding (records : list Object)
  : string -> Constants.Marketplace -> Scraper.Options -> M St (list Object) :=
  fun _ _ _ => ret records.

(** A record that holds a seller id and nothing else. *)
Definition sold (sellerId : string) : Object := {[ "sellerId" := VStr sellerId ]}.

(** A dataset that rejects the records of one seller. *)
Definition rejecting (sellerId : string) (record : Object) : Exc unit :=
  if String.eqb (Main.dedupeKey record) sellerId
  then Throw "Dataset quota exceeded"
  else Ok tt.

(** An input that selects a marketplace the table does not hold. *)
Definition overseas : Main.Input :=
  {| Main.asins := ["B07YDVWL4J"]; Main.maxAsins := 0;
     Main.selectedMarketplaces := ["US"];
     Main.delayBetweenRequests := 3000; Main.skipAmazonSellers := true |}.

(** A product page of Acme with a box "New (3) from ..." whose panel
    lists Acme again, an offer without seller link, Bolt and Amazon. *)
Definition productView : ScraperAodFlow.ProductView :=
  {| ScraperAodFlow.primarySellerLink :=
       Ok (Samples.link "https://www.amazon.de/sp?seller=A1XYZ&asin=B07YDVWL4J" " Acme "
                        "Sold by " "Sold by Acme");
     ScraperAodFlow.resolvedParams := Samples.queryParams;
     ScraperAodFlow.merchantInfo := Throw "page.$eval: no element matches the selector";
     ScraperAodFlow.otherSellersBox := Ok "New (3) from   9,99";
     ScraperAodFlow.offerListShown := Ok tt;
     ScraperAodFlow.offerLinks :=
       Ok [ Some (Samples.link "https://www.amazon.de/gp/aag/main?seller=A1XYZ" "Acme" "" "Acme");
            None;
            Some (Samples.link "https://www.amazon.de/gp/aag/main?seller=B2QRS" "Bolt GmbH" ""
                               "Bolt GmbH");
            Some (Samples.link "https://www.amazon.de/gp/aag/main?seller=A3JWKAKR8XB7XF"
                               "Amazon.de" "" "Amazon.de") ] |}.

(** The shop behind a browser: every page shows [productView], and the
    click on the "other sellers" link goes through. *)
Definition shop (b : Browser) : ScraperAodFlow.Site :=
  {| ScraperAodFlow.browser := b;
     ScraperAodFlow.view := fun _ => productView;
     ScraperAodFlow.click := fun p => (Ok tt, p) |}.

End Cases.

(** * Properties *)

(** ** Strings *)

(** Reads the byte tests in the hypotheses as equations and bounds. *)
Ltac bytes :=
  unfold JS.isWhitespace, JS.isBlank2, JS.isBlank3, JS.isUpper, JS.isUpperLatin1, JS.isDottedI,
    JS.isKelvin in *;
  cbv zeta in *;
  repeat match goal with
         | H : (_ && _)%bool = true |- _ => apply andb_prop in H as [? ?]
         | H : (_ || _)%bool = true |- _ => apply orb_prop in H as [? | ?]
         | H : (_ || _)%bool = false |- _ => apply orb_false_elim in H as [? ?]
         | H : negb _ = true |- _ => apply negb_true_iff in H
         | H : (_ =? _)%nat = true |- _ => apply Nat.eqb_eq in H
         | H : (_ =? _)%nat = false |- _ => apply Nat.eqb_neq in H
         | H : (_ <=? _)%nat = true |- _ => apply Nat.leb_le in H
         | H : (_ <=? _)%nat = false |- _ => apply Nat.leb_gt in H
         end.

(** Settles a byte test that the bounds at hand contradict. *)
Ltac no_byte := apply not_true_is_false; intros ?; bytes; lia.

Section StringFacts.
Import JS.


Lemma string_length_ind (P : string -> Prop) :
  (forall s, (forall t, String.length t < String.length s -> P t) -> P s) ->
  forall s, P s.
Proof.
  intros step s. remember (String.length s) as n eqn:Hn. revert s Hn.
  induction n as [n IH] using lt_wf_ind. intros s ->.
  apply step. intros t Ht. exact (IH _ Ht t eq_refl).
Qed.

Lemma append_nil_r s : (s ++ "")%string = s.
Proof. induction s as [|c s IH]; cbn [String.append]; [reflexivity | now rewrite IH]. Qed.

Lemma append_assoc s t u : ((s ++ t) ++ u)%string = (s ++ t ++ u)%string.
Proof. induction s as [|c s IH]; cbn [String.append]; [reflexivity | now rewrite IH]. Qed.

Lemma append_length s t : String.length (s ++ t) = String.length s + String.length t.
Proof. induction s as [|c s IH]; cbn [String.append String.length]; [reflexivity | now rewrite IH]. Qed.

(** *** White-space characters *)

(** A white-space character takes one, two or three bytes. *)
Lemma blankChar_cases b :
  blankChar b = true ->
  (exists c1, b = String c1 "" /\ isWhitespace c1 = true)
  \/ (exists c1 c2, b = String c1 (String c2 "")
                    /\ isWhitespace c1 = false /\ isBlank2 c1 c2 = true)
  \/ (exists c1 c2 c3, b = String c1 (String c2 (String c3 ""))
                       /\ isWhitespace c1 = false /\ isBlank2 c1 c2 = false
                       /\ isBlank3 c1 c2 c3 = true).
Proof.
  unfold blankChar. intros H. apply andb_prop in H as [Hne H]. apply Nat.eqb_eq in H.
  destruct b as [|c1 [|c2 [|c3 b3]]]; cbn [blankWidth String.length] in H.
  - discriminate Hne.
  - left. exists c1. destruct (isWhitespace c1); [auto | discriminate H].
  - right. left. exists c1, c2.
    destruct (isWhitespace c1); [discriminate H|].
    destruct (isBlank2 c1 c2); [auto | discriminate H].
  - right. right. exists c1, c2, c3.
    destruct (isWhitespace c1); [discriminate H|].
    destruct (isBlank2 c1 c2); [discriminate H|].
    destruct (isBlank3 c1 c2 c3); [|discriminate H].
    destruct b3; [auto | discriminate H].
Qed.

Lemma byte_eq c n : byte c = n -> c = ascii_of_nat n.
Proof. intros <-. symmetry. apply ascii_nat_embedding. Qed.

(** The white-space characters are those of the list, and no other
    string is one. *)
Lemma blankChar_whiteSpace b : blankChar b = true <-> In b whiteSpace.
Proof.
  split.
  - intros H.
    destruct (blankChar_cases b H) as [(c1 & -> & H1) | [(c1 & c2 & -> & _ & H2)
      | (c1 & c2 & c3 & -> & _ & _ & H3)]]; bytes;
      try match goal with
          | Hlo : 128 <= byte ?c, Hhi : byte ?c <= 138 |- _ =>
              assert (byte c = 128 \/ byte c = 129 \/ byte c = 130 \/ byte c = 131
                      \/ byte c = 132 \/ byte c = 133 \/ byte c = 134 \/ byte c = 135
                      \/ byte c = 136 \/ byte c = 137 \/ byte c = 138) as Hn by lia;
              clear Hlo Hhi; repeat destruct Hn as [Hn | Hn]
          end;
      repeat match goal with
             | Hc : byte ?c = _ |- _ => apply byte_eq in Hc; subst c
             end;
      vm_compute; repeat first [left; reflexivity | right].
  - unfold whiteSpace. cbn [In].
    intros H; repeat (destruct H as [<- | H]; [reflexivity|]); destruct H.
Qed.

(** What a string starts with: nothing, a white-space character, or
    another character. *)
Lemma blank_head s :
  s = ""%string
  \/ (exists b r, s = (b ++ r)%string /\ blankChar b = true
                  /\ blankWidth s = String.length b)
  \/ (s <> ""%string /\ blankWidth s = 0).
Proof.
  destruct s as [|c1 s1]; [now left|]. right.
  cbn [blankWidth]. destruct (isWhitespace c1) eqn:H1.
  { left. exists (String c1 ""), s1. unfold blankChar. cbn. now rewrite H1. }
  destruct s1 as [|c2 s2]; [right; split; [discriminate | reflexivity]|].
  destruct (isBlank2 c1 c2) eqn:H2.
  { left. exists (String c1 (String c2 "")), s2. unfold blankChar. cbn. now rewrite H1, H2. }
  destruct s2 as [|c3 s3]; [right; split; [discriminate | reflexivity]|].
  destruct (isBlank3 c1 c2 c3) eqn:H3.
  - left. exists (String c1 (String c2 (String c3 ""))), s3. unfold blankChar. cbn.
    now rewrite H1, H2, H3.
  - right. split; [discriminate | reflexivity].
Qed.

Lemma blankChar_length b : blankChar b = true -> 0 < String.length b.
Proof.
  intros H. destruct (blankChar_cases b H) as [(c1 & -> & _) | [(c1 & c2 & -> & _)
    | (c1 & c2 & c3 & -> & _)]]; cbn; lia.
Qed.

(** The first byte of a white-space character is not one of 128 .. 193:
    it neither continues a character nor completes one of the letters
    or blanks that the functions below look for. *)
Lemma blankChar_lead b :
  blankChar b = true ->
  exists c b', b = String c b' /\ (byte c < 128 \/ 194 <= byte c).
Proof.
  intros H. destruct (blankChar_cases b H) as [(c1 & -> & H1) | [(c1 & c2 & -> & _ & H2)
    | (c1 & c2 & c3 & -> & _ & _ & H3)]]; eexists _, _; (split; [reflexivity|]);
    bytes; lia.
Qed.

Lemma blankWidth_blank b t :
  blankChar b = true -> blankWidth (b ++ t) = String.length b.
Proof.
  intros H. destruct (blankChar_cases b H) as [(c1 & -> & H1) | [(c1 & c2 & -> & H1 & H2)
    | (c1 & c2 & c3 & -> & H1 & H2 & H3)]];
    cbn [String.append blankWidth String.length]; now rewrite ?H1, ?H2, ?H3.
Qed.

Lemma trimStart_blank b t : blankChar b = true -> trimStart (b ++ t) = trimStart t.
Proof.
  intros H. destruct (blankChar_cases b H) as [(c1 & -> & H1) | [(c1 & c2 & -> & H1 & H2)
    | (c1 & c2 & c3 & -> & H1 & H2 & H3)]];
    cbn [String.append trimStart]; now rewrite ?H1, ?H2, ?H3.
Qed.

Lemma allWhitespace_blank b t : blankChar b = true -> allWhitespace (b ++ t) = allWhitespace t.
Proof.
  intros H. destruct (blankChar_cases b H) as [(c1 & -> & H1) | [(c1 & c2 & -> & H1 & H2)
    | (c1 & c2 & c3 & -> & H1 & H2 & H3)]];
    cbn [String.append allWhitespace]; now rewrite ?H1, ?H2, ?H3.
Qed.

(** A string that starts with another character is kept by [trimStart]
    and is not made of white space. *)
Lemma trimStart_other s : blankWidth s = 0 -> trimStart s = s.
Proof.
  destruct s as [|c1 [|c2 [|c3 s3]]]; cbn [blankWidth trimStart]; try reflexivity;
    repeat match goal with
           | |- context [if ?c then _ else _] => destruct c; try discriminate
           end; reflexivity.
Qed.

Lemma allWhitespace_other s : s <> ""%string -> blankWidth s = 0 -> allWhitespace s = false.
Proof.
  destruct s as [|c1 [|c2 [|c3 s3]]]; cbn [blankWidth allWhitespace]; try congruence;
    repeat match goal with
           | |- context [if ?c then _ else _] => destruct c; try discriminate
           end; reflexivity.
Qed.

(** Strings of white space, one character after the other. *)
Lemma allWhitespace_chars (P : string -> Prop) :
  P ""%string ->
  (forall b r, blankChar b = true -> allWhitespace r = true -> P r -> P (b ++ r)%string) ->
  forall w, allWhitespace w = true -> P w.
Proof.
  intros Hnil Hstep w. induction w as [w IH] using string_length_ind. intros Hw.
  destruct (blank_head w) as [-> | [(b & r & -> & Hb & _) | (Hne & H0)]]; [exact Hnil | |].
  - rewrite (allWhitespace_blank _ _ Hb) in Hw. apply Hstep; [exact Hb | exact Hw|].
    apply IH; [|exact Hw]. rewrite append_length. pose proof (blankChar_length b Hb). lia.
  - rewrite (allWhitespace_other _ Hne H0) in Hw. discriminate Hw.
Qed.

(** The strings of white space are the strings of white-space
    characters. *)
Lemma allWhitespace_whiteSpace w :
  allWhitespace w = true
  <-> exists l, Forall (fun b => In b whiteSpace) l /\ w = join "" l.
Proof.
  split.
  - revert w. apply allWhitespace_chars; [now exists []|].
    intros b r Hb _ (l & Hl & ->). exists (b :: l). split.
    + constructor; [now apply blankChar_whiteSpace | exact Hl].
    + destruct l as [|b' l]; [apply append_nil_r | reflexivity].
  - intros (l & Hl & ->). induction Hl as [|b l Hb Hl IH]; [reflexivity|].
    apply blankChar_whiteSpace in Hb.
    destruct l as [|b' l].
    + change (join "" [b]) with b.
      rewrite <- (append_nil_r b). now rewrite (allWhitespace_blank _ _ Hb).
    + change (join "" (b :: b' :: l)) with (b ++ join "" (b' :: l))%string.
      now rewrite (allWhitespace_blank _ _ Hb).
Qed.

Lemma allWhitespace_lead c w :
  allWhitespace (String c w) = true -> byte c < 128 \/ 194 <= byte c.
Proof.
  intros Hw.
  destruct (blank_head (String c w)) as [H | [(b & r & Heq & Hb & _) | (Hne & H0)]].
  - discriminate H.
  - destruct (blankChar_lead b Hb) as (c' & b' & -> & Hc). now injection Heq as -> _.
  - rewrite (allWhitespace_other _ Hne H0) in Hw. discriminate Hw.
Qed.

(** A character that follows a string completes no white-space
    character that the string has begun. *)
Lemma blankWidth_before s t :
  s <> ""%string ->
  match t with
  | EmptyString => True
  | String c _ => byte c < 128 \/ 194 <= byte c
  end ->
  blankWidth (s ++ t) = blankWidth s.
Proof.
  intros Hne Hc. destruct t as [|c w]; [now rewrite append_nil_r|].
  destruct s as [|c1 [|c2 [|c3 s3]]]; [congruence | | |reflexivity];
    cbn [String.append blankWidth].
  - destruct (isWhitespace c1); [reflexivity|].
    replace (isBlank2 c1 c) with false by (symmetry; no_byte).
    destruct w as [|c' w]; [reflexivity|].
    replace (isBlank3 c1 c c') with false by (symmetry; no_byte). reflexivity.
  - destruct (isWhitespace c1); [reflexivity|].
    destruct (isBlank2 c1 c2); [reflexivity|].
    replace (isBlank3 c1 c2 c) with false by (symmetry; no_byte). reflexivity.
Qed.

Lemma blankWidth_before_blanks s w :
  s <> ""%string -> allWhitespace w = true -> blankWidth (s ++ w) = blankWidth s.
Proof.
  intros Hne Hw. apply blankWidth_before; [exact Hne|].
  destruct w as [|c w]; [exact I | exact (allWhitespace_lead c w Hw)].
Qed.

Lemma allWhitespace_before_blanks s w :
  allWhitespace w = true -> allWhitespace (s ++ w) = allWhitespace s.
Proof.
  intros Hw. induction s as [s IH] using string_length_ind.
  destruct (blank_head s) as [-> | [(b & r & -> & Hb & _) | (Hne & H0)]].
  - exact Hw.
  - rewrite append_assoc, !(allWhitespace_blank _ _ Hb). apply IH.
    rewrite append_length. pose proof (blankChar_length b Hb). lia.
  - rewrite (allWhitespace_other s Hne H0). apply allWhitespace_other.
    + destruct s; [congruence | discriminate].
    + now rewrite blankWidth_before_blanks.
Qed.

Lemma allWhitespace_app s t :
  allWhitespace s = true -> allWhitespace t = true -> allWhitespace (s ++ t) = true.
Proof. intros Hs Ht. now rewrite allWhitespace_before_blanks. Qed.

(** *** [trim] *)

Lemma trimStart_whitespace s : allWhitespace s = true -> trimStart s = ""%string.
Proof.
  revert s. apply allWhitespace_chars; [reflexivity|].
  intros b r Hb _ IH. now rewrite (trimStart_blank _ _ Hb).
Qed.

Lemma trimEnd_whitespace s : allWhitespace s = true -> trimEnd s = ""%string.
Proof. destruct s; [reflexivity|]. cbn [trimEnd]. now intros ->. Qed.

Lemma trimStart_skip w t : allWhitespace w = true -> trimStart (w ++ t) = trimStart t.
Proof.
  revert w. apply allWhitespace_chars; [reflexivity|].
  intros b r Hb _ IH. now rewrite append_assoc, (trimStart_blank _ _ Hb).
Qed.

Lemma trimEnd_skip t w : allWhitespace w = true -> trimEnd (t ++ w) = trimEnd t.
Proof.
  intros Hw. induction t as [|c t IH].
  - now apply trimEnd_whitespace.
  - cbn [String.append trimEnd].
    change (String c (t ++ w)) with (String c t ++ w)%string.
    now rewrite (allWhitespace_before_blanks _ _ Hw), IH.
Qed.

Lemma trimStart_keeps s w :
  allWhitespace w = true -> allWhitespace s = false ->
  trimStart (s ++ w) = (trimStart s ++ w)%string.
Proof.
  intros Hw. induction s as [s IH] using string_length_ind. intros Hs.
  destruct (blank_head s) as [-> | [(b & r & -> & Hb & _) | (Hne & H0)]].
  - discriminate Hs.
  - rewrite (allWhitespace_blank _ _ Hb) in Hs.
    rewrite append_assoc, !(trimStart_blank _ _ Hb). apply IH; [|exact Hs].
    rewrite append_length. pose proof (blankChar_length b Hb). lia.
  - rewrite (trimStart_other s H0). apply trimStart_other.
    now rewrite blankWidth_before_blanks.
Qed.

(** Blanks around a string do not change what [trim] returns. *)
Lemma trim_padded w1 s w2 :
  allWhitespace w1 = true -> allWhitespace w2 = true ->
  trim (w1 ++ s ++ w2) = trim s.
Proof.
  intros H1 H2. unfold trim. rewrite (trimStart_skip _ _ H1).
  destruct (allWhitespace s) eqn:Hs.
  - rewrite !trimStart_whitespace; auto using allWhitespace_app.
  - rewrite (trimStart_keeps _ _ H2 Hs). now apply trimEnd_skip.
Qed.

(** [trimEnd] cuts white space off the end, and [trimStart] off the
    start. *)
Lemma trimEnd_split s :
  exists w, s = (trimEnd s ++ w)%string /\ allWhitespace w = true.
Proof.
  induction s as [|c s (w & IH & Hw)]; [now exists ""%string|].
  cbn [trimEnd]. destruct (allWhitespace (String c s)) eqn:Hs.
  - now exists (String c s).
  - exists w. cbn [String.append]. now rewrite <- IH.
Qed.

Lemma trimStart_split s :
  exists w, s = (w ++ trimStart s)%string /\ allWhitespace w = true.
Proof.
  induction s as [s IH] using string_length_ind.
  destruct (blank_head s) as [-> | [(b & r & -> & Hb & _) | (Hne & H0)]].
  - now exists ""%string.
  - destruct (IH r) as (w & Hr & Hw).
    { rewrite append_length. pose proof (blankChar_length b Hb). lia. }
    exists (b ++ w)%string. rewrite (trimStart_blank _ _ Hb), append_assoc, <- Hr.
    split; [reflexivity|]. now rewrite (allWhitespace_blank _ _ Hb).
  - exists ""%string. now rewrite (trimStart_other s H0).
Qed.

(** *** [toLowerCase] *)

(** A byte that begins none of the letters of more than one byte is
    lower-cased by itself. *)
Lemma toLowerCase_plain c1 s1 :
  byte c1 <> 195 -> byte c1 <> 196 ->
  (byte c1 <> 226 \/ match s1 with
                     | String c2 _ => byte c2 <> 132
                     | EmptyString => True
                     end) ->
  toLowerCase (String c1 s1) = String (lowerChar c1) (toLowerCase s1).
Proof.
  intros H195 H196 H226. destruct s1 as [|c2 s2]; [reflexivity|].
  cbn [toLowerCase].
  replace (isUpperLatin1 c1 c2) with false by (symmetry; no_byte).
  replace (isDottedI c1 c2) with false by (symmetry; no_byte).
  destruct s2 as [|c3 s3]; [reflexivity|].
  replace (isKelvin c1 c2 c3) with false by (symmetry; no_byte). reflexivity.
Qed.

Lemma lowerChar_other c : (byte c < 65 \/ 90 < byte c) -> lowerChar c = c.
Proof.
  intros H. unfold lowerChar. replace (isUpper c) with false; [reflexivity|].
  symmetry. no_byte.
Qed.

Lemma toLowerCase_blank b t :
  blankChar b = true -> toLowerCase (b ++ t) = (b ++ toLowerCase t)%string.
Proof.
  intros H. destruct (blankChar_cases b H) as [(c1 & -> & H1) | [(c1 & c2 & -> & _ & H2)
    | (c1 & c2 & c3 & -> & _ & _ & H3)]]; cbn [String.append]; bytes;
    repeat (rewrite toLowerCase_plain by (cbn; lia); rewrite lowerChar_other by lia);
    reflexivity.
Qed.

Lemma toLowerCase_whitespace s : allWhitespace s = true -> toLowerCase s = s.
Proof.
  revert s. apply allWhitespace_chars; [reflexivity|].
  intros b r Hb _ IH. now rewrite (toLowerCase_blank _ _ Hb), IH.
Qed.

(** White space before a string is kept, and the string is lower-cased
    as it is by itself. *)
Lemma toLowerCase_after_blanks w t :
  allWhitespace w = true -> toLowerCase (w ++ t) = (w ++ toLowerCase t)%string.
Proof.
  revert w. apply allWhitespace_chars; [reflexivity|].
  intros b r Hb _ IH. now rewrite !append_assoc, (toLowerCase_blank _ _ Hb), IH.
Qed.

(** [toLowerCase] on a string of two bytes and more. *)
Lemma toLowerCase_two c1 c2 s2 :
  toLowerCase (String c1 (String c2 s2))
  = if isUpperLatin1 c1 c2
    then String c1 (String (ascii_of_nat (byte c2 + 32)) (toLowerCase s2))
    else if isDottedI c1 c2 then (dottedLowerI ++ toLowerCase s2)%string
    else match s2 with
         | EmptyString => String (lowerChar c1) (toLowerCase (String c2 s2))
         | String c3 s3 =>
             if isKelvin c1 c2 c3 then String "k" (toLowerCase s3)
             else String (lowerChar c1) (toLowerCase (String c2 s2))
         end.
Proof. reflexivity. Qed.

(** The same for white space after a string. *)
Lemma toLowerCase_before_blanks x w :
  allWhitespace w = true -> toLowerCase (x ++ w) = (toLowerCase x ++ w)%string.
Proof.
  intros Hw. destruct w as [|c w]; [now rewrite !append_nil_r|].
  pose proof (allWhitespace_lead c w Hw) as Hc.
  pose proof (toLowerCase_whitespace _ Hw) as Hlow.
  set (t := String c w) in *.
  induction x as [x IH] using string_length_ind.
  destruct x as [|c1 [|c2 [|c3 x3]]].
  - exact Hlow.
  - change (String c1 "" ++ t)%string with (String c1 t).
    change (toLowerCase (String c1 "")) with (String (lowerChar c1) "").
    cbn [String.append]. rewrite <- Hlow at 2. subst t. rewrite toLowerCase_two.
    replace (isUpperLatin1 c1 c) with false by (symmetry; no_byte).
    replace (isDottedI c1 c) with false by (symmetry; no_byte).
    destruct w as [|c' w]; [reflexivity|].
    replace (isKelvin c1 c c') with false by (symmetry; no_byte). reflexivity.
  - change (String c1 (String c2 "") ++ t)%string with (String c1 (String c2 t)).
    rewrite (toLowerCase_two c1 c2 t), (toLowerCase_two c1 c2 "").
    destruct (isUpperLatin1 c1 c2); [cbn [String.append]; now rewrite Hlow|].
    destruct (isDottedI c1 c2); [now rewrite append_assoc, Hlow|].
    assert (Htail : toLowerCase (String c2 t) = (toLowerCase (String c2 "") ++ t)%string).
    { apply (IH (String c2 "")). cbn [String.length]. lia. }
    rewrite Htail. subst t. cbv beta iota.
    replace (isKelvin c1 c2 c) with false by (symmetry; no_byte). reflexivity.
  - change (String c1 (String c2 (String c3 x3)) ++ t)%string
      with (String c1 (String c2 (String c3 (x3 ++ t)))).
    rewrite (toLowerCase_two c1 c2 (String c3 (x3 ++ t))),
      (toLowerCase_two c1 c2 (String c3 x3)).
    assert (Htail : forall y, String.length y < S (S (S (String.length x3))) ->
                              toLowerCase (y ++ t) = (toLowerCase y ++ t)%string).
    { intros y Hy. apply IH. cbn [String.length]. lia. }
    destruct (isUpperLatin1 c1 c2).
    { change (String c3 (x3 ++ t)) with (String c3 x3 ++ t)%string.
      rewrite Htail by (cbn [String.length]; lia). reflexivity. }
    destruct (isDottedI c1 c2).
    { change (String c3 (x3 ++ t)) with (String c3 x3 ++ t)%string.
      rewrite Htail by (cbn [String.length]; lia). now rewrite append_assoc. }
    destruct (isKelvin c1 c2 c3).
    { rewrite Htail by lia. reflexivity. }
    change (String c2 (String c3 (x3 ++ t))) with (String c2 (String c3 x3) ++ t)%string.
    rewrite Htail by (cbn [String.length]; lia). reflexivity.
Qed.

Lemma startsWith_refl s : startsWith s s = true.
Proof. induction s as [|c s IH]; simpl; [reflexivity|]. now rewrite Ascii.eqb_refl. Qed.

Lemma includes_refl s : includes s s = true.
Proof. destruct s; simpl; [reflexivity|]. now rewrite Ascii.eqb_refl, startsWith_refl. Qed.

Lemma includes_empty s : includes s "" = true.
Proof. destruct s; reflexivity. Qed.

Lemma isEmpty_true s : isEmpty s = true -> s = ""%string.
Proof. destruct s; [reflexivity | discriminate]. Qed.

Lemma toLowerCase_isEmpty s : isEmpty (toLowerCase s) = isEmpty s.
Proof.
  destruct s as [|c1 [|c2 s2]]; [reflexivity | reflexivity|]. rewrite toLowerCase_two.
  destruct (isUpperLatin1 c1 c2); [reflexivity|].
  destruct (isDottedI c1 c2); [reflexivity|].
  destruct s2 as [|c3 s3]; [reflexivity|]. destruct (isKelvin c1 c2 c3); reflexivity.
Qed.

End StringFacts.

(** ** The first-party filter *)
Section FirstParty.
Import JS Constants.

Lemma names_trimmed entry :
  In entry AMAZON_SELLER_NAMES -> trim entry = entry /\ isEmpty entry = false.
Proof.
  unfold AMAZON_SELLER_NAMES. simpl.
  intros H; repeat (destruct H as [<- | H]; [split; reflexivity|]); destruct H.
Qed.

(** What [isAmazonSeller] computes for a non-empty name. *)
Lemma isAmazonSeller_nonempty s :
  isEmpty s = false ->
  isAmazonSeller (Some s)
  = existsb (fun entry => includes (trim (toLowerCase s)) entry
                          || includes entry (trim (toLowerCase s)))
            AMAZON_SELLER_NAMES.
Proof. intros H. unfold isAmazonSeller. now rewrite H. Qed.

(** C6: a listed first-party name in any letter case and between any
    white space is recognised ([x] is the name in some letter case, [w1]
    and [w2] are strings of white-space characters of the language, the
    no-break space and the other spaces beyond ASCII among them); a name
    whose normal form neither contains a listed name nor is contained in
    one is not; neither is an absent or empty name. *)
Theorem isAmazonSeller_first_party_filter :
  (forall entry x w1 w2,
      In entry AMAZON_SELLER_NAMES ->
      toLowerCase x = entry ->
      allWhitespace w1 = true -> allWhitespace w2 = true ->
      isAmazonSeller (Some (w1 ++ x ++ w2)%string) = true)
  /\ (forall s,
         (forall entry, In entry AMAZON_SELLER_NAMES ->
                        includes (trim (toLowerCase s)) entry = false
                        /\ includes entry (trim (toLowerCase s)) = false) ->
         isAmazonSeller (Some s) = false)
  /\ isAmazonSeller None = false
  /\ isAmazonSeller (Some ""%string) = false
  /\ (forall entry x before after,
         In entry AMAZON_SELLER_NAMES ->
         toLowerCase x = entry ->
         Forall (fun b => In b whiteSpace) before ->
         Forall (fun b => In b whiteSpace) after ->
         isAmazonSeller (Some (join "" before ++ x ++ join "" after)%string) = true).
Proof.
  assert (Hlisted : forall entry x w1 w2,
             In entry AMAZON_SELLER_NAMES ->
             toLowerCase x = entry ->
             allWhitespace w1 = true -> allWhitespace w2 = true ->
             isAmazonSeller (Some (w1 ++ x ++ w2)%string) = true).
  { intros entry x w1 w2 Hin Hx H1 H2.
    destruct (names_trimmed entry Hin) as [Htrim Hne].
    assert (Hnonempty : isEmpty (w1 ++ x ++ w2) = false).
    { destruct w1; simpl; [|reflexivity].
      destruct x; simpl; [|reflexivity].
      simpl in Hx. subst entry. discriminate Hne. }
    rewrite (isAmazonSeller_nonempty _ Hnonempty).
    rewrite (toLowerCase_after_blanks _ _ H1), (toLowerCase_before_blanks _ _ H2), Hx.
    rewrite (trim_padded _ _ _ H1 H2), Htrim.
    apply existsb_exists. exists entry. split; [exact Hin|].
    now rewrite includes_refl. }
  split; [exact Hlisted|]. split; [|split; [reflexivity | split; [reflexivity|]]].
  - intros s Hno.
    destruct (isEmpty s) eqn:He.
    + apply isEmpty_true in He. now subst s.
    + rewrite (isAmazonSeller_nonempty _ He).
      apply not_true_is_false. intros H.
      apply existsb_exists in H as [entry [Hin Hor]].
      destruct (Hno entry Hin) as [Ha Hb]. rewrite Ha, Hb in Hor. discriminate.
  - intros entry x before after Hin Hx Hbefore Hafter.
    apply (Hlisted entry); [exact Hin | exact Hx | |];
      apply allWhitespace_whiteSpace; eauto.
Qed.

Lemma isAmazonSeller_first_party_filter_witness :
  isAmazonSeller (Some "  AMAZON.co.uk "%string) = true
  /\ isAmazonSeller (Some (Samples.nbsp ++ "Amazon.DE" ++ Samples.nbsp ++ Samples.nl)%string)
     = true
  /\ isAmazonSeller (Some (Samples.emSpace ++ ("AMAZON.CO.U" ++ Samples.kelvin)
                             ++ Samples.ideographicSpace)%string)
     = true
  /\ isAmazonSeller (Some "Acme Trading Ltd"%string) = false.
Proof.
  destruct isAmazonSeller_first_party_filter as [Hlisted [Hother _]].
  split; [|split; [|split]].
  - apply (Hlisted "amazon.co.uk" "AMAZON.co.uk" "  " " ")%string;
      [simpl; tauto | reflexivity | reflexivity | reflexivity].
  - apply (Hlisted "amazon.de" "Amazon.DE" Samples.nbsp (Samples.nbsp ++ Samples.nl))%string;
      [simpl; tauto | reflexivity | reflexivity | reflexivity].
  - apply (Hlisted "amazon.co.uk" ("AMAZON.CO.U" ++ Samples.kelvin)
                   Samples.emSpace Samples.ideographicSpace)%string;
      [simpl; tauto | reflexivity | reflexivity | reflexivity].
  - apply Hother. intros entry Hin. simpl in Hin.
    repeat (destruct Hin as [<- | Hin]; [split; reflexivity|]). destruct Hin.
Defined.

(** C9: the match runs both ways, so every non-empty name whose normal
    form lies inside a listed name is taken for the platform: non-empty
    names of white space only, whichever white-space characters of the
    language they hold (their normal form is the empty string), and
    fragments such as "a" or "zon". *)
Theorem isAmazonSeller_fragment_of_entry :
  (forall s, isEmpty s = false -> allWhitespace s = true ->
             isAmazonSeller (Some s) = true)
  /\ (forall s entry,
         isEmpty s = false ->
         In entry AMAZON_SELLER_NAMES ->
         includes entry (trim (toLowerCase s)) = true ->
         isAmazonSeller (Some s) = true)
  /\ isAmazonSeller (Some "a"%string) = true
  /\ isAmazonSeller (Some "zon"%string) = true
  /\ (forall b blanks,
         Forall (fun b => In b whiteSpace) (b :: blanks) ->
         isAmazonSeller (Some (join "" (b :: blanks))) = true).
Proof.
  assert (Hfrag : forall s entry,
             isEmpty s = false -> In entry AMAZON_SELLER_NAMES ->
             includes entry (trim (toLowerCase s)) = true ->
             isAmazonSeller (Some s) = true).
  { intros s entry He Hin Hinc. rewrite (isAmazonSeller_nonempty _ He).
    apply existsb_exists. exists entry. split; [exact Hin|].
    rewrite Hinc. apply orb_true_r. }
  assert (Hblank : forall s, isEmpty s = false -> allWhitespace s = true ->
                             isAmazonSeller (Some s) = true).
  { intros s He Hws. apply (Hfrag s "amazon"%string He); [simpl; tauto|].
    unfold trim. rewrite (toLowerCase_whitespace _ Hws), (trimStart_whitespace _ Hws).
    reflexivity. }
  split; [exact Hblank|]. split; [exact Hfrag|].
  split; [reflexivity|]. split; [reflexivity|].
  intros b blanks Hall. apply Hblank.
  - pose proof (Forall_inv Hall) as Hb. apply blankChar_whiteSpace, blankChar_length in Hb.
    destruct b as [|c b]; [cbn in Hb; lia|]. now destruct blanks.
  - apply allWhitespace_whiteSpace. eauto.
Qed.

Lemma isAmazonSeller_fragment_of_entry_witness :
  isAmazonSeller (Some "   "%string) = true
  /\ isAmazonSeller (Some Samples.nbsp) = true
  /\ isAmazonSeller (Some (Samples.emSpace ++ Samples.nl ++ Samples.ideographicSpace)%string)
     = true
  /\ isAmazonSeller (Some ("U" ++ Samples.kelvin ++ Samples.nbsp)%string) = true
  /\ isAmazonSeller (Some " Co.UK "%string) = true.
Proof.
  destruct isAmazonSeller_fragment_of_entry as [Hblank [Hfrag _]].
  split; [|split; [|split; [|split]]].
  - apply Hblank; reflexivity.
  - apply Hblank; reflexivity.
  - apply Hblank; reflexivity.
  - apply (Hfrag _ "amazon.co.uk"%string); [reflexivity | simpl; tauto | reflexivity].
  - apply (Hfrag _ "amazon.co.uk"%string); [reflexivity | simpl; tauto | reflexivity].
Defined.

End FirstParty.

(** ** The label:value parser of the detail block *)
Section DetailBlock.
Import JS Obj Profile.

(** The collected lines are the longest run of lines after the label that
    hold neither a colon nor the terminator phrase. *)
Lemma addrLines_longest_run following :
  exists rest,
    following = addrLines following ++ rest
    /\ Forall continuesAddress (addrLines following)
    /\ match rest with
       | [] => True
       | l :: _ => includes l ":" = true \/ includes l "This seller" = true
       end.
Proof.
  induction following as [|l ls (rest & Heq & Hall & Hstop)]; simpl.
  - exists []. repeat split; constructor.
  - destruct (includes l ":") eqn:Hc; simpl.
    + exists (l :: ls). repeat split; [constructor | now left].
    + destruct (includes l "This seller") eqn:Ht; simpl.
      * exists (l :: ls). repeat split; [constructor | now right].
      * exists rest. repeat split; [now f_equal | | exact Hstop].
        constructor; [now split | exact Hall].
Qed.

(** The claim of C4 as it is written fails: a label line without a colon
    is skipped, so no address is collected from the five lines. *)
Lemma address_label_without_colon_skipped :
  parseLines Samples.addressLines ∅ !! "businessAddress" = None
  /\ parseLines Samples.addressLines ∅ !! "businessAddress"
     <> Some (VStr "12 High Street, London, EC1 1AA, United Kingdom").
Proof. split; [reflexivity | discriminate]. Qed.

(** C4, amended: with the label line ending in a colon the five lines give
    the joined address and the VAT number; after an address label the
    parser takes the following lines up to the first one with a colon or
    with the terminator phrase and joins them by ", "; a line without a
    colon changes nothing. *)
Theorem address_continuation_parsing :
  (parseLines Samples.addressLinesColon ∅ !! "businessAddress"
   = Some (VStr "12 High Street, London, EC1 1AA, United Kingdom")
   /\ parseLines Samples.addressLinesColon ∅ !! "vatNumber" = Some (VStr "GB123456789"))
  /\ (forall following result,
         parseLine "Business Address:" following result
         = <["businessAddress" := VStr (join ", " (addrLines following))]> result
         /\ parseLine "Customer Services Address:" following result
            = <["customerServiceAddress" := VStr (join ", " (addrLines following))]> result)
  /\ (forall following,
         exists rest,
           following = addrLines following ++ rest
           /\ Forall continuesAddress (addrLines following)
           /\ match rest with
              | [] => True
              | l :: _ => includes l ":" = true \/ includes l "This seller" = true
              end)
  /\ (forall line following result,
         includes line ":" = false -> parseLine line following result = result).
Proof.
  split; [split; reflexivity|].
  split; [intros; split; reflexivity|].
  split; [exact addrLines_longest_run|].
  intros line following result H. unfold parseLine. now rewrite H.
Qed.

Lemma address_continuation_parsing_witness :
  parseLine "Business Address" ["12 High Street"] ∅ = ∅
  /\ addrLines ["12 High Street"; "This seller has earned"; "x"] = ["12 High Street"].
Proof.
  destruct address_continuation_parsing as (_ & _ & _ & Hskip).
  split; [apply Hskip; reflexivity | reflexivity].
Defined.

End DetailBlock.

(** ** The emitted record *)
Section Record.
Import Obj Scraper.

Lemma sellerRecord_coerced asin m seller info t key :
  In key nullCoerced ->
  sellerRecord asin m seller info t !! key = Some (orDefault (info !! key) VNull).
Proof.
  unfold nullCoerced. simpl.
  intros H; repeat (destruct H as [<- | H]; [reflexivity|]); destruct H.
Qed.

Lemma orDefault_falsy p d : falsy p = true -> orDefault p d = d.
Proof.
  destruct p as [v|]; simpl; [|reflexivity].
  destruct (truthy v); [discriminate | reflexivity].
Qed.

(** The claim of C10 as it is written fails for two profile fields: a
    missing display name is replaced by the link text and a falsy
    [hasDetailedInfo] by [false], not by [null]. *)
Lemma falsy_display_name_not_null :
  exists info,
    Profile.sellerInfoInPage Samples.bareProfile = Eff.Ok info
    /\ falsy (info !! "sellerDisplayName") = true
    /\ falsy (info !! "hasDetailedInfo") = true
    /\ sellerRecord "B07YDVWL4J" Samples.de Samples.acme info 0 !! "sellerDisplayName"
       = Some (VStr "Acme Trading")
    /\ sellerRecord "B07YDVWL4J" Samples.de Samples.acme info 0 !! "hasDetailedInfo"
       = Some (VBool false).
Proof. eexists. split; [reflexivity|]. repeat split. Qed.

(** C10, amended: each of the twelve properties read as
    [sellerInfo.k || null] is emitted as [null] when its extracted value
    is falsy, so a rating, a positive percentage or a rating count of 0 is
    emitted as [null] exactly as a missing one is; a falsy
    [sellerDisplayName] becomes the link text and a falsy
    [hasDetailedInfo] becomes [false]. *)
Theorem falsy_profile_fields_emitted_null :
  (forall asin m seller info t key,
      In key nullCoerced -> falsy (info !! key) = true ->
      sellerRecord asin m seller info t !! key = Some VNull)
  /\ (forall asin m seller info t key scale,
         In key ["rating"; "positivePercent"; "ratingCount"] ->
         info !! key = Some (VNum (Num.Dec 0 scale)) \/ info !! key = None ->
         sellerRecord asin m seller info t !! key = Some VNull)
  /\ (forall asin m seller info t,
         falsy (info !! "sellerDisplayName") = true ->
         sellerRecord asin m seller info t !! "sellerDisplayName" = Some (VStr (name seller)))
  /\ (forall asin m seller info t,
         falsy (info !! "hasDetailedInfo") = true ->
         sellerRecord asin m seller info t !! "hasDetailedInfo" = Some (VBool false))
  /\ (exists info,
         Profile.sellerInfoInPage Samples.zeroRated = Eff.Ok info
         /\ info !! "rating" = Some (VNum (Num.Dec 0 0))
         /\ info !! "positivePercent" = Some (VNum (Num.Dec 0 0))
         /\ info !! "ratingCount" = Some (VNum (Num.Dec 0 0))
         /\ sellerRecord "B07YDVWL4J" Samples.de Samples.acme info 0 !! "rating" = Some VNull
         /\ sellerRecord "B07YDVWL4J" Samples.de Samples.acme info 0 !! "positivePercent"
            = Some VNull
         /\ sellerRecord "B07YDVWL4J" Samples.de Samples.acme info 0 !! "ratingCount"
            = Some VNull).
Proof.
  assert (Hnull : forall asin m seller info t key,
             In key nullCoerced -> falsy (info !! key) = true ->
             sellerRecord asin m seller info t !! key = Some VNull).
  { intros asin m seller info t key Hin Hf.
    rewrite (sellerRecord_coerced _ _ _ _ _ _ Hin). now rewrite (orDefault_falsy _ _ Hf). }
  split; [exact Hnull|]. split; [|split; [|split]].
  - intros asin m seller info t key scale Hin Hzero. apply Hnull.
    + unfold nullCoerced. simpl in *. tauto.
    + destruct Hzero as [-> | ->]; reflexivity.
  - intros asin m seller info t Hf.
    change (sellerRecord asin m seller info t !! "sellerDisplayName")
      with (Some (orDefault (info !! "sellerDisplayName") (VStr (name seller)))).
    now rewrite (orDefault_falsy _ _ Hf).
  - intros asin m seller info t Hf.
    change (sellerRecord asin m seller info t !! "hasDetailedInfo")
      with (Some (orDefault (info !! "hasDetailedInfo") (VBool false))).
    now rewrite (orDefault_falsy _ _ Hf).
  - eexists. split; [reflexivity|]. repeat split.
Qed.

Lemma falsy_profile_fields_emitted_null_witness :
  sellerRecord "B07YDVWL4J" Samples.de Samples.acme
    {[ "rating" := VNum (Num.Dec 0 1); "email" := VStr "" ]} 0 !! "rating" = Some VNull
  /\ sellerRecord "B07YDVWL4J" Samples.de Samples.acme
       {[ "rating" := VNum (Num.Dec 0 1); "email" := VStr "" ]} 0 !! "email" = Some VNull.
Proof.
  destruct falsy_profile_fields_emitted_null as (Hnull & Hzero & _).
  split.
  - apply (Hzero _ _ _ _ _ _ 1); [simpl; tauto | left; reflexivity].
  - apply Hnull; [unfold nullCoerced; simpl; tauto | reflexivity].
Defined.

End Record.

(** ** Failures of the profile extraction *)
Section ProfileFailure.
Import Obj Eff Scraper.

Lemma messages_last l entries msg p c :
  In msg (messages l {| page := p;
                        log := entries ++ [{| level := l; text := msg |}];
                        clock := c |}).
Proof.
  unfold messages. cbn [log]. rewrite List.filter_app, List.map_app.
  apply in_or_app. right. destruct l; simpl; now left.
Qed.

Lemma extractSellerInfoWith_returns b inPage okPrefix failed sellerUrl st :
  exists info st',
    extractSellerInfoWith b inPage okPrefix failed sellerUrl st = (Ok info, st').
Proof.
  unfold extractSellerInfoWith, tryCatch.
  match goal with |- context [match ?m st with _ => _ end] => destruct (m st) as [[info|e] st1] end.
  - eauto.
  - unfold bind, logAt, ret. simpl. eauto.
Qed.



Lemma visitSellers_completes extract asin m o sellers :
  (forall sellerUrl st, exists info st', extract sellerUrl st = (Ok info, st')) ->
  forall results st,
  exists visited st',
    visitSellers extract asin m o sellers results st = (Ok (results ++ visited), st')
    /\ length visited = length sellers
    /\ List.map Main.dedupeKey visited = List.map sellerId sellers.
Proof.
  intros Htotal. induction sellers as [|seller rest IH]; intros results st; simpl.
  - exists [], st. unfold ret. now rewrite app_nil_r.
  - unfold bind at 1. unfold delay at 1. cbv beta iota.
    unfold bind at 1.
    match goal with |- context [extract ?u ?s] => destruct (Htotal u s) as (info & st1 & ->) end.
    unfold bind at 1. unfold now at 1. cbv beta iota.
    match goal with |- context [visitSellers _ _ _ _ _ ?r ?s] =>
      destruct (IH r s) as (visited & st2 & -> & Hlen & Hkeys) end.
    eexists (_ :: visited), st2. rewrite <- app_assoc. simpl. split; [reflexivity|].
    rewrite Hlen, Hkeys. split; reflexivity.
Qed.






End ProfileFailure.

(** ** The "Customer Service Phone" pattern *)
Section PhonePattern.
Import Regex.

Lemma litCI_mismatch l p s :
  startsWithCI s l = false -> matchHere (litCI l ++ p) s = None.
Proof.
  revert s. induction l as [|a l IH]; intros s H; [destruct s; discriminate|].
  destruct s as [|c s]; simpl; [reflexivity|].
  simpl in H. destruct (isCI a c); [|reflexivity].
  simpl in H. now rewrite (IH s H).
Qed.

(** The search passes over a prefix that holds no occurrence of the
    literal the pattern starts with. *)
Lemma search_skips_prefix l p pre t :
  indexOfCI (pre ++ t) l = Some (String.length pre) ->
  search (litCI l ++ p) (pre ++ t) = search (litCI l ++ p) t.
Proof.
  induction pre as [|c pre IH]; [reflexivity|].
  intros H. cbn [String.append String.length indexOfCI] in H |- *.
  destruct (startsWithCI (String c (pre ++ t)) l) eqn:Hs; [discriminate|].
  destruct (indexOfCI (pre ++ t) l) as [n|] eqn:Hi; [|discriminate].
  simpl in H. injection H as ->.
  cbn [search]. rewrite (litCI_mismatch _ _ _ Hs). now apply IH.
Qed.

(** [([^\n]+)] takes the rest of the line. *)
Lemma rest_of_line v post min :
  allChars notNewline v = true -> endOfLine post = true -> min <= String.length v ->
  repGreedy false notNewline true (fun _ => Some ""%string) min (v ++ post) = Some v.
Proof.
  intros Hv Hpost. revert min. induction v as [|c v IH]; intros min Hmin.
  - simpl in Hmin. assert (min = 0) as -> by lia. simpl.
    destruct post as [|c post]; [reflexivity|].
    cbn [endOfLine] in Hpost. cbn [String.append repGreedy].
    unfold notNewline. rewrite Hpost. reflexivity.
  - simpl in Hv. apply andb_prop in Hv as [Hc Hv].
    cbn [String.append repGreedy]. rewrite Hc, (IH Hv (pred min)); [reflexivity|].
    simpl in Hmin. lia.
Qed.

Lemma search_here p s m : matchHere p s = Some m -> search p s = Some m.
Proof. intros H. destruct s; cbn [search]; now rewrite H. Qed.

(** A literal matches itself, whatever the letter case. *)
Lemma litCI_prefix l p s : matchHere (litCI l ++ p) (l ++ s) = matchHere p s.
Proof.
  induction l as [|a l IH]; [reflexivity|].
  cbn [litCI app String.append matchHere]. unfold isCI at 1. rewrite Ascii.eqb_refl, IH.
  now destruct (matchHere p s).
Qed.

(** A repetition takes a byte of its class and stops at a character
    outside it. *)
Lemma repGreedy_take wide cls cap k min c s :
  cls c = true ->
  repGreedy wide cls cap k min (String c s)
  = match repGreedy wide cls cap k (pred min) s with
    | Some m => Some (keep cap c m)
    | None => match min with O => k (String c s) | S _ => None end
    end.
Proof. intros Hc. cbn [repGreedy]. now rewrite Hc. Qed.

Lemma repGreedy_stop wide cls cap k min c s :
  cls c = false -> JS.blankWidth (String c s) = 0 ->
  repGreedy wide cls cap k min (String c s)
  = match min with O => k (String c s) | S _ => None end.
Proof.
  intros Hc Hw. destruct wide.
  - destruct s as [|c2 [|c3 s3]]; cbn [JS.blankWidth] in Hw;
      destruct (JS.isWhitespace c) eqn:H1; try discriminate Hw.
    + cbn [repGreedy]. now rewrite Hc.
    + destruct (JS.isBlank2 c c2) eqn:H2; [discriminate Hw|].
      cbn [repGreedy]. now rewrite Hc, H2.
    + destruct (JS.isBlank2 c c2) eqn:H2; [discriminate Hw|].
      destruct (JS.isBlank3 c c2 c3) eqn:H3; [discriminate Hw|].
      cbn [repGreedy]. now rewrite Hc, H2, H3.
  - destruct s; cbn [repGreedy]; now rewrite Hc.
Qed.

(** The pattern on a "Customer Service Phone: value" line that is the
    first mention of the label. *)
Lemma csPhone_first_mention pre c v post :
  indexOfCI (pre ++ "Customer Service Phone: " ++ String c v ++ post) "Customer Service Phone"
  = Some (String.length pre) ->
  colonSpace c = false ->
  JS.blankWidth (String c v) = 0 ->
  allChars notNewline (String c v) = true ->
  endOfLine post = true ->
  search Profile.csPhonePattern (pre ++ "Customer Service Phone: " ++ String c v ++ post)
  = Some (String c v).
Proof.
  intros Hfirst Hc Hwide Hv Hpost. unfold Profile.csPhonePattern.
  rewrite (search_skips_prefix _ _ _ _ Hfirst).
  assert (Hrest : repGreedy false notNewline true (fun _ => Some ""%string) 1
                            (String c v ++ post)
                  = Some (String c v)).
  { apply rest_of_line; [assumption | assumption | simpl; lia]. }
  assert (Hhead : JS.blankWidth (String c (v ++ post)) = 0).
  { change (String c (v ++ post)) with (String c v ++ post)%string.
    rewrite blankWidth_before; [exact Hwide | discriminate|].
    destruct post as [|n post]; [exact I|]. cbn [endOfLine] in Hpost.
    apply Ascii.eqb_eq in Hpost. subst n. left. vm_compute. lia. }
  assert (Htail : matchHere [(RepS colonSpace 1, false); (Rep notNewline 1, true)]
                            (": " ++ String c v ++ post)
                  = Some (String c v)).
  { cbn [matchHere String.append].
    rewrite (repGreedy_take true colonSpace false _ 1 ":") by reflexivity.
    rewrite (repGreedy_take true colonSpace false _ 0 " ") by reflexivity.
    cbn [pred]. rewrite (repGreedy_stop true colonSpace false _ 0 c _ Hc Hhead).
    cbn [matchHere]. cbn [String.append] in Hrest. rewrite Hrest. reflexivity. }
  apply search_here.
  change ("Customer Service Phone: " ++ String c v ++ post)%string
    with ("Customer Service Phone" ++ ": " ++ String c v ++ post)%string.
  rewrite litCI_prefix. exact Htail.
Qed.

End PhonePattern.

(** ** The phone fallback of the profile extraction *)
Section PhoneFallback.
Import Obj Eff Profile.

Ltac split_ifs :=
  repeat match goal with
         | |- context [if ?c then _ else _] => destruct c eqn:?
         end.

(** A property read after one line was parsed: what the line wrote, else
    what was there before. *)
Lemma parseLine_lookup line following (r : Object) k :
  parseLine line following r !! k
  = match parseLine line following ∅ !! k with
    | Some v => Some v
    | None => r !! k
    end.
Proof.
  unfold parseLine.
  destruct (negb (JS.includes line ":")); [now rewrite lookup_empty|].
  destruct (JS.splitChar ":" line) as [|rawKey rest]; [now rewrite lookup_empty|].
  split_ifs; rewrite ?lookup_empty; try reflexivity;
    rewrite !lookup_insert; destruct (decide _); rewrite ?lookup_empty; reflexivity.
Qed.

Lemma parseLines_lookup lines (r : Object) k :
  parseLines lines r !! k
  = match parseLines lines ∅ !! k with
    | Some v => Some v
    | None => r !! k
    end.
Proof.
  revert r. induction lines as [|line following IH]; intros r; simpl.
  - now rewrite lookup_empty.
  - rewrite (IH (parseLine line following r)), (IH (parseLine line following ∅)).
    destruct (parseLines following ∅ !! k); [reflexivity|].
    apply parseLine_lookup.
Qed.

(** The parser only stores a phone number that is a non-empty string. *)
Lemma parseLine_phone_truthy line following (r : Object) :
  (forall v, r !! "phoneNumber" = Some v -> truthy v = true) ->
  forall v, parseLine line following r !! "phoneNumber" = Some v -> truthy v = true.
Proof.
  intros Hr v. unfold parseLine.
  destruct (negb (JS.includes line ":")); [apply Hr|].
  destruct (JS.splitChar ":" line) as [|rawKey rest]; [apply Hr|].
  destruct (JS.truthy (JS.trim (JS.join ":" rest))) eqn:Hvalue;
    split_ifs; try apply Hr;
    try (rewrite lookup_insert_ne by discriminate; apply Hr).
  rewrite lookup_insert_eq. intros [= <-]. exact Hvalue.
Qed.

Lemma parseLines_phone_truthy lines (r : Object) :
  (forall v, r !! "phoneNumber" = Some v -> truthy v = true) ->
  forall v, parseLines lines r !! "phoneNumber" = Some v -> truthy v = true.
Proof.
  revert r. induction lines as [|line following IH]; intros r Hr; simpl; [exact Hr|].
  apply IH. now apply parseLine_phone_truthy.
Qed.

Lemma parsed_phone_not_falsy lines (r : Object) :
  r !! "phoneNumber" = None ->
  falsy (parseLines lines r !! "phoneNumber")
  = match parseLines lines ∅ !! "phoneNumber" with Some _ => false | None => true end.
Proof.
  intros Hr. rewrite parseLines_lookup, Hr.
  destruct (parseLines lines ∅ !! "phoneNumber") as [v|] eqn:Hv; [|reflexivity].
  simpl. erewrite parseLines_phone_truthy; [reflexivity | | exact Hv].
  intros v' H. rewrite lookup_empty in H. discriminate.
Qed.

(** The two offer-listing scrapers on a page without detail heading: the
    first "Customer Service Phone: value" line fills both phone
    properties and nothing else of the business data is set. *)
Lemma phone_fallback_without_heading d pre c v post :
  List.find isDetailHeading (Dom.h3 d) = None ->
  Dom.body d = Some (pre ++ "Customer Service Phone: " ++ String c v ++ post)%string ->
  Regex.indexOfCI (pre ++ "Customer Service Phone: " ++ String c v ++ post)
                  "Customer Service Phone" = Some (String.length pre) ->
  Regex.colonSpace c = false ->
  JS.blankWidth (String c v) = 0 ->
  Regex.allChars Regex.notNewline (String c v) = true ->
  Regex.endOfLine post = true ->
  JS.trim (String c v) = String c v ->
  exists info,
    sellerInfoInPage d = Ok info
    /\ info !! "hasDetailedInfo" = Some (VBool false)
    /\ info !! "phoneNumber" = Some (VStr (String c v))
    /\ info !! "customerServicePhone" = Some (VStr (String c v))
    /\ forall key, In key blockOnly -> info !! key = None.
Proof.
  intros Hfind Hbody Hfirst Hc Hwide Hv Hpost Htrim.
  unfold sellerInfoInPage, bodyText. rewrite Hfind, Hbody.
  rewrite (csPhone_first_mention _ _ _ _ Hfirst Hc Hwide Hv Hpost), Htrim.
  eexists. split; [reflexivity|]. repeat split.
  intros key Hin. unfold blockOnly in Hin. simpl in Hin.
  repeat (destruct Hin as [<- | Hin]; [reflexivity|]). destruct Hin.
Qed.

(** [src/scraper.js] on any page without detail heading: no phone
    property is set, whatever the page text says. *)
Lemma aod_without_heading_sets_no_phone d :
  List.find isDetailHeading (Dom.h3 d) = None ->
  exists info,
    sellerInfoInPageAod d = Ok info
    /\ info !! "hasDetailedInfo" = Some (VBool false)
    /\ info !! "phoneNumber" = None
    /\ info !! "customerServicePhone" = None.
Proof.
  intros Hfind. unfold sellerInfoInPageAod. rewrite Hfind.
  eexists. split; [reflexivity|].
  destruct (Dom.ratingLinkDiv d) as [[divText|]|]; try (repeat split; reflexivity).
  destruct (JS.truthy (JS.trim divText)); repeat split; reflexivity.
Qed.

(** C2: [src/scraper.js] returns from the in-page code as soon as the
    detail heading is missing, before its own "Customer Service Phone"
    fallback: on the sample page it sets neither phone property, where the
    two later scrapers return the number in both. *)
Theorem aod_returns_before_phone_fallback :
  List.find isDetailHeading (Dom.h3 Samples.phoneOnly) = None
  /\ sellerInfoInPageAod Samples.phoneOnly
     = Ok ({[ "sellerDisplayName" := VStr "Gulf Traders";
              "hasDetailedInfo" := VBool false ]} : Object)
  /\ (exists info st',
         ScraperAod.extractSellerInfo (Samples.serving (Samples.showing Samples.phoneOnly))
           "https://www.amazon.ae/sp?seller=A1XYZ&asin=B07YDVWL4J" Samples.idle
         = (Ok info, st')
         /\ info !! "hasDetailedInfo" = Some (VBool false)
         /\ info !! "phoneNumber" = None
         /\ info !! "customerServicePhone" = None)
  /\ (exists info,
         sellerInfoInPage Samples.phoneOnly = Ok info
         /\ info !! "hasDetailedInfo" = Some (VBool false)
         /\ info !! "phoneNumber" = Some (VStr "+44 20 7946 0958")
         /\ info !! "customerServicePhone" = Some (VStr "+44 20 7946 0958")
         /\ forall key, In key blockOnly -> info !! key = None).
Proof.
  split; [reflexivity|]. split; [reflexivity|]. split.
  - eexists _, _. split; [reflexivity|]. repeat split.
  - apply (phone_fallback_without_heading Samples.phoneOnly
             ("Gulf Traders" ++ Samples.nl) "+" "44 20 7946 0958"
             (Samples.nl ++ "Returns and refunds")); reflexivity.
Qed.

(** The claim of C7 as it is written fails when the detail heading has no
    enclosing block: the in-page code returns before it scans the page
    text, although the text matches the pattern. *)
Lemma heading_without_block_skips_fallback :
  exists text info,
    Dom.body Samples.headingWithoutBlock = Some text
    /\ Regex.search csPhonePattern text = Some "+44 20 7946 0958"%string
    /\ sellerInfoInPage Samples.headingWithoutBlock = Ok info
    /\ info !! "hasDetailedInfo" = Some (VBool true)
    /\ info !! "customerServicePhone" = None
    /\ info !! "customerServicePhone" <> Some (VStr "+44 20 7946 0958")
    /\ info !! "phoneNumber" = None.
Proof.
  eexists _, _. split; [reflexivity|]. split; [reflexivity|]. split; [reflexivity|].
  repeat split. discriminate.
Qed.

(** C7, amended: once the detail heading and its enclosing block were
    found, a page text that matches the fallback pattern sets
    [customerServicePhone] to the trimmed match, and sets [phoneNumber]
    from it only when the label:value parse of the block stored no phone
    number; when the heading has no enclosing block the code returns
    before the scan and sets neither.  This holds for the in-page code of
    the three scrapers.  Without a detail heading the two offer-listing
    scrapers set both properties from the match. *)
Theorem service_phone_after_detail_block inPage :
  inPage = sellerInfoInPage \/ inPage = sellerInfoInPageAod ->
  (forall d h allText text m,
      List.find isDetailHeading (Dom.h3 d) = Some h ->
      Dom.container h = Some allText ->
      Dom.body d = Some text ->
      Regex.search csPhonePattern text = Some m ->
      exists info,
        inPage d = Ok info
        /\ info !! "customerServicePhone" = Some (VStr (JS.trim m))
        /\ info !! "phoneNumber"
           = match parseLines (textLines allText) ∅ !! "phoneNumber" with
             | Some fromBlock => Some fromBlock
             | None => Some (VStr (JS.trim m))
             end)
  /\ (forall d h,
         List.find isDetailHeading (Dom.h3 d) = Some h ->
         Dom.container h = None ->
         exists info,
           inPage d = Ok info
           /\ info !! "customerServicePhone" = None
           /\ info !! "phoneNumber" = None)
  /\ (forall d text m,
         List.find isDetailHeading (Dom.h3 d) = None ->
         Dom.body d = Some text ->
         Regex.search csPhonePattern text = Some m ->
         exists info,
           sellerInfoInPage d = Ok info
           /\ info !! "customerServicePhone" = Some (VStr (JS.trim m))
           /\ info !! "phoneNumber" = Some (VStr (JS.trim m))).
Proof.
  intros Hversion. split; [|split].
  - intros d h allText text m Hfind Hblock Hbody Hmatch.
    destruct Hversion as [-> | ->];
      [unfold sellerInfoInPage | unfold sellerInfoInPageAod];
      unfold bodyText; rewrite Hfind, Hblock, Hbody, Hmatch;
      match goal with
      | |- context [parseLines _ ?r0] => set (base := r0)
      end;
      (assert (Hbase : base !! "phoneNumber" = None);
       [subst base; try reflexivity;
        destruct (Dom.ratingLinkDiv d) as [[divText|]|]; try reflexivity;
        destruct (JS.truthy (JS.trim divText)); reflexivity|]);
      rewrite ?lookup_insert_ne by discriminate;
      rewrite (parsed_phone_not_falsy _ _ Hbase);
      (eexists; split; [reflexivity|]);
      destruct (parseLines (textLines allText) ∅ !! "phoneNumber") as [fromBlock|] eqn:Hp;
      rewrite ?lookup_insert_eq, ?(lookup_insert_ne _ "customerServicePhone" "phoneNumber"),
        ?(lookup_insert_ne _ "phoneNumber" "customerServicePhone"), ?lookup_insert_eq
        by discriminate;
      (split; [reflexivity|]); try reflexivity;
      now rewrite parseLines_lookup, Hp.
  - intros d h Hfind Hnone.
    destruct Hversion as [-> | ->];
      [unfold sellerInfoInPage | unfold sellerInfoInPageAod];
      unfold bodyText; rewrite Hfind, Hnone; (eexists; split; [reflexivity|]).
    + destruct (Dom.body d); split; reflexivity.
    + destruct (Dom.ratingLinkDiv d) as [[divText|]|]; try (split; reflexivity).
      destruct (JS.truthy (JS.trim divText)); split; reflexivity.
  - intros d text m Hfind Hbody Hmatch.
    unfold sellerInfoInPage, bodyText. rewrite Hfind, Hbody, Hmatch.
    eexists. split; [reflexivity|]. split; reflexivity.
Qed.

Lemma service_phone_after_detail_block_witness :
  exists info,
    sellerInfoInPage Samples.fullProfile = Ok info
    /\ info !! "customerServicePhone" = Some (VStr "0800 111")
    /\ info !! "phoneNumber" = Some (VStr "030 222").
Proof.
  destruct (service_phone_after_detail_block sellerInfoInPage (or_introl eq_refl))
    as (Hblock & _ & _).
  destruct (Hblock Samples.fullProfile
              {| Dom.headingText := "Detailed Seller Information";
                 Dom.container := Some ("Business Name: Acme GmbH" ++ Samples.nl
                                          ++ "Phone number: 030 222")%string |}
              ("Business Name: Acme GmbH" ++ Samples.nl ++ "Phone number: 030 222")%string
              ("Acme Trading" ++ Samples.nl ++ "Customer Service Phone: 0800 111"
                 ++ Samples.nl ++ "Detailed Seller Information" ++ Samples.nl
                 ++ "Phone number: 030 222")%string
              "0800 111"%string eq_refl eq_refl eq_refl eq_refl)
    as (info & Hinfo & Hcs & Hphone).
  exists info. split; [exact Hinfo|]. split; [exact Hcs | exact Hphone].
Defined.

End PhoneFallback.

(** ** Deduplication through a [Map] *)
Section MapDedup.
Import Scraper.
Context {V : Type}.
Implicit Types (m es : list (string * V)).

Lemma mapSet_fresh k v m : ~ In k (List.map fst m) -> mapSet k v m = m ++ [(k, v)].
Proof.
  induction m as [|[k' v'] m IH]; simpl; intros Hk; [reflexivity|].
  destruct (String.eqb_spec k k') as [->|Hne]; [tauto|].
  rewrite IH; tauto.
Qed.

Lemma mapSet_keys k v m x :
  In x (List.map fst (mapSet k v m)) <-> x = k \/ In x (List.map fst m).
Proof.
  induction m as [|[k' v'] m IH]; simpl; [intuition congruence|].
  destruct (String.eqb_spec k k') as [->|Hne]; simpl; [intuition congruence|].
  rewrite IH. intuition congruence.
Qed.

Lemma mapSet_NoDup k v m :
  List.NoDup (List.map fst m) -> List.NoDup (List.map fst (mapSet k v m)).
Proof.
  induction m as [|[k' v'] m IH]; simpl; intros Hm.
  - constructor; [tauto | constructor].
  - apply NoDup_cons_iff in Hm as [Hk' Hm].
    destruct (String.eqb_spec k k') as [->|Hne]; simpl.
    + apply NoDup_cons_iff. split; assumption.
    + apply NoDup_cons_iff. split; [|auto].
      rewrite mapSet_keys. intros [-> | Hin]; tauto.
Qed.

(** Under distinct keys, an entry of the updated map is the new one or an
    old one under another key. *)
Lemma mapSet_In k v m e :
  List.NoDup (List.map fst m) ->
  In e (mapSet k v m) -> e = (k, v) \/ (In e m /\ fst e <> k).
Proof.
  induction m as [|[k' v'] m IH]; simpl; intros Hm.
  - intros [<- | []]. now left.
  - apply NoDup_cons_iff in Hm as [Hk' Hm].
    destruct (String.eqb_spec k k') as [->|Hne]; simpl.
    + intros [<- | He]; [now left|]. right. split; [now right|].
      intros Heq. apply Hk'. rewrite <- Heq. now apply in_map.
    + intros [<- | He]; [right; split; [now left | simpl; congruence]|].
      destruct (IH Hm He) as [-> | [Hin Hk]]; [now left | right; tauto].
Qed.

Lemma mapOf_snoc es e : mapOf (es ++ [e]) = mapSet (fst e) (snd e) (mapOf es).
Proof. unfold mapOf. now rewrite fold_left_app. Qed.

Lemma mapOf_NoDup es : List.NoDup (List.map fst (mapOf es)).
Proof.
  induction es as [|e es IH] using rev_ind; [constructor|].
  rewrite mapOf_snoc. now apply mapSet_NoDup.
Qed.

(** An entry of [new Map(entries)] is the last of the entries given under
    its key. *)
Lemma mapOf_last es e :
  In e (mapOf es) ->
  exists pre post, es = pre ++ e :: post /\ forall e', In e' post -> fst e' <> fst e.
Proof.
  induction es as [|e0 es IH] using rev_ind; [intros []|].
  rewrite mapOf_snoc. intros He.
  apply mapSet_In in He; [|apply mapOf_NoDup].
  destruct He as [-> | [Hin Hk]].
  - exists es, []. split; [now destruct e0|]. intros e' [].
  - destruct (IH Hin) as (pre & post & -> & Hpost).
    exists pre, (post ++ [e0]). split; [now rewrite <- app_assoc|].
    intros e' He'. apply in_app_or in He' as [He' | [<- | []]]; [auto | congruence].
Qed.

(** Every key given is a key of the map. *)
Lemma mapOf_keys es x : In x (List.map fst (mapOf es)) <-> In x (List.map fst es).
Proof.
  induction es as [|e es IH] using rev_ind; [reflexivity|].
  rewrite mapOf_snoc, mapSet_keys, IH, List.map_app, in_app_iff. simpl. intuition.
Qed.

(** Entries under distinct keys come back as they were given. *)
Lemma mapOf_distinct es : List.NoDup (List.map fst es) -> mapOf es = es.
Proof.
  induction es as [|e es IH] using rev_ind; [reflexivity|].
  rewrite List.map_app. intros Hnd.
  rewrite mapOf_snoc, IH; [|eapply NoDup_app_remove_r; exact Hnd].
  destruct e as [k v]. apply mapSet_fresh. simpl in *.
  intros Hin. apply NoDup_remove_2 in Hnd. rewrite app_nil_r in Hnd. contradiction.
Qed.

End MapDedup.

Section UniqueSellers.
Import Scraper.

Lemma keyed_keys (l : list Seller) :
  List.map fst (List.map (fun s => (sellerId s, s)) l) = List.map sellerId l.
Proof. rewrite List.map_map. reflexivity. Qed.

Lemma uniqueBySellerId_last l s :
  In s (uniqueBySellerId l) ->
  exists pre post, l = pre ++ s :: post /\ forall c, In c post -> sellerId c <> sellerId s.
Proof.
  unfold uniqueBySellerId. intros Hs.
  apply in_map_iff in Hs as ([k s'] & Heq & He). simpl in Heq. subst s'.
  apply mapOf_last in He as (pre & post & Hsplit & Hpost).
  assert (Hk : k = sellerId s).
  { assert (Hin : In (k, s) (List.map (fun s => (sellerId s, s)) l)).
    { rewrite Hsplit. apply in_or_app. right. now left. }
    apply in_map_iff in Hin as (s0 & [= <- <-] & _). reflexivity. }
  subst k.
  apply map_eq_app in Hsplit as (lpre & ltail & -> & <- & Htail).
  apply map_eq_cons in Htail as (s0 & lpost & -> & [= _ <-] & <-).
  exists lpre, lpost. split; [reflexivity|].
  intros c Hc. apply (Hpost (sellerId c, c)).
  apply in_map_iff. now exists c.
Qed.

Lemma uniqueBySellerId_ids l x :
  In x (List.map sellerId (uniqueBySellerId l)) <-> In x (List.map sellerId l).
Proof.
  unfold uniqueBySellerId. rewrite <- (keyed_keys l), <- mapOf_keys.
  assert (Hagree : forall e, In e (mapOf (List.map (fun s => (sellerId s, s)) l)) ->
                             fst e = sellerId (snd e)).
  { intros e He. apply mapOf_last in He as (pre & post & Hsplit & _).
    assert (Hin : In e (List.map (fun s => (sellerId s, s)) l)).
    { rewrite Hsplit. apply in_or_app. right. now left. }
    apply in_map_iff in Hin as (s0 & <- & _). reflexivity. }
  rewrite List.map_map. revert Hagree.
  generalize (mapOf (List.map (fun s => (sellerId s, s)) l)).
  intros m Hagree. rewrite !in_map_iff. split; intros (e & <- & He); exists e;
    (split; [|exact He]); [|symmetry]; now apply Hagree.
Qed.

Lemma uniqueBySellerId_NoDup l : List.NoDup (List.map sellerId (uniqueBySellerId l)).
Proof.
  unfold uniqueBySellerId.
  assert (Hnd := mapOf_NoDup (List.map (fun s => (sellerId s, s)) l)).
  assert (Hagree : forall e, In e (mapOf (List.map (fun s => (sellerId s, s)) l)) ->
                             fst e = sellerId (snd e)).
  { intros e He. apply mapOf_last in He as (pre & post & Hsplit & _).
    assert (Hin : In e (List.map (fun s => (sellerId s, s)) l)).
    { rewrite Hsplit. apply in_or_app. right. now left. }
    apply in_map_iff in Hin as (s0 & <- & _). reflexivity. }
  rewrite List.map_map.
  rewrite <- (map_ext_in _ _ _ Hagree). exact Hnd.
Qed.

Lemma uniqueBySellerId_distinct l :
  List.NoDup (List.map sellerId l) -> uniqueBySellerId l = l.
Proof.
  intros Hnd. unfold uniqueBySellerId.
  rewrite mapOf_distinct by now rewrite keyed_keys.
  rewrite List.map_map. simpl. apply map_id.
Qed.

End UniqueSellers.

(** ** The three strategies against the specification *)
Section Strategies.
Import Scraper ScraperMulti DiscoverySpec.
Context (b : Eff.Browser).

Lemma byLink_addNew tag acc a :
  byLink b tag acc a
  = match viaLink b tag a with Some c => addNew acc c | None => acc end.
Proof.
  unfold byLink, viaLink, candidate, accepts, addNew.
  destruct (extractSellerId b (Dom.href a)) as [i|]; [|reflexivity].
  destruct (JS.truthy i); simpl; [|reflexivity].
  destruct (JS.truthy (JS.trim (Dom.textContent a))); simpl; [|reflexivity].
  destruct (bool_decide (i ∈ seenIds acc)); reflexivity.
Qed.

Lemma bySoldBy_addNew acc a :
  bySoldBy b acc a
  = match viaSoldBy b a with Some c => addNew acc c | None => acc end.
Proof.
  unfold bySoldBy, viaSoldBy, candidate, accepts, addNew.
  destruct (nearSoldBy a); [|reflexivity].
  destruct (JS.truthy (JS.trim (Dom.textContent a)));
    destruct (JS.includes (Dom.href a) "/sp");
    destruct (Regex.search sellerPathPattern (Dom.href a)) as [j|];
    destruct (extractSellerId b (Dom.href a)) as [i|];
    try destruct (JS.truthy i); try destruct (JS.truthy j); simpl; try reflexivity;
    match goal with
    | |- context [bool_decide ?P] => destruct (bool_decide P); reflexivity
    end.
Qed.

Lemma fold_candidates {A} (step : Acc -> A -> Acc) (cand : A -> option Seller) l :
  (forall acc a, step acc a = match cand a with Some c => addNew acc c | None => acc end) ->
  forall acc, fold_left step l acc = fold_left addNew (omap cand l) acc.
Proof.
  intros Hstep. induction l as [|a l IH]; intros acc; [reflexivity|].
  cbn [fold_left omap list_omap]. rewrite Hstep, IH.
  destruct (cand a); reflexivity.
Qed.

Lemma fold_addNew cands acc :
  found (fold_left addNew cands acc) = found acc ++ keepFirst (seenIds acc) cands.
Proof.
  revert acc. induction cands as [|c cands IH]; intros acc; simpl.
  - now rewrite app_nil_r.
  - rewrite IH. unfold addNew.
    destruct (bool_decide (sellerId c ∈ seenIds acc)); [reflexivity|].
    simpl. now rewrite <- app_assoc.
Qed.

(** The in-page code computes what the specification describes. *)
Lemma sellersInPage_refines d : sellersInPage b d = discoverSellers b d.
Proof.
  unfold sellersInPage, discoverSellers, candidates.
  rewrite (fold_candidates _ _ _ (byLink_addNew "aag")).
  rewrite (fold_candidates _ _ _ (byLink_addNew "sellerParam")).
  rewrite (fold_candidates _ _ _ bySoldBy_addNew).
  rewrite <- !fold_left_app, fold_addNew. reflexivity.
Qed.

Lemma keepFirst_first seen l s :
  In s (keepFirst seen l) ->
  (sellerId s ∉ seen)
  /\ exists pre post, l = pre ++ s :: post /\ forall c, In c pre -> sellerId c <> sellerId s.
Proof.
  revert seen. induction l as [|c l IH]; intros seen; simpl; [intros []|].
  case_bool_decide as Hseen.
  - intros Hs. destruct (IH _ Hs) as (Hnew & pre & post & -> & Hpre).
    split; [exact Hnew|]. exists (c :: pre), post. split; [reflexivity|].
    intros c' [<- | Hc']; [congruence | auto].
  - intros [<- | Hs].
    + split; [exact Hseen|]. exists [], l. split; [reflexivity | intros c' []].
    + destruct (IH _ Hs) as (Hnew & pre & post & -> & Hpre).
      split; [intros H; apply Hnew, elem_of_union; now right|].
      exists (c :: pre), post. split; [reflexivity|].
      intros c' [<- | Hc']; [|auto].
      intros Heq. apply Hnew, elem_of_union. left. now apply elem_of_singleton.
Qed.

Lemma keepFirst_NoDup seen l : List.NoDup (List.map sellerId (keepFirst seen l)).
Proof.
  revert seen. induction l as [|c l IH]; intros seen; simpl; [constructor|].
  case_bool_decide as Hseen; [apply IH|].
  simpl. constructor; [|apply IH].
  intros Hin. apply in_map_iff in Hin as (s & Heq & Hs).
  apply keepFirst_first in Hs as [Hnew _].
  apply Hnew, elem_of_union. left. now apply elem_of_singleton.
Qed.

Lemma keepFirst_complete seen l c :
  In c l ->
  sellerId c ∈ seen \/ exists s, In s (keepFirst seen l) /\ sellerId s = sellerId c.
Proof.
  revert seen. induction l as [|c0 l IH]; intros seen; simpl; [intros []|].
  case_bool_decide as Hseen.
  - intros [<- | Hc]; [now left | now apply IH].
  - intros [<- | Hc].
    + right. exists c0. split; [now left | reflexivity].
    + destruct (IH ({[sellerId c0]} ∪ seen) Hc) as [Hin | (s & Hs & Heq)].
      * apply elem_of_union in Hin as [Hin | Hin]; [|now left].
        apply elem_of_singleton in Hin. right. exists c0. split; [now left | congruence].
      * right. exists s. split; [now right | exact Heq].
Qed.

End Strategies.

(** ** What [extractAllSellers] returns *)
Section Discovery.
Import Scraper Eff.
Context (b : Browser).

Ltac run :=
  unfold bind, getPage, lift, logAt, delay, tryCatch, evaluate, ret, goto;
  cbn -[List.find String.append].

(** After the navigation the multi-strategy scraper leaves the page as
    it is and returns nothing or the deduplicated sellers of the page. *)
Lemma afterLoad_result tag st r st' :
  ScraperMulti.afterLoad b tag st = (r, st') ->
  page st' = page st
  /\ forall sellers, r = Ok sellers ->
       sellers = []
       \/ exists d, document (page st) = Ok d
                    /\ sellers = uniqueBySellerId (ScraperMulti.sellersInPage b d).
Proof.
  unfold ScraperMulti.afterLoad. run.
  destruct (title (page st)) as [pageTitle|e]; cbn -[List.find String.append];
    [|intros [= <- <-]; split; [reflexivity | discriminate]].
  destruct (_ || _); cbn -[List.find String.append];
    [intros [= <- <-]; split; [reflexivity | intros ? [= <-]; now left]|].
  destruct (captchaForm (page st)) as [[]|e]; cbn -[List.find String.append];
    [intros [= <- <-]; split; [reflexivity | intros ? [= <-]; now left]
    | | intros [= <- <-]; split; [reflexivity | discriminate]].
  destruct (List.find _ _); cbn -[List.find String.append];
    destruct (document (page st)) as [d|e] eqn:Hd; cbn -[List.find String.append];
    rewrite ?Hd; cbn -[List.find String.append];
    intros [= <- <-]; (split; [reflexivity|]); intros ? [= <-]; eauto.
Qed.

Lemma messages_app l st more p c :
  forall msg, In msg (messages l st) ->
              In msg (messages l {| page := p; log := log st ++ more; clock := c |}).
Proof.
  intros msg. unfold messages. cbn [log].
  rewrite List.filter_app, List.map_app. intros H. apply in_or_app. now left.
Qed.

(** The log only grows. *)
Lemma afterLoad_log tag st :
  exists more, log (snd (ScraperMulti.afterLoad b tag st)) = log st ++ more.
Proof.
  unfold ScraperMulti.afterLoad. run.
  destruct (title (page st)) as [pageTitle|e]; cbn -[List.find String.append];
    [|exists []; now rewrite app_nil_r].
  destruct (_ || _); cbn -[List.find String.append];
    [rewrite <- !app_assoc; eexists; reflexivity|].
  destruct (captchaForm (page st)) as [[]|e]; cbn -[List.find String.append];
    [rewrite <- !app_assoc; eexists; reflexivity
    | | rewrite <- !app_assoc; eexists; reflexivity].
  destruct (List.find _ _); cbn -[List.find String.append];
    destruct (document (page st)) as [d|e] eqn:Hd; cbn -[List.find String.append];
    rewrite ?Hd; cbn -[List.find String.append];
    rewrite <- !app_assoc; eexists; reflexivity.
Qed.

Lemma multi_result asin m st r st' :
  ScraperMulti.extractAllSellers b asin m st = (r, st') ->
  page st' = snd (navigate b (ScraperMulti.offerUrl asin m) (page st))
  /\ forall sellers, r = Ok sellers ->
       sellers = []
       \/ exists d, document (page st') = Ok d
                    /\ sellers = uniqueBySellerId (ScraperMulti.sellersInPage b d).
Proof.
  unfold ScraperMulti.extractAllSellers.
  unfold bind at 1. unfold logAt at 1. cbv beta iota.
  unfold bind at 1. unfold tryCatch, goto, logAt at 1. cbn [page log clock].
  destruct (navigate b (ScraperMulti.offerUrl asin m) (page st)) as [[[]|e] p] eqn:Hnav;
    cbn [snd]; intros Hafter; apply afterLoad_result in Hafter as [Hpage Hres];
    cbn [page] in Hpage, Hres; rewrite Hpage; (split; [reflexivity|]); exact Hres.
Qed.

Lemma inline_result asin m st r st' :
  ScraperInline.extractAllSellers b asin m st = (r, st') ->
  page st' = snd (navigate b (ScraperInline.offerUrl asin m) (page st))
  /\ forall sellers, r = Ok sellers ->
       sellers = []
       \/ exists d, document (page st') = Ok d
                    /\ sellers = uniqueBySellerId (ScraperInline.sellersInPage b d).
Proof.
  unfold ScraperInline.extractAllSellers. run.
  destruct (navigate b (ScraperInline.offerUrl asin m) (page st)) as [[[]|e] p] eqn:Hnav;
    cbn -[List.find String.append];
    [|intros [= <- <-]; split; [reflexivity | intros ? [= <-]; now left]].
  destruct (title p) as [pageTitle|e]; cbn -[List.find String.append];
    [|intros [= <- <-]; split; [reflexivity | discriminate]].
  destruct (_ || _); cbn -[List.find String.append];
    [intros [= <- <-]; split; [reflexivity | intros ? [= <-]; now left]|].
  destruct (captchaForm p) as [[]|e]; cbn -[List.find String.append];
    [intros [= <- <-]; split; [reflexivity | intros ? [= <-]; now left]
    | | intros [= <- <-]; split; [reflexivity | discriminate]].
  destruct (document p) as [d|e] eqn:Hd; cbn -[List.find String.append];
    intros [= <- <-]; cbn; (split; [reflexivity|]); intros ? [= <-]; eauto.
Qed.

Lemma multi_sellers_first asin m st sellers :
  fst (ScraperMulti.extractAllSellers b asin m st) = Ok sellers ->
  let p := snd (navigate b (ScraperMulti.offerUrl asin m) (page st)) in
  List.NoDup (List.map sellerId sellers)
  /\ (sellers = []
      \/ exists d, document p = Ok d /\ sellers = DiscoverySpec.discoverSellers b d)
  /\ (forall s, In s sellers ->
        exists d pre post,
          document p = Ok d
          /\ DiscoverySpec.candidates b d = pre ++ s :: post
          /\ forall c, In c pre -> sellerId c <> sellerId s).
Proof.
  destruct (ScraperMulti.extractAllSellers b asin m st) as [r st'] eqn:Hrun.
  cbn [fst]. intros ->. apply multi_result in Hrun as [Hpage Hres].
  rewrite <- Hpage. cbv zeta.
  destruct (Hres sellers eq_refl) as [-> | (d & Hd & ->)].
  - split; [constructor|]. split; [now left | intros s []].
  - rewrite sellersInPage_refines.
    assert (Hnd := keepFirst_NoDup ∅ (DiscoverySpec.candidates b d)).
    unfold DiscoverySpec.discoverSellers in *.
    rewrite (uniqueBySellerId_distinct _ Hnd).
    split; [exact Hnd|]. split; [right; eauto|].
    intros s Hs. apply keepFirst_first in Hs as (_ & pre & post & Hsplit & Hpre).
    exists d, pre, post. auto.
Qed.

Lemma inline_sellers_last asin m st sellers :
  fst (ScraperInline.extractAllSellers b asin m st) = Ok sellers ->
  let p := snd (navigate b (ScraperInline.offerUrl asin m) (page st)) in
  List.NoDup (List.map sellerId sellers)
  /\ (forall s, In s sellers ->
        exists d pre post,
          document p = Ok d
          /\ ScraperInline.sellersInPage b d = pre ++ s :: post
          /\ forall c, In c post -> sellerId c <> sellerId s).
Proof.
  destruct (ScraperInline.extractAllSellers b asin m st) as [r st'] eqn:Hrun.
  cbn [fst]. intros ->. apply inline_result in Hrun as [Hpage Hres].
  rewrite <- Hpage. cbv zeta.
  destruct (Hres sellers eq_refl) as [-> | (d & Hd & ->)].
  - split; [constructor | intros s []].
  - split; [apply uniqueBySellerId_NoDup|].
    intros s Hs. apply uniqueBySellerId_last in Hs as (pre & post & Hsplit & Hpost).
    exists d, pre, post. auto.
Qed.

(** A navigation failure in the single-selector scraper. *)
Lemma inline_navigation_failure asin m st e p :
  navigate b (ScraperInline.offerUrl asin m) (page st) = (Throw e, p) ->
  exists st',
    ScraperInline.extractAllSellers b asin m st = (Ok [], st')
    /\ In (ScraperInline.tagOf m ++ "Failed to load offer page: " ++ e)%string
          (messages Warning st')
    /\ page st' = p.
Proof.
  intros Hnav. unfold ScraperInline.extractAllSellers. run. rewrite Hnav.
  cbn -[String.append]. eexists. split; [reflexivity|]. split; [|reflexivity].
  apply messages_last.
Qed.

(** A navigation failure in the multi-strategy scraper. *)
Lemma multi_navigation_failure asin m st e p :
  navigate b (ScraperMulti.offerUrl asin m) (page st) = (Throw e, p) ->
  ScraperMulti.extractAllSellers b asin m st
  = ScraperMulti.afterLoad b (ScraperMulti.tagOf m)
      {| page := p;
         log := (log st
                   ++ [{| level := Info;
                          text := String Regex.newline
                                    (ScraperMulti.tagOf m ++ "Loading offers: "
                                       ++ ScraperMulti.offerUrl asin m) |}])
                  ++ [{| level := Warning;
                         text := ScraperMulti.tagOf m
                                   ++ "Page load timeout, continuing anyway: " ++ e |}];
         clock := clock st |}
  /\ In (ScraperMulti.tagOf m ++ "Page load timeout, continuing anyway: " ++ e)%string
        (messages Warning (snd (ScraperMulti.extractAllSellers b asin m st))).
Proof.
  intros Hnav.
  assert (Heq : ScraperMulti.extractAllSellers b asin m st
                = ScraperMulti.afterLoad b (ScraperMulti.tagOf m)
                    {| page := p;
                       log := (log st
                                 ++ [{| level := Info;
                                        text := String Regex.newline
                                                  (ScraperMulti.tagOf m ++ "Loading offers: "
                                                     ++ ScraperMulti.offerUrl asin m) |}])
                                ++ [{| level := Warning;
                                       text := ScraperMulti.tagOf m
                                                 ++ "Page load timeout, continuing anyway: "
                                                 ++ e |}];
                       clock := clock st |}).
  { unfold ScraperMulti.extractAllSellers.
    unfold bind at 1. unfold logAt at 1. cbv beta iota.
    unfold bind at 1. unfold tryCatch, goto, logAt at 1. cbn [page log clock].
    rewrite Hnav. reflexivity. }
  split; [exact Heq|]. rewrite Heq.
  match goal with
  | |- context [ScraperMulti.afterLoad b ?tag ?st0] =>
      destruct (afterLoad_log tag st0) as [more Hlog];
      destruct (ScraperMulti.afterLoad b tag st0) as [r [p' l' c']]
  end.
  cbn [snd log] in Hlog |- *. subst l'.
  apply messages_app with (st := {| page := p'; log := _; clock := c' |}).
  apply messages_last.
Qed.

End Discovery.

Section DiscoveryCases.
Import Scraper Eff.

(** The claim of C1 as it is written fails in the single-selector scraper:
    seller A1XYZ is linked twice, first as "Acme", and the entry returned
    carries the text and the address of the second link. *)
Lemma inline_keeps_last_link :
  fst (ScraperInline.extractAllSellers Samples.online "B07YDVWL4J" Samples.de Samples.idle)
  = Ok [ {| name := "Acme Trading Ltd"; sellerId := "A1XYZ";
            sellerHref := "https://www.amazon.de/gp/aag/main?seller=A1XYZ&ref=2";
            strategy := None |};
         {| name := "Bolt GmbH"; sellerId := "B2QRS";
            sellerHref := "https://www.amazon.de/gp/aag/main?seller=B2QRS";
            strategy := None |} ]
  /\ List.find (fun s => String.eqb (sellerId s) "A1XYZ")
               (ScraperInline.sellersInPage Samples.online Samples.repeatedSeller)
     = Some {| name := "Acme"; sellerId := "A1XYZ";
               sellerHref := "https://www.amazon.de/gp/aag/main?seller=A1XYZ&ref=1";
               strategy := None |}.
Proof. split; reflexivity. Qed.

(** The claim of C3 as it is written fails in the multi-strategy scraper:
    the navigation times out, a warning is logged, and the sellers of the
    page that was left are returned. *)
Lemma multi_continues_after_timeout :
  navigate Samples.slow (ScraperMulti.offerUrl "B07YDVWL4J" Samples.de) (page Samples.idle)
  = (Throw "page.goto: Timeout 45000ms exceeded.", Samples.offers)
  /\ fst (ScraperMulti.extractAllSellers Samples.slow "B07YDVWL4J" Samples.de Samples.idle)
     = Ok [ {| name := "Acme"; sellerId := "A1XYZ";
               sellerHref := "https://www.amazon.de/gp/aag/main?seller=A1XYZ&ref=1";
               strategy := Some "aag" |};
            {| name := "Bolt GmbH"; sellerId := "B2QRS";
               sellerHref := "https://www.amazon.de/gp/aag/main?seller=B2QRS";
               strategy := Some "aag" |} ]
  /\ fst (ScraperMulti.extractAllSellers Samples.slow "B07YDVWL4J" Samples.de Samples.idle)
     <> Ok [].
Proof. split; [reflexivity|]. split; [reflexivity | discriminate]. Qed.

(** C3, amended: on a navigation failure the single-selector scraper logs
    a warning and returns the empty sequence without reading the page;
    the multi-strategy scraper logs a warning and goes on with its checks
    and its extraction on the page that the failed navigation left. *)
Theorem navigation_failure_in_discovery (b : Browser) asin m st e p :
  (navigate b (ScraperInline.offerUrl asin m) (page st) = (Throw e, p) ->
   exists st',
     ScraperInline.extractAllSellers b asin m st = (Ok [], st')
     /\ In (ScraperInline.tagOf m ++ "Failed to load offer page: " ++ e)%string
           (messages Warning st')
     /\ page st' = p)
  /\ (navigate b (ScraperMulti.offerUrl asin m) (page st) = (Throw e, p) ->
      ScraperMulti.extractAllSellers b asin m st
      = ScraperMulti.afterLoad b (ScraperMulti.tagOf m)
          {| page := p;
             log := (log st
                       ++ [{| level := Info;
                              text := String Regex.newline
                                        (ScraperMulti.tagOf m ++ "Loading offers: "
                                           ++ ScraperMulti.offerUrl asin m) |}])
                      ++ [{| level := Warning;
                             text := ScraperMulti.tagOf m
                                       ++ "Page load timeout, continuing anyway: " ++ e |}];
             clock := clock st |}
      /\ In (ScraperMulti.tagOf m ++ "Page load timeout, continuing anyway: " ++ e)%string
            (messages Warning (snd (ScraperMulti.extractAllSellers b asin m st)))).
Proof.
  split; [apply inline_navigation_failure | apply multi_navigation_failure].
Qed.

Lemma navigation_failure_in_discovery_witness :
  exists st',
    ScraperInline.extractAllSellers Samples.slow "B07YDVWL4J" Samples.de Samples.idle
    = (Ok [], st')
    /\ In "[DE] Failed to load offer page: page.goto: Timeout 45000ms exceeded."%string
          (messages Warning st')
    /\ page st' = Samples.offers.
Proof.
  apply (proj1 (navigation_failure_in_discovery Samples.slow "B07YDVWL4J" Samples.de
                  Samples.idle "page.goto: Timeout 45000ms exceeded." Samples.offers)).
  reflexivity.
Defined.

End DiscoveryCases.


(** ** The paths through [extractAllSellers] *)
Section DiscoveryPaths.
Import Scraper Eff.
Context (b : Browser).

Ltac step :=
  unfold bind, getPage, lift, logAt, delay, tryCatch, evaluate, ret, goto;
  cbn -[List.find String.append].

(** The multi-strategy scraper always reaches [afterLoad], on the page
    that the navigation left and without having waited. *)
Lemma multi_reaches_afterLoad asin m st :
  exists st0,
    ScraperMulti.extractAllSellers b asin m st
    = ScraperMulti.afterLoad b (ScraperMulti.tagOf m) st0
    /\ page st0 = snd (navigate b (ScraperMulti.offerUrl asin m) (page st))
    /\ clock st0 = clock st.
Proof.
  unfold ScraperMulti.extractAllSellers.
  unfold bind at 1. unfold logAt at 1. cbv beta iota.
  unfold bind at 1. unfold tryCatch, goto, logAt at 1. cbn [page log clock].
  destruct (navigate b (ScraperMulti.offerUrl asin m) (page st)) as [[[]|e] p];
    eexists; (split; [reflexivity|]); split; reflexivity.
Qed.

Lemma afterLoad_not_found tag st t :
  title (page st) = Ok t ->
  notFoundTitle t || JS.includes (url (page st)) "/errors/" = true ->
  exists st',
    ScraperMulti.afterLoad b tag st = (Ok [], st')
    /\ page st' = page st /\ clock st' = clock st
    /\ In (tag ++ "Product not found on this marketplace")%string (messages Info st')
    /\ messages Warning st' = messages Warning st.
Proof.
  intros Ht Hnf. unfold ScraperMulti.afterLoad. step. rewrite Ht. step. rewrite Hnf. step.
  eexists. split; [reflexivity|]. repeat split.
  - apply messages_last.
  - unfold messages. cbn [log]. rewrite !List.filter_app, !List.map_app. cbn.
    now rewrite !app_nil_r.
Qed.

Lemma afterLoad_captcha tag st t :
  title (page st) = Ok t ->
  notFoundTitle t || JS.includes (url (page st)) "/errors/" = false ->
  captchaForm (page st) = Ok true ->
  exists st',
    ScraperMulti.afterLoad b tag st = (Ok [], st')
    /\ page st' = page st /\ clock st' = clock st
    /\ In (tag ++ "CAPTCHA detected — skipping")%string (messages Warning st').
Proof.
  intros Ht Hnf Hc. unfold ScraperMulti.afterLoad. step. rewrite Ht. step. rewrite Hnf. step.
  rewrite Hc. step. eexists. split; [reflexivity|]. repeat split. apply messages_last.
Qed.

Lemma afterLoad_probe_rejected tag st e :
  title (page st) = Throw e
  \/ (exists t, title (page st) = Ok t
                /\ notFoundTitle t || JS.includes (url (page st)) "/errors/" = false
                /\ captchaForm (page st) = Throw e) ->
  fst (ScraperMulti.afterLoad b tag st) = Throw e.
Proof.
  intros [Ht | (t & Ht & Hnf & Hc)]; unfold ScraperMulti.afterLoad; step; rewrite Ht; step;
    [reflexivity|]. rewrite Hnf. step. rewrite Hc. reflexivity.
Qed.

Lemma afterLoad_extracts tag st t :
  title (page st) = Ok t ->
  notFoundTitle t || JS.includes (url (page st)) "/errors/" = false ->
  captchaForm (page st) = Ok false ->
  exists st',
    ScraperMulti.afterLoad b tag st
    = (Ok match document (page st) with
          | Ok d => uniqueBySellerId (ScraperMulti.sellersInPage b d)
          | Throw _ => []
          end, st')
    /\ page st' = page st
    /\ clock st' = clock st
                   + match List.find (appears (page st)) ScraperMulti.offerSelectors with
                     | Some _ => 0
                     | None => 5000
                     end
    /\ messages Warning st' = messages Warning st.
Proof.
  intros Ht Hnf Hc. unfold ScraperMulti.afterLoad. step.
  rewrite Ht. step. rewrite Hnf. step. rewrite Hc. step.
  destruct (List.find _ _); step;
    destruct (document (page st)) as [d|e] eqn:Hd; step; rewrite ?Hd; step;
    (eexists; split; [reflexivity|]); (split; [reflexivity|]);
    (split; [cbn [clock]; lia|]);
    unfold messages; cbn [log]; rewrite !List.filter_app, !List.map_app; cbn;
    now rewrite !app_nil_r.
Qed.

Lemma inline_not_found asin m st p t :
  navigate b (ScraperInline.offerUrl asin m) (page st) = (Ok tt, p) ->
  title p = Ok t ->
  notFoundTitle t || JS.includes (url p) "/errors/" = true ->
  exists st',
    ScraperInline.extractAllSellers b asin m st = (Ok [], st')
    /\ page st' = p /\ clock st' = clock st + 2500
    /\ In (ScraperInline.tagOf m ++ "Product not found on this marketplace")%string
          (messages Info st')
    /\ messages Warning st' = messages Warning st.
Proof.
  intros Hnav Ht Hnf. unfold ScraperInline.extractAllSellers. step. rewrite Hnav. step.
  rewrite Ht. step. rewrite Hnf. step.
  eexists. split; [reflexivity|]. repeat split.
  - apply messages_last.
  - unfold messages. cbn [log]. rewrite !List.filter_app, !List.map_app. cbn.
    now rewrite !app_nil_r.
Qed.

Lemma inline_captcha asin m st p t :
  navigate b (ScraperInline.offerUrl asin m) (page st) = (Ok tt, p) ->
  title p = Ok t ->
  notFoundTitle t || JS.includes (url p) "/errors/" = false ->
  captchaForm p = Ok true ->
  exists st',
    ScraperInline.extractAllSellers b asin m st = (Ok [], st')
    /\ page st' = p /\ clock st' = clock st + 2500
    /\ In (ScraperInline.tagOf m ++ "CAPTCHA detected — skipping")%string
          (messages Warning st').
Proof.
  intros Hnav Ht Hnf Hc. unfold ScraperInline.extractAllSellers. step. rewrite Hnav. step.
  rewrite Ht. step. rewrite Hnf. step. rewrite Hc. step.
  eexists. split; [reflexivity|]. repeat split. apply messages_last.
Qed.

Lemma inline_probe_rejected asin m st p e :
  navigate b (ScraperInline.offerUrl asin m) (page st) = (Ok tt, p) ->
  title p = Throw e
  \/ (exists t, title p = Ok t
                /\ notFoundTitle t || JS.includes (url p) "/errors/" = false
                /\ captchaForm p = Throw e) ->
  fst (ScraperInline.extractAllSellers b asin m st) = Throw e.
Proof.
  intros Hnav [Ht | (t & Ht & Hnf & Hc)]; unfold ScraperInline.extractAllSellers; step;
    rewrite Hnav; step; rewrite Ht; step; [reflexivity|].
  rewrite Hnf. step. rewrite Hc. reflexivity.
Qed.

Lemma inline_extracts asin m st p t :
  navigate b (ScraperInline.offerUrl asin m) (page st) = (Ok tt, p) ->
  title p = Ok t ->
  notFoundTitle t || JS.includes (url p) "/errors/" = false ->
  captchaForm p = Ok false ->
  exists st',
    ScraperInline.extractAllSellers b asin m st
    = (Ok match document p with
          | Ok d => uniqueBySellerId (ScraperInline.sellersInPage b d)
          | Throw _ => []
          end, st')
    /\ page st' = p
    /\ clock st' = clock st + 2500
    /\ messages Warning st' = messages Warning st.
Proof.
  intros Hnav Ht Hnf Hc. unfold ScraperInline.extractAllSellers. step. rewrite Hnav. step.
  rewrite Ht. step. rewrite Hnf. step. rewrite Hc. step.
  destruct (document p) as [d|e] eqn:Hd; step;
    (eexists; split; [reflexivity|]); (split; [reflexivity|]); (split; [reflexivity|]);
    unfold messages; cbn [log]; rewrite !List.filter_app, !List.map_app; cbn;
    now rewrite !app_nil_r.
Qed.

End DiscoveryPaths.

(** ** Which entry and which place a seller id keeps *)
Section DiscoveryDedup.
Import Scraper Eff DiscoverySpec.
Context (b : Browser).

Lemma existsb_eqb_elem k l : existsb (String.eqb k) l = true <-> In k l.
Proof.
  rewrite existsb_exists. split.
  - intros (x & Hx & Heq). apply String.eqb_eq in Heq. now subst.
  - intros Hk. exists k. split; [exact Hk | apply String.eqb_refl].
Qed.

(** [Map.prototype.set] leaves the order of the keys alone: a new key
    goes last. *)
Lemma mapSet_key_order {V} k (v : V) m :
  List.map fst (mapSet k v m)
  = List.map fst m ++ (if existsb (String.eqb k) (List.map fst m) then [] else [k]).
Proof.
  induction m as [|[k' v'] m IH]; [reflexivity|]. cbn [mapSet List.map fst existsb].
  destruct (String.eqb k k') eqn:Hk; cbn [orb List.map fst].
  - apply String.eqb_eq in Hk. subst k'. now rewrite app_nil_r.
  - cbn [app]. now rewrite IH.
Qed.

Lemma keepFirst_snoc seen l c :
  keepFirst seen (l ++ [c])
  = keepFirst seen l
      ++ (if bool_decide (sellerId c ∈ seen) || existsb (String.eqb (sellerId c))
                                                      (List.map sellerId l)
          then [] else [c]).
Proof.
  revert seen. induction l as [|a l IH]; intros seen; cbn [app keepFirst List.map existsb].
  - rewrite orb_false_r. destruct (bool_decide (sellerId c ∈ seen)); reflexivity.
  - case_bool_decide as Ha.
    + rewrite IH. f_equal.
      destruct (String.eqb_spec (sellerId c) (sellerId a)) as [Heq | Hne]; [|reflexivity].
      rewrite Heq, (bool_decide_eq_true_2 _ Ha). reflexivity.
    + cbn [app]. rewrite IH. f_equal. f_equal.
      destruct (String.eqb_spec (sellerId c) (sellerId a)) as [Heq | Hne].
      * rewrite orb_true_r, bool_decide_eq_true_2; [reflexivity|].
        apply elem_of_union. left. apply elem_of_singleton. exact Heq.
      * cbn [orb].
        replace (bool_decide (sellerId c ∈ {[sellerId a]} ∪ seen))
          with (bool_decide (sellerId c ∈ seen)); [reflexivity|].
        apply bool_decide_ext. rewrite elem_of_union, elem_of_singleton. tauto.
Qed.

(** The seller ids that [new Map(...)] returns stand in the order of
    their first entries. *)
Lemma uniqueBySellerId_positions l :
  List.map sellerId (uniqueBySellerId l) = List.map sellerId (keepFirst ∅ l).
Proof.
  induction l as [|c l IH] using rev_ind; [reflexivity|].
  unfold uniqueBySellerId in *. rewrite List.map_app. cbn [List.map].
  rewrite mapOf_snoc. cbn [fst snd].
  assert (Hagree : forall m : list (string * Seller),
             (forall e, In e m -> fst e = sellerId (snd e)) ->
             List.map sellerId (List.map snd m) = List.map fst m).
  { intros m Hm. rewrite List.map_map. apply map_ext_in. intros e He. symmetry. auto. }
  assert (Hkeyed : forall l0 e,
             In e (mapOf (List.map (fun s => (sellerId s, s)) l0)) -> fst e = sellerId (snd e)).
  { intros l0 e He. apply mapOf_last in He as (pre & post & Hsplit & _).
    assert (Hin : In e (List.map (fun s => (sellerId s, s)) l0)).
    { rewrite Hsplit. apply in_or_app. right. now left. }
    apply in_map_iff in Hin as (s0 & <- & _). reflexivity. }
  rewrite Hagree.
  2:{ intros e He. apply (Hkeyed (l ++ [c])).
      rewrite List.map_app. cbn [List.map]. now rewrite mapOf_snoc. }
  rewrite mapSet_key_order, <- (Hagree _ (Hkeyed l)), IH, keepFirst_snoc, List.map_app.
  f_equal.
  assert (Hsame : existsb (String.eqb (sellerId c)) (List.map sellerId (keepFirst ∅ l))
                  = existsb (String.eqb (sellerId c)) (List.map sellerId l)).
  { apply eq_true_iff_eq. rewrite !existsb_eqb_elem, <- IH.
    apply (uniqueBySellerId_ids l (sellerId c)). }
  rewrite Hsame, bool_decide_eq_false_2 by apply not_elem_of_empty. cbn [orb].
  clear. destruct (existsb (String.eqb (sellerId c)) (List.map sellerId l)); reflexivity.
Qed.

Lemma keepFirst_sublist seen l : sublist (keepFirst seen l) l.
Proof.
  revert seen. induction l as [|c l IH]; intros seen; cbn [keepFirst]; [constructor|].
  case_bool_decide; now constructor.
Qed.

Lemma keepFirst_covers l c :
  In c l -> exists s, In s (keepFirst ∅ l) /\ sellerId s = sellerId c.
Proof.
  intros Hc. destruct (keepFirst_complete ∅ l c Hc) as [Hin | H]; [|exact H].
  now apply not_elem_of_empty in Hin.
Qed.

Lemma uniqueBySellerId_covers l c :
  In c l -> exists s, In s (uniqueBySellerId l) /\ sellerId s = sellerId c.
Proof.
  intros Hc. assert (Hid : In (sellerId c) (List.map sellerId (uniqueBySellerId l))).
  { apply uniqueBySellerId_ids. now apply in_map. }
  apply in_map_iff in Hid as (s & Hs & Hin). eauto.
Qed.

(** C1, amended: both offer-listing scrapers return sellers with pairwise
    different seller ids.  On a page that is neither taken for a missing
    product nor blocked, the multi-strategy scraper returns the candidates
    of its strategies (priority order, then document order) with the
    first candidate kept for every seller id: every seller id of a
    candidate is returned, in the order of the candidates, with the name,
    address and strategy of its first candidate.  The single-selector
    scraper returns every seller id of a storefront link at the place of
    the first link with that id, with the name and address of the last
    such link. *)
Theorem discovered_sellers_distinct asin m st sellers :
  let nav := navigate b (ScraperMulti.offerUrl asin m) (page st) in
  let p := snd nav in
  (fst (ScraperMulti.extractAllSellers b asin m st) = Ok sellers ->
   List.NoDup (List.map sellerId sellers)
   /\ (sellers = []
       \/ exists d, document p = Ok d /\ sellers = discoverSellers b d)
   /\ (forall s, In s sellers ->
         exists d pre post,
           document p = Ok d
           /\ candidates b d = pre ++ s :: post
           /\ forall c, In c pre -> sellerId c <> sellerId s))
  /\ (fst (ScraperInline.extractAllSellers b asin m st) = Ok sellers ->
      List.NoDup (List.map sellerId sellers)
      /\ (forall s, In s sellers ->
            exists d pre post,
              document p = Ok d
              /\ ScraperInline.sellersInPage b d = pre ++ s :: post
              /\ forall c, In c post -> sellerId c <> sellerId s))
  /\ (forall t d,
         title p = Ok t ->
         notFoundTitle t || JS.includes (url p) "/errors/" = false ->
         captchaForm p = Ok false ->
         document p = Ok d ->
         (fst (ScraperMulti.extractAllSellers b asin m st) = Ok (keepFirst ∅ (candidates b d))
          /\ sublist (keepFirst ∅ (candidates b d)) (candidates b d)
          /\ (forall c, In c (candidates b d) ->
                exists s, In s (keepFirst ∅ (candidates b d)) /\ sellerId s = sellerId c))
         /\ (fst nav = Ok tt ->
             let links := ScraperInline.sellersInPage b d in
             fst (ScraperInline.extractAllSellers b asin m st) = Ok (uniqueBySellerId links)
             /\ List.map sellerId (uniqueBySellerId links)
                = List.map sellerId (keepFirst ∅ links)
             /\ (forall c, In c links ->
                   exists s, In s (uniqueBySellerId links) /\ sellerId s = sellerId c)
             /\ (forall s, In s (uniqueBySellerId links) ->
                   exists pre post,
                     links = pre ++ s :: post
                     /\ forall c, In c post -> sellerId c <> sellerId s))).
Proof.
  intros nav p. split; [apply multi_sellers_first|]. split; [apply inline_sellers_last|].
  intros t d Ht Hnf Hcap Hd. split.
  - split; [|split; [apply keepFirst_sublist | apply keepFirst_covers]].
    destruct (multi_reaches_afterLoad b asin m st) as (st0 & -> & Hp & _).
    fold nav in Hp. fold p in Hp. rewrite <- Hp in Ht, Hnf, Hcap, Hd.
    destruct (afterLoad_extracts b (ScraperMulti.tagOf m) st0 t Ht Hnf Hcap)
      as (st' & -> & _).
    rewrite Hd. cbn [fst]. rewrite sellersInPage_refines.
    unfold discoverSellers. now rewrite uniqueBySellerId_distinct by apply keepFirst_NoDup.
  - intros Hok links.
    assert (Hnav : navigate b (ScraperInline.offerUrl asin m) (page st) = (Ok tt, p)).
    { subst p nav. change (ScraperInline.offerUrl asin m) with (ScraperMulti.offerUrl asin m).
      destruct (navigate b _ _) as [r q]. cbn [fst snd] in *. now subst r. }
    destruct (inline_extracts b asin m st p t Hnav Ht Hnf Hcap) as (st' & -> & _).
    rewrite Hd. cbn [fst].
    split; [reflexivity|]. split; [apply uniqueBySellerId_positions|].
    split; [apply uniqueBySellerId_covers | apply uniqueBySellerId_last].
Qed.

End DiscoveryDedup.

Section DiscoveryDedupCases.
Import Scraper Eff DiscoverySpec.

(** The sample offers: seller A1XYZ is linked twice and named once more
    next to "Sold by". *)
Lemma discovered_sellers_distinct_witness :
  let multi :=
    [ {| name := "Acme"; sellerId := "A1XYZ";
         sellerHref := "https://www.amazon.de/gp/aag/main?seller=A1XYZ&ref=1";
         strategy := Some "aag" |};
      {| name := "Bolt GmbH"; sellerId := "B2QRS";
         sellerHref := "https://www.amazon.de/gp/aag/main?seller=B2QRS";
         strategy := Some "aag" |} ] in
  let links := ScraperInline.sellersInPage Samples.online Samples.repeatedSeller in
  (List.NoDup (List.map sellerId multi)
   /\ (multi = []
       \/ exists d, document Samples.offers = Ok d
                    /\ multi = discoverSellers Samples.online d)
   /\ (forall s, In s multi ->
         exists d pre post,
           document Samples.offers = Ok d
           /\ candidates Samples.online d = pre ++ s :: post
           /\ forall c, In c pre -> sellerId c <> sellerId s))
  /\ fst (ScraperMulti.extractAllSellers Samples.online "B07YDVWL4J" Samples.de Samples.idle)
     = Ok (keepFirst ∅ (candidates Samples.online Samples.repeatedSeller))
  /\ fst (ScraperInline.extractAllSellers Samples.online "B07YDVWL4J" Samples.de Samples.idle)
     = Ok (uniqueBySellerId links)
  /\ List.map sellerId (uniqueBySellerId links) = List.map sellerId (keepFirst ∅ links).
Proof.
  cbv zeta.
  destruct (discovered_sellers_distinct Samples.online "B07YDVWL4J" Samples.de Samples.idle
              [ {| name := "Acme"; sellerId := "A1XYZ";
                   sellerHref := "https://www.amazon.de/gp/aag/main?seller=A1XYZ&ref=1";
                   strategy := Some "aag" |};
                {| name := "Bolt GmbH"; sellerId := "B2QRS";
                   sellerHref := "https://www.amazon.de/gp/aag/main?seller=B2QRS";
                   strategy := Some "aag" |} ])
    as (Hmulti & _ & Hexact).
  destruct (Hexact "Acme Widget : Amazon.de"%string Samples.repeatedSeller
                   eq_refl eq_refl eq_refl eq_refl) as ((Hrun & _) & Hinline).
  destruct (Hinline eq_refl) as (Hrun' & Hpos & _).
  split; [exact (Hmulti eq_refl)|]. split; [exact Hrun|]. split; [exact Hrun' | exact Hpos].
Defined.

End DiscoveryDedupCases.

(** ** First-seen provenance across marketplaces *)
Section Provenance.
Import Obj Eff Main.
Context (scrape : string -> Constants.Marketplace -> Scraper.Options -> M St (list Object)).
Context (pushData : Object -> Exc unit).
Context (input : Input).

Lemma dedupeKey_annotation (seller : Object) dup first :
  dedupeKey (<["isDuplicate" := dup]> (<["firstSeenOnMarketplace" := first]> seller))
  = dedupeKey seller.
Proof. unfold dedupeKey. now rewrite !lookup_insert_ne by discriminate. Qed.

Lemma annotated_app current seen0 e1 seen1 e2 seen2 :
  annotated current seen0 e1 seen1 -> annotated current seen1 e2 seen2 ->
  annotated current seen0 (e1 ++ e2) seen2.
Proof.
  revert seen0. induction e1 as [|rec e1 IH]; intros seen0; simpl.
  - now intros ->.
  - destruct (seen0 !! dedupeKey rec); intros (Hd & Hf & Hrest) H2; eauto.
Qed.

Lemma emit_annotated m seller run r run' :
  emit pushData m seller run = (r, run') ->
  exists rec,
    allResults run' = allResults run ++ [rec]
    /\ annotated (Constants.code m) (sellersSeen run) [rec] (sellersSeen run')
    /\ dedupeKey rec = dedupeKey seller.
Proof.
  unfold emit.
  destruct (sellersSeen run !! dedupeKey seller) as [first|] eqn:Hseen;
    destruct (pushData _); intros [= <- <-]; eexists; (split; [reflexivity|]);
    cbn [annotated allResults sellersSeen]; rewrite dedupeKey_annotation, Hseen;
    (split; [|reflexivity]);
    (split; [now rewrite lookup_insert_eq|]);
    (split; [now rewrite lookup_insert_ne, lookup_insert_eq by discriminate|]);
    reflexivity.
Qed.

Lemma forEach_emit_annotated m sellers run r run' :
  forEach sellers (emit pushData m) run = (r, run') ->
  exists emitted,
    allResults run' = allResults run ++ emitted
    /\ annotated (Constants.code m) (sellersSeen run) emitted (sellersSeen run')
    /\ exists rest, List.map dedupeKey sellers = List.map dedupeKey emitted ++ rest.
Proof.
  revert run. induction sellers as [|seller sellers IH]; intros run; simpl.
  - intros [= <- <-]. exists []. rewrite app_nil_r. repeat split. now exists [].
  - unfold bind at 1.
    destruct (emit pushData m seller run) as [[[]|e] run1] eqn:Hemit;
      apply emit_annotated in Hemit as (rec & Hres & Hann & Hkey).
    + intros Hrest. apply IH in Hrest as (emitted & Hres' & Hann' & rest & Hkeys).
      exists (rec :: emitted). split; [|split].
      * rewrite Hres', Hres, <- app_assoc. reflexivity.
      * exact (annotated_app _ _ [rec] _ _ _ Hann Hann').
      * exists rest. simpl. now rewrite Hkey, Hkeys.
    + intros [= <- <-]. exists [rec]. repeat split; try assumption.
      exists (List.map dedupeKey sellers). simpl. now rewrite Hkey.
Qed.

(** One turn of the marketplace loop only appends annotated records, one
    for each seller that the scraper returned, in order, up to the first
    rejection by the sink. *)
Lemma processMarketplace_annotated asin m run r run' :
  processMarketplace scrape pushData input asin m run = (r, run') ->
  exists emitted,
    allResults run' = allResults run ++ emitted
    /\ annotated (Constants.code m) (sellersSeen run) emitted (sellersSeen run')
    /\ match fst (scrape asin m
                    {| Scraper.skipAmazonSellers := skipAmazonSellers input;
                       Scraper.delayBetweenRequests := delayBetweenRequests input |}
                    (scraper run)) with
       | Ok sellers =>
           exists rest, List.map dedupeKey sellers = List.map dedupeKey emitted ++ rest
       | Throw _ => emitted = []
       end.
Proof.
  unfold processMarketplace. unfold bind at 1. unfold tryCatch.
  unfold bind at 1. unfold inScraper at 1.
  destruct (scrape asin m _ (scraper run)) as [[sellers|e] st1]; cbn [scraper fst].
  - match goal with
    | |- context [forEach sellers _ ?run0] =>
        destruct (forEach sellers (emit pushData m) run0) as [[[]|e] run1] eqn:Hloop
    end;
      apply forEach_emit_annotated in Hloop as (emitted & Hres & Hann & Hkeys);
      cbn [allResults sellersSeen] in Hres, Hann;
      unfold inScraper, logAt, delay; cbn; intros [= <- <-];
      exists emitted; cbn [allResults sellersSeen]; repeat split; assumption.
  - unfold inScraper, logAt, delay. cbn. intros [= <- <-].
    exists []. cbn. now rewrite app_nil_r.
Qed.

(** A turn of the marketplace loop never throws, so the loop reaches
    every marketplace. *)
Lemma processMarketplace_returns asin m run :
  exists run', processMarketplace scrape pushData input asin m run = (Ok tt, run').
Proof.
  unfold processMarketplace. unfold bind at 1. unfold tryCatch.
  match goal with
  | |- context [match ?body run with _ => _ end] => destruct (body run) as [[[]|e] run1]
  end; unfold inScraper, logAt, delay; cbn; eauto.
Qed.

Lemma marketplace_loop_two asin A B run :
  snd (forEach [A; B] (processMarketplace scrape pushData input asin) run)
  = snd (processMarketplace scrape pushData input asin B
           (snd (processMarketplace scrape pushData input asin A run))).
Proof.
  cbn [forEach]. unfold bind at 1.
  destruct (processMarketplace_returns asin A run) as [run1 ->]. cbn [snd].
  unfold bind at 1.
  destruct (processMarketplace_returns asin B run1) as [run2 ->]. reflexivity.
Qed.

Lemma annotated_known current seen emitted seen' s first :
  annotated current seen emitted seen' ->
  seen !! s = Some first ->
  seen' !! s = Some first
  /\ forall rec, In rec emitted -> dedupeKey rec = s ->
       rec !! "isDuplicate" = Some (VBool true)
       /\ rec !! "firstSeenOnMarketplace" = Some (VStr first).
Proof.
  revert seen. induction emitted as [|rec0 emitted IH]; intros seen; simpl.
  - intros -> Hs. split; [exact Hs | intros rec []].
  - destruct (seen !! dedupeKey rec0) as [f0|] eqn:Hk; intros (Hd & Hf & Hrest) Hs.
    + destruct (IH _ Hrest Hs) as [Hs' Hall]. split; [exact Hs'|].
      intros rec [<- | Hin] Hkey; [|auto].
      rewrite Hkey, Hs in Hk. injection Hk as <-. split; assumption.
    + assert (Hne : dedupeKey rec0 <> s) by congruence.
      assert (Hs1 : <[dedupeKey rec0 := current]> seen !! s = Some first)
        by now rewrite lookup_insert_ne.
      destruct (IH _ Hrest Hs1) as [Hs' Hall]. split; [exact Hs'|].
      intros rec [<- | Hin] Hkey; [congruence | auto].
Qed.

Lemma annotated_new current seen emitted seen' s :
  annotated current seen emitted seen' ->
  seen !! s = None ->
  (forall pre rec post,
      emitted = pre ++ rec :: post -> dedupeKey rec = s ->
      (forall r, In r pre -> dedupeKey r <> s) ->
      rec !! "isDuplicate" = Some (VBool false)
      /\ rec !! "firstSeenOnMarketplace" = Some (VStr current))
  /\ ((exists r, In r emitted /\ dedupeKey r = s) -> seen' !! s = Some current).
Proof.
  revert seen. induction emitted as [|rec0 emitted IH]; intros seen; simpl.
  - intros -> Hs. split; [intros [] ? ? [=] | intros (r & [] & _)].
  - destruct (seen !! dedupeKey rec0) as [f0|] eqn:Hk; intros (Hd & Hf & Hrest) Hs.
    + assert (Hne : dedupeKey rec0 <> s) by congruence.
      destruct (IH _ Hrest Hs) as [Hfirst Hseen]. split.
      * intros [|r0 pre] rec post [= <- Heq] Hkey Hpre; [congruence|].
        apply (Hfirst pre rec post Heq Hkey). intros r Hr. apply Hpre. now right.
      * intros (r & [<- | Hin] & Hkey); [congruence | eauto].
    + destruct (String.eqb_spec (dedupeKey rec0) s) as [Heq | Hne].
      * split.
        -- intros [|r0 pre] rec post [= <- Hsplit] Hkey Hpre; [split; assumption|].
           exfalso. apply (Hpre rec0); [now left | exact Heq].
        -- intros _.
           apply (annotated_known _ _ _ _ s current Hrest).
           rewrite Heq. apply lookup_insert_eq.
      * assert (Hs1 : <[dedupeKey rec0 := current]> seen !! s = None)
          by now rewrite lookup_insert_ne.
        destruct (IH _ Hrest Hs1) as [Hfirst Hseen]. split.
        -- intros [|r0 pre] rec post [= <- Hsplit] Hkey Hpre; [congruence|].
           apply (Hfirst pre rec post Hsplit Hkey). intros r Hr. apply Hpre. now right.
        -- intros (r & [<- | Hin] & Hkey); [congruence | eauto].
Qed.

Lemma annotates_key seller rec : Reading.annotates seller rec -> dedupeKey rec = dedupeKey seller.
Proof. intros H. unfold dedupeKey. now rewrite H by discriminate. Qed.

(** One turn of the loop over the sellers: the record appended is the
    seller with its two provenance properties, and it is the record
    pushed. *)
Lemma emit_pushes m seller run :
  exists rec seen',
    Reading.annotates seller rec
    /\ emit pushData m seller run
       = (match pushData rec with Ok _ => Ok tt | Throw e => Throw e end,
          {| allResults := allResults run ++ [rec];
             sellersSeen := seen';
             dataset := dataset run ++ List.filter (Reading.accepted pushData) [rec];
             scraper := scraper run |}).
Proof.
  unfold emit. destruct (sellersSeen run !! dedupeKey seller) as [first|].
  - exists (<["isDuplicate" := VBool true]>
              (<["firstSeenOnMarketplace" := VStr first]> seller)), (sellersSeen run).
    split; [intros k Hd Hf; now rewrite !lookup_insert_ne by congruence|].
    cbn [List.filter]. unfold Reading.accepted.
    destruct (pushData _) as [[]|e]; [reflexivity | now rewrite app_nil_r].
  - exists (<["isDuplicate" := VBool false]>
              (<["firstSeenOnMarketplace" := VStr (Constants.code m)]> seller)),
           (<[dedupeKey seller := Constants.code m]> (sellersSeen run)).
    split; [intros k Hd Hf; now rewrite !lookup_insert_ne by congruence|].
    cbn [List.filter]. unfold Reading.accepted.
    destruct (pushData _) as [[]|e]; [reflexivity | now rewrite app_nil_r].
Qed.

Lemma forEach_emit_emitted m sellers run r run' :
  forEach sellers (emit pushData m) run = (r, run') ->
  exists emitted,
    allResults run' = allResults run ++ emitted
    /\ Reading.emittedFor pushData (Ok sellers) emitted (dataset run) (dataset run').
Proof.
  revert run. induction sellers as [|seller sellers IH]; intros run; cbn [forEach].
  - intros [= <- <-]. exists []. rewrite app_nil_r. split; [reflexivity|].
    split; [cbn; now rewrite app_nil_r|]. cbn. repeat split; [constructor.. | now left].
  - unfold bind at 1.
    destruct (emit_pushes m seller run) as (rec & seen' & Hann & ->).
    unfold Reading.accepted. cbn [List.filter].
    destruct (pushData rec) as [[]|e] eqn:Hpush.
    + intros Hrest. apply IH in Hrest as (emitted & Hres & Hdata & Hfrom & Hinit & Hlast).
      cbn [allResults dataset] in Hres, Hdata.
      exists (rec :: emitted). split; [now rewrite Hres, <- app_assoc|].
      split.
      { cbn [List.filter]. unfold Reading.accepted at 1. rewrite Hpush.
        now rewrite Hdata, <- app_assoc. }
      cbn [length firstn]. split; [now constructor|]. split.
      * destruct emitted as [|r0 emitted]; [constructor|].
        change (removelast (rec :: r0 :: emitted)) with (rec :: removelast (r0 :: emitted)).
        constructor; [|exact Hinit]. unfold Reading.accepted. now rewrite Hpush.
      * destruct Hlast as [Hlen | (init & r0 & -> & Hrej)]; [left; now rewrite Hlen|].
        right. now exists (rec :: init), r0.
    + intros [= <- <-]. cbn [allResults dataset]. exists [rec]. split; [reflexivity|].
      split.
      { cbn [List.filter]. unfold Reading.accepted. now rewrite Hpush. }
      cbn [length firstn]. split; [repeat constructor; exact Hann|].
      split; [constructor|]. right. exists [], rec. split; [reflexivity|].
      unfold Reading.accepted. now rewrite Hpush.
Qed.

(** One turn of the marketplace loop emits what the scraper returned. *)
Lemma processMarketplace_emits asin m run r run' :
  processMarketplace scrape pushData input asin m run = (r, run') ->
  exists emitted,
    allResults run' = allResults run ++ emitted
    /\ annotated (Constants.code m) (sellersSeen run) emitted (sellersSeen run')
    /\ Reading.emittedFor pushData
         (fst (scrape asin m
                 {| Scraper.skipAmazonSellers := skipAmazonSellers input;
                    Scraper.delayBetweenRequests := delayBetweenRequests input |}
                 (scraper run)))
         emitted (dataset run) (dataset run').
Proof.
  unfold processMarketplace. unfold bind at 1. unfold tryCatch.
  unfold bind at 1. unfold inScraper at 1.
  destruct (scrape asin m _ (scraper run)) as [[sellers|e] st1]; cbn [scraper fst].
  - match goal with
    | |- context [forEach sellers _ ?run0] =>
        destruct (forEach sellers (emit pushData m) run0) as [[[]|e] run1] eqn:Hloop
    end;
      (assert (Hann := Hloop);
       apply forEach_emit_annotated in Hann as (emitted & Hres & Hann & _);
       apply forEach_emit_emitted in Hloop as (emitted' & Hres' & Hfor);
       cbn [allResults sellersSeen dataset] in Hres, Hann, Hres', Hfor;
       assert (emitted' = emitted) as -> by (rewrite Hres in Hres'; now apply app_inv_head in Hres');
       unfold inScraper, logAt, delay; cbn -[Reading.emittedFor]; intros [= <- <-];
       exists emitted; cbn [allResults sellersSeen dataset];
       split; [assumption | split; assumption]).
  - unfold inScraper, logAt, delay. cbn -[Reading.emittedFor]. intros [= <- <-].
    exists []. cbn -[Reading.emittedFor]. rewrite !app_nil_r.
    split; [reflexivity|]. split; [reflexivity|]. split; [|reflexivity].
    cbn. now rewrite app_nil_r.
Qed.

Lemma in_split_first (l : list string) x :
  In x l -> exists pre post, l = pre ++ x :: post /\ ~ In x pre.
Proof.
  induction l as [|a l IH]; [intros []|].
  destruct (String.eqb_spec a x) as [-> | Hne].
  - intros _. exists [], l. split; [reflexivity | intros []].
  - intros [-> | Hin]; [congruence|].
    destruct (IH Hin) as (pre & post & -> & Hpre).
    exists (a :: pre), post. split; [reflexivity|]. intros [-> | H]; [congruence | auto].
Qed.

(** C5: the marketplace loop runs over [A, B] for a product ([run1] is
    the state after A, [run2] the state after the loop).  Each turn
    emits what the scraper returned to it: one record for every seller,
    in order, the seller's object with the two provenance properties
    written onto it, appended to the results and pushed, up to the first
    record that the dataset rejects.  For a seller id [s] that the
    seen-map does not hold yet, the first record for [s] from A has
    [isDuplicate = false] and [firstSeenOnMarketplace = A], and it is the
    only one when the scraper returns distinct seller ids, as the two
    offer-listing scrapers do; every record for [s] from B, once one was
    emitted from A, has [isDuplicate = true] and
    [firstSeenOnMarketplace = A].  For a seller id that the seen-map holds
    already, every record is a duplicate of the marketplace on file.  So
    when the dataset accepts every record and the scraper returns a
    seller with the new id [s] for A and for B, a record for [s] is
    emitted from A, another from B, and they carry these values; the
    seen-map is read and written before the record joins the results and
    the dataset. *)
Theorem cross_marketplace_provenance asin A B run s :
  let options := {| Scraper.skipAmazonSellers := skipAmazonSellers input;
                    Scraper.delayBetweenRequests := delayBetweenRequests input |} in
  let run1 := snd (processMarketplace scrape pushData input asin A run) in
  let run2 := snd (forEach [A; B] (processMarketplace scrape pushData input asin) run) in
  exists fromA fromB,
    allResults run1 = allResults run ++ fromA
    /\ allResults run2 = allResults run1 ++ fromB
    /\ Reading.emittedFor pushData (fst (scrape asin A options (scraper run)))
         fromA (dataset run) (dataset run1)
    /\ Reading.emittedFor pushData (fst (scrape asin B options (scraper run1)))
         fromB (dataset run1) (dataset run2)
    /\ (sellersSeen run !! s = None ->
        (forall pre rec post,
            fromA = pre ++ rec :: post -> dedupeKey rec = s ->
            (forall r, In r pre -> dedupeKey r <> s) ->
            rec !! "isDuplicate" = Some (VBool false)
            /\ rec !! "firstSeenOnMarketplace" = Some (VStr (Constants.code A)))
        /\ ((forall o st records,
                fst (scrape asin A o st) = Ok records ->
                List.NoDup (List.map dedupeKey records)) ->
            forall rec, In rec fromA -> dedupeKey rec = s ->
              rec !! "isDuplicate" = Some (VBool false)
              /\ rec !! "firstSeenOnMarketplace" = Some (VStr (Constants.code A)))
        /\ ((exists r, In r fromA /\ dedupeKey r = s) ->
            sellersSeen run1 !! s = Some (Constants.code A)
            /\ sellersSeen run2 !! s = Some (Constants.code A)
            /\ forall rec, In rec fromB -> dedupeKey rec = s ->
                 rec !! "isDuplicate" = Some (VBool true)
                 /\ rec !! "firstSeenOnMarketplace" = Some (VStr (Constants.code A))))
    /\ (forall first,
          sellersSeen run !! s = Some first ->
          sellersSeen run2 !! s = Some first
          /\ forall rec, In rec (fromA ++ fromB) -> dedupeKey rec = s ->
               rec !! "isDuplicate" = Some (VBool true)
               /\ rec !! "firstSeenOnMarketplace" = Some (VStr first))
    /\ (sellersSeen run !! s = None ->
        (forall r, pushData r = Ok tt) ->
        forall sellersA sellersB,
          fst (scrape asin A options (scraper run)) = Ok sellersA ->
          fst (scrape asin B options (scraper run1)) = Ok sellersB ->
          In s (List.map dedupeKey sellersA) ->
          In s (List.map dedupeKey sellersB) ->
          Forall2 Reading.annotates sellersA fromA
          /\ Forall2 Reading.annotates sellersB fromB
          /\ dataset run2 = dataset run ++ fromA ++ fromB
          /\ (exists pre recA post,
                fromA = pre ++ recA :: post /\ dedupeKey recA = s
                /\ (forall r, In r pre -> dedupeKey r <> s)
                /\ recA !! "isDuplicate" = Some (VBool false)
                /\ recA !! "firstSeenOnMarketplace" = Some (VStr (Constants.code A)))
          /\ (exists recB, In recB fromB /\ dedupeKey recB = s)
          /\ (forall recB, In recB fromB -> dedupeKey recB = s ->
                recB !! "isDuplicate" = Some (VBool true)
                /\ recB !! "firstSeenOnMarketplace" = Some (VStr (Constants.code A)))).
Proof.
  intros options run1 run2. subst run1 run2. rewrite marketplace_loop_two.
  destruct (processMarketplace scrape pushData input asin A run) as [rA r1] eqn:HA.
  cbn [snd].
  destruct (processMarketplace scrape pushData input asin B r1) as [rB r2] eqn:HB.
  cbn [snd].
  assert (HkeysA := HA).
  apply processMarketplace_annotated in HkeysA as (fromA0 & HresA0 & _ & HkeysA).
  apply processMarketplace_emits in HA as (fromA & HresA & HannA & HforA).
  apply processMarketplace_emits in HB as (fromB & HresB & HannB & HforB).
  assert (fromA0 = fromA) as ->
    by (rewrite HresA in HresA0; now apply app_inv_head in HresA0).
  fold options in HforA, HforB, HkeysA.
  exists fromA, fromB. split; [exact HresA|]. split; [exact HresB|].
  split; [exact HforA|]. split; [exact HforB|].
  assert (Hfresh : sellersSeen run !! s = None ->
            (forall pre rec post,
                fromA = pre ++ rec :: post -> dedupeKey rec = s ->
                (forall r, In r pre -> dedupeKey r <> s) ->
                rec !! "isDuplicate" = Some (VBool false)
                /\ rec !! "firstSeenOnMarketplace" = Some (VStr (Constants.code A)))
            /\ ((exists r, In r fromA /\ dedupeKey r = s) ->
                sellersSeen r1 !! s = Some (Constants.code A)
                /\ sellersSeen r2 !! s = Some (Constants.code A)
                /\ forall rec, In rec fromB -> dedupeKey rec = s ->
                     rec !! "isDuplicate" = Some (VBool true)
                     /\ rec !! "firstSeenOnMarketplace" = Some (VStr (Constants.code A)))).
  { intros Hnew. destruct (annotated_new _ _ _ _ s HannA Hnew) as [Hfirst Hseen].
    split; [exact Hfirst|]. intros HinA. specialize (Hseen HinA).
    destruct (annotated_known _ _ _ _ s _ HannB Hseen) as [Hseen2 HdupB]. auto. }
  split; [|split].
  - intros Hnew. destruct (Hfresh Hnew) as [Hfirst Hlater].
    split; [exact Hfirst|]. split; [|exact Hlater].
    intros Hdistinct rec Hin Hkey.
    assert (Hnd : List.NoDup (List.map dedupeKey fromA)).
    { specialize (Hdistinct options (scraper run)).
      destruct (fst (scrape asin A options (scraper run))) as [records|e].
      - destruct HkeysA as [rest Hkeys]. specialize (Hdistinct records eq_refl).
        rewrite Hkeys in Hdistinct. eapply NoDup_app_remove_r. exact Hdistinct.
      - subst fromA. constructor. }
    apply in_split in Hin as (pre & post & ->).
    apply (Hfirst pre rec post eq_refl Hkey).
    intros r Hr Hsame. rewrite List.map_app in Hnd. simpl in Hnd.
    apply NoDup_remove_2 in Hnd. apply Hnd, in_or_app. left.
    rewrite Hkey, <- Hsame. now apply in_map.
  - intros first Hold.
    destruct (annotated_known _ _ _ _ s _ HannA Hold) as [Hseen1 HdupA].
    destruct (annotated_known _ _ _ _ s _ HannB Hseen1) as [Hseen2 HdupB].
    split; [exact Hseen2|]. intros rec Hin. apply in_app_or in Hin as [Hin | Hin]; auto.
  - intros Hnew Hok sellersA sellersB HretA HretB HinA HinB.
    assert (Hall : forall returned emitted before after,
               Reading.emittedFor pushData (Ok returned) emitted before after ->
               Forall2 Reading.annotates returned emitted /\ after = before ++ emitted).
    { intros returned emitted before after (Hdata & Hfrom & _ & Hlast).
      assert (Hfilter : List.filter (Reading.accepted pushData) emitted = emitted).
      { clear -Hok. induction emitted as [|r l IH]; [reflexivity|]. cbn [List.filter].
        unfold Reading.accepted at 1. rewrite (Hok r). now rewrite IH. }
      rewrite Hfilter in Hdata. split; [|exact Hdata].
      destruct Hlast as [Hlen | (init & rec & _ & Hrej)].
      - rewrite Hlen, firstn_all in Hfrom. exact Hfrom.
      - unfold Reading.accepted in Hrej. rewrite (Hok rec) in Hrej. discriminate. }
    rewrite HretA in HforA. rewrite HretB in HforB.
    destruct (Hall _ _ _ _ HforA) as [HtoA HdataA].
    destruct (Hall _ _ _ _ HforB) as [HtoB HdataB].
    assert (Hkeys : forall returned emitted,
               Forall2 Reading.annotates returned emitted ->
               List.map dedupeKey emitted = List.map dedupeKey returned).
    { intros returned emitted H. induction H as [|x y l l' Hxy _ IH]; [reflexivity|].
      cbn [List.map]. now rewrite (annotates_key _ _ Hxy), IH. }
    split; [exact HtoA|]. split; [exact HtoB|].
    split; [now rewrite HdataB, HdataA, <- app_assoc|].
    destruct (Hfresh Hnew) as [Hfirst Hlater].
    rewrite <- (Hkeys _ _ HtoA) in HinA. rewrite <- (Hkeys _ _ HtoB) in HinB.
    assert (HrecA : exists pre recA post,
               fromA = pre ++ recA :: post /\ dedupeKey recA = s
               /\ forall r, In r pre -> dedupeKey r <> s).
    { apply in_split_first in HinA as (kpre & kpost & Hsplit & Hpre).
      apply map_eq_app in Hsplit as (pre & tail & -> & <- & Htail).
      apply map_eq_cons in Htail as (recA & post & -> & Hkey & _).
      exists pre, recA, post. split; [reflexivity|]. split; [exact Hkey|].
      intros r Hr Hsame. apply Hpre. rewrite <- Hsame. now apply in_map. }
    destruct HrecA as (pre & recA & post & Hsplit & Hkey & Hpre).
    destruct (Hfirst pre recA post Hsplit Hkey Hpre) as [Hdup Hseen].
    assert (HexA : exists r, In r fromA /\ dedupeKey r = s).
    { exists recA. split; [|exact Hkey]. rewrite Hsplit. apply in_or_app. right. now left. }
    destruct (Hlater HexA) as (_ & _ & HdupB).
    split; [exists pre, recA, post; auto 10|]. split; [|exact HdupB].
    apply in_map_iff in HinB as (recB & HkeyB & HrecB). eauto.
Qed.

End Provenance.

(** ** One record per seller id and marketplace *)
Section DistinctRecords.
Import Obj Eff Scraper.

Lemma dropAmazonSellers_filter m l st :
  exists st',
    dropAmazonSellers m l st
    = (Ok (List.filter (fun s => negb (isAmazonSeller (Some (name s)))) l), st').
Proof.
  revert st. induction l as [|s l IH]; intros st;
    cbn [dropAmazonSellers List.filter].
  - eexists. reflexivity.
  - destruct (isAmazonSeller (Some (name s))); cbn [negb].
    + unfold bind at 1. unfold logAt at 1. cbv beta iota. apply IH.
    + unfold bind at 1. destruct (IH st) as [st' ->]. eexists. reflexivity.
Qed.

Lemma NoDup_map_filter {A B} (f : A -> B) (keep : A -> bool) l :
  List.NoDup (List.map f l) -> List.NoDup (List.map f (List.filter keep l)).
Proof.
  induction l as [|a l IH]; simpl; [constructor|].
  intros Hnd. apply NoDup_cons_iff in Hnd as [Ha Hl].
  destruct (keep a); simpl; [|auto].
  constructor; [|auto]. intros Hin. apply Ha.
  apply in_map_iff in Hin as (x & Hfx & Hx). apply List.filter_In in Hx as [Hx _].
  apply in_map_iff. eauto.
Qed.

(** A scraper built from a discovery that returns distinct seller ids
    returns records with distinct seller ids. *)
Lemma scrapeWith_distinct extractAll extract asin m o st records :
  (forall st sellers,
      fst (extractAll asin m st) = Ok sellers -> List.NoDup (List.map sellerId sellers)) ->
  (forall sellerUrl st, exists info st', extract sellerUrl st = (Ok info, st')) ->
  fst (scrapeWith extractAll extract asin m o st) = Ok records ->
  List.NoDup (List.map Main.dedupeKey records).
Proof.
  intros Hdistinct Htotal. unfold scrapeWith. unfold bind at 1.
  specialize (Hdistinct st).
  destruct (extractAll asin m st) as [[allSellers|e] st1]; [|discriminate].
  specialize (Hdistinct allSellers eq_refl).
  assert (Hvisit : exists sellersToVisit st2,
             (if skipAmazonSellers o then dropAmazonSellers m allSellers else ret allSellers) st1
             = (Ok sellersToVisit, st2)
             /\ List.NoDup (List.map sellerId sellersToVisit)).
  { destruct (skipAmazonSellers o).
    - destruct (dropAmazonSellers_filter m allSellers st1) as [st2 ->].
      eexists _, _. split; [reflexivity|]. now apply NoDup_map_filter.
    - eexists _, _. split; [reflexivity | exact Hdistinct]. }
  destruct Hvisit as (sellersToVisit & st2 & Hvisit & Hnd).
  unfold bind at 1. rewrite Hvisit.
  destruct sellersToVisit as [|s0 rest].
  - unfold bind, logAt, ret. cbn. intros [= <-]. constructor.
  - unfold bind at 1. unfold logAt at 1. cbv beta iota.
    match goal with
    | |- context [visitSellers extract asin m o ?l [] ?s] =>
        destruct (visitSellers_completes extract asin m o l Htotal [] s)
          as (visited & st3 & -> & _ & Hkeys)
    end.
    cbn [fst app]. intros [= <-]. now rewrite Hkeys.
Qed.

Lemma offer_listing_scrapers_distinct (b : Browser) scrape :
  scrape = ScraperMulti.scrapeAsinOnMarketplace b
  \/ scrape = ScraperInline.scrapeAsinOnMarketplace b ->
  forall asin m o st records,
    fst (scrape asin m o st) = Ok records -> List.NoDup (List.map Main.dedupeKey records).
Proof.
  intros [-> | ->] asin m o st records;
    apply scrapeWith_distinct;
    try (intros; apply extractSellerInfoWith_returns).
  - intros st0 sellers Hrun. exact (proj1 (multi_sellers_first b asin m st0 sellers Hrun)).
  - intros st0 sellers Hrun. exact (proj1 (inline_sellers_last b asin m st0 sellers Hrun)).
Qed.

End DistinctRecords.

Section ProvenanceCases.
Import Obj Eff Main.

(** The sample run: seller A1XYZ is found on amazon.co.uk and then on
    amazon.de. *)
Lemma cross_marketplace_provenance_witness :
  let scrape := Cases.finding [Cases.sold "A1XYZ"; Cases.sold "B2QRS"] in
  let run1 := snd (processMarketplace scrape Samples.accepting Samples.input "B07YDVWL4J"
                     Samples.uk (start Samples.idle)) in
  let run2 := snd (forEach [Samples.uk; Samples.de]
                     (processMarketplace scrape Samples.accepting Samples.input "B07YDVWL4J")
                     (start Samples.idle)) in
  exists fromA fromB,
    allResults run1 = fromA
    /\ allResults run2 = allResults run1 ++ fromB
    /\ Forall2 Reading.annotates [Cases.sold "A1XYZ"; Cases.sold "B2QRS"] fromA
    /\ Forall2 Reading.annotates [Cases.sold "A1XYZ"; Cases.sold "B2QRS"] fromB
    /\ dataset run2 = fromA ++ fromB
    /\ (exists pre recA post,
          fromA = pre ++ recA :: post /\ dedupeKey recA = "A1XYZ"%string
          /\ (forall r, In r pre -> dedupeKey r <> "A1XYZ"%string)
          /\ recA !! "isDuplicate" = Some (VBool false)
          /\ recA !! "firstSeenOnMarketplace" = Some (VStr "UK"))
    /\ (exists recB, In recB fromB /\ dedupeKey recB = "A1XYZ"%string)
    /\ (forall recB, In recB fromB -> dedupeKey recB = "A1XYZ"%string ->
          recB !! "isDuplicate" = Some (VBool true)
          /\ recB !! "firstSeenOnMarketplace" = Some (VStr "UK")).
Proof.
  destruct (cross_marketplace_provenance
              (Cases.finding [Cases.sold "A1XYZ"; Cases.sold "B2QRS"]) Samples.accepting
              Samples.input "B07YDVWL4J" Samples.uk Samples.de (start Samples.idle) "A1XYZ")
    as (fromA & fromB & HresA & HresB & _ & _ & _ & _ & Hboth).
  destruct (Hboth eq_refl (fun _ => eq_refl)
                  [Cases.sold "A1XYZ"; Cases.sold "B2QRS"]
                  [Cases.sold "A1XYZ"; Cases.sold "B2QRS"]
                  eq_refl eq_refl (or_introl eq_refl) (or_introl eq_refl))
    as (HtoA & HtoB & Hdata & HrecA & HrecB & HdupB).
  exists fromA, fromB.
  split; [exact HresA|]. split; [exact HresB|]. split; [exact HtoA|].
  split; [exact HtoB|]. split; [exact Hdata|]. split; [exact HrecA|].
  split; [exact HrecB | exact HdupB].
Defined.

(** The whole loop on the sample input, marketplaces UK then DE. *)
Lemma sample_run_provenance :
  List.map (fun rec => (rec !! "marketplace", rec !! "sellerId",
                        rec !! "isDuplicate", rec !! "firstSeenOnMarketplace"))
           (allResults
              (snd (scrapingLoop (ScraperMulti.scrapeAsinOnMarketplace Samples.online)
                      Samples.accepting Samples.input (start Samples.idle))))
  = [ (Some (VStr "UK"), Some (VStr "A1XYZ"), Some (VBool false), Some (VStr "UK"));
      (Some (VStr "UK"), Some (VStr "B2QRS"), Some (VBool false), Some (VStr "UK"));
      (Some (VStr "DE"), Some (VStr "A1XYZ"), Some (VBool true), Some (VStr "UK"));
      (Some (VStr "DE"), Some (VStr "B2QRS"), Some (VBool true), Some (VStr "UK")) ].
Proof. vm_compute. reflexivity. Qed.

End ProvenanceCases.

(** * Further properties of the code *)

(** ** More on strings *)
Section MoreStrings.
Import JS.

Lemma trimEnd_idempotent s : trimEnd (trimEnd s) = trimEnd s.
Proof.
  induction s as [|c s IH]; [reflexivity|].
  cbn [trimEnd]. destruct (allWhitespace (String c s)) eqn:Hs; [reflexivity|].
  cbn [trimEnd]. rewrite IH.
  replace (allWhitespace (String c (trimEnd s))) with false; [reflexivity|].
  destruct (trimEnd_split s) as (w & Hsplit & Hw). rewrite <- Hs.
  transitivity (allWhitespace (String c (trimEnd s) ++ w)).
  - cbn [String.append]. now rewrite <- Hsplit.
  - now apply allWhitespace_before_blanks.
Qed.

(** What [trimStart] returns starts with no white space. *)
Lemma trimStart_head s : blankWidth (trimStart s) = 0.
Proof.
  induction s as [s IH] using string_length_ind.
  destruct (blank_head s) as [-> | [(b & r & -> & Hb & _) | (Hne & H0)]].
  - reflexivity.
  - rewrite (trimStart_blank _ _ Hb). apply IH.
    rewrite append_length. pose proof (blankChar_length b Hb). lia.
  - now rewrite (trimStart_other s H0).
Qed.

Lemma trimStart_trimEnd s : blankWidth s = 0 -> trimStart (trimEnd s) = trimEnd s.
Proof.
  intros H0. apply trimStart_other.
  destruct (trimEnd_split s) as (w & Hsplit & Hw).
  destruct (trimEnd s) as [|c t] eqn:Ht; [reflexivity|].
  rewrite <- (blankWidth_before_blanks (String c t) w) by (discriminate || exact Hw).
  now rewrite <- Hsplit.
Qed.

(** [trim] leaves a trimmed string as it is. *)
Lemma trim_idempotent s : trim (trim s) = trim s.
Proof.
  unfold trim. rewrite (trimStart_trimEnd _ (trimStart_head s)).
  apply trimEnd_idempotent.
Qed.

End MoreStrings.

(** ** What [extractAllSellers] makes of the page it lands on *)
Section DiscoveryOutcomes.
Import Scraper Eff.

Lemma scrapeWith_propagates extractAll extract asin m o st e :
  fst (extractAll asin m st) = Throw e ->
  fst (scrapeWith extractAll extract asin m o st) = Throw e.
Proof.
  unfold scrapeWith. unfold bind at 1.
  destruct (extractAll asin m st) as [[l|e'] st1]; cbn [fst]; congruence.
Qed.

(** X1: when the page that the navigation leaves has a title with "Page
    Not Found", "404" or "Sorry", or an address with "/errors/", both
    offer-listing scrapers return no sellers and log that the product was
    not found, whatever the page would answer to the later queries; the
    multi-strategy scraper has not waited by then, the one-selector scraper
    has waited its 2.5 s. *)
Theorem missing_product_yields_no_sellers (b : Browser) asin m st t :
  let landed := snd (navigate b (ScraperMulti.offerUrl asin m) (page st)) in
  title landed = Ok t ->
  notFoundTitle t || JS.includes (url landed) "/errors/" = true ->
  (exists st',
      ScraperMulti.extractAllSellers b asin m st = (Ok [], st')
      /\ page st' = landed /\ clock st' = clock st
      /\ In (ScraperMulti.tagOf m ++ "Product not found on this marketplace")%string
            (messages Info st'))
  /\ (fst (navigate b (ScraperInline.offerUrl asin m) (page st)) = Ok tt ->
      exists st',
        ScraperInline.extractAllSellers b asin m st = (Ok [], st')
        /\ page st' = landed /\ clock st' = clock st + 2500
        /\ In (ScraperInline.tagOf m ++ "Product not found on this marketplace")%string
              (messages Info st')
        /\ messages Warning st' = messages Warning st).
Proof.
  intros landed Ht Hnf. split.
  - destruct (multi_reaches_afterLoad b asin m st) as (st0 & -> & Hp & Hc).
    fold landed in Hp. rewrite <- Hp in Ht, Hnf.
    destruct (afterLoad_not_found b (ScraperMulti.tagOf m) st0 t Ht Hnf)
      as (st' & Hrun & Hp' & Hc' & Hlog & _).
    exists st'. repeat split; congruence.
  - intros Hok.
    assert (Hnav : navigate b (ScraperInline.offerUrl asin m) (page st) = (Ok tt, landed)).
    { subst landed. change (ScraperMulti.offerUrl asin m) with (ScraperInline.offerUrl asin m).
      destruct (navigate b _ _) as [r p]. cbn [fst snd] in *. now subst r. }
    exact (inline_not_found b asin m st landed t Hnav Ht Hnf).
Qed.

Lemma missing_product_yields_no_sellers_witness :
  let b := Cases.landing Cases.missing in
  (exists st',
      ScraperMulti.extractAllSellers b "B07YDVWL4J" Samples.de Samples.idle = (Ok [], st')
      /\ page st' = Cases.missing /\ clock st' = 0
      /\ In "[DE] Product not found on this marketplace" (messages Info st'))
  /\ (exists st',
        ScraperInline.extractAllSellers b "B07YDVWL4J" Samples.de Samples.idle = (Ok [], st')
        /\ page st' = Cases.missing /\ clock st' = 2500
        /\ In "[DE] Product not found on this marketplace" (messages Info st')
        /\ messages Warning st' = []).
Proof.
  destruct (missing_product_yields_no_sellers (Cases.landing Cases.missing) "B07YDVWL4J"
              Samples.de Samples.idle "Amazon.se Page Not Found" eq_refl eq_refl)
    as [Hmulti Hinline].
  split; [exact Hmulti | exact (Hinline eq_refl)].
Defined.

(** X2: on a page that is not taken for a missing product and holds a
    form whose action contains "validateCaptcha", both offer-listing
    scrapers return no sellers and log the warning "CAPTCHA detected —
    skipping", whatever the page would answer to an evaluation. *)
Theorem captcha_yields_no_sellers (b : Browser) asin m st t :
  let landed := snd (navigate b (ScraperMulti.offerUrl asin m) (page st)) in
  title landed = Ok t ->
  notFoundTitle t || JS.includes (url landed) "/errors/" = false ->
  captchaForm landed = Ok true ->
  (exists st',
      ScraperMulti.extractAllSellers b asin m st = (Ok [], st')
      /\ page st' = landed /\ clock st' = clock st
      /\ In (ScraperMulti.tagOf m ++ "CAPTCHA detected — skipping")%string
            (messages Warning st'))
  /\ (fst (navigate b (ScraperInline.offerUrl asin m) (page st)) = Ok tt ->
      exists st',
        ScraperInline.extractAllSellers b asin m st = (Ok [], st')
        /\ page st' = landed /\ clock st' = clock st + 2500
        /\ In (ScraperInline.tagOf m ++ "CAPTCHA detected — skipping")%string
              (messages Warning st')).
Proof.
  intros landed Ht Hnf Hcap. split.
  - destruct (multi_reaches_afterLoad b asin m st) as (st0 & -> & Hp & Hc).
    fold landed in Hp. rewrite <- Hp in Ht, Hnf, Hcap.
    destruct (afterLoad_captcha b (ScraperMulti.tagOf m) st0 t Ht Hnf Hcap)
      as (st' & Hrun & Hp' & Hc' & Hlog).
    exists st'. repeat split; congruence.
  - intros Hok.
    assert (Hnav : navigate b (ScraperInline.offerUrl asin m) (page st) = (Ok tt, landed)).
    { subst landed. change (ScraperMulti.offerUrl asin m) with (ScraperInline.offerUrl asin m).
      destruct (navigate b _ _) as [r p]. cbn [fst snd] in *. now subst r. }
    exact (inline_captcha b asin m st landed t Hnav Ht Hnf Hcap).
Qed.

Lemma captcha_yields_no_sellers_witness :
  let b := Cases.landing Cases.challenged in
  (exists st',
      ScraperMulti.extractAllSellers b "B07YDVWL4J" Samples.de Samples.idle = (Ok [], st')
      /\ page st' = Cases.challenged /\ clock st' = 0
      /\ In "[DE] CAPTCHA detected — skipping" (messages Warning st'))
  /\ (exists st',
        ScraperInline.extractAllSellers b "B07YDVWL4J" Samples.de Samples.idle = (Ok [], st')
        /\ page st' = Cases.challenged /\ clock st' = 2500
        /\ In "[DE] CAPTCHA detected — skipping" (messages Warning st')).
Proof.
  destruct (captcha_yields_no_sellers (Cases.landing Cases.challenged) "B07YDVWL4J"
              Samples.de Samples.idle "Amazon.de" eq_refl eq_refl eq_refl)
    as [Hmulti Hinline].
  split; [exact Hmulti | exact (Hinline eq_refl)].
Defined.

(** X3: nothing catches a rejected [page.title()] or a rejected query
    for the CAPTCHA form: [extractAllSellers] throws with the message of
    the rejection, and so does [scrapeAsinOnMarketplace], in the
    multi-strategy scraper whatever the navigation did, in the one-selector
    scraper after a navigation that succeeded. *)
Theorem rejected_page_query_escapes (b : Browser) asin m o st e :
  let landed := snd (navigate b (ScraperMulti.offerUrl asin m) (page st)) in
  title landed = Throw e
  \/ (exists t, title landed = Ok t
                /\ notFoundTitle t || JS.includes (url landed) "/errors/" = false
                /\ captchaForm landed = Throw e) ->
  (fst (ScraperMulti.extractAllSellers b asin m st) = Throw e
   /\ fst (ScraperMulti.scrapeAsinOnMarketplace b asin m o st) = Throw e)
  /\ (fst (navigate b (ScraperInline.offerUrl asin m) (page st)) = Ok tt ->
      fst (ScraperInline.extractAllSellers b asin m st) = Throw e
      /\ fst (ScraperInline.scrapeAsinOnMarketplace b asin m o st) = Throw e).
Proof.
  intros landed Hrej.
  assert (Hmulti : fst (ScraperMulti.extractAllSellers b asin m st) = Throw e).
  { destruct (multi_reaches_afterLoad b asin m st) as (st0 & -> & Hp & _).
    apply afterLoad_probe_rejected. now rewrite Hp. }
  split; [split; [exact Hmulti | now apply scrapeWith_propagates]|].
  intros Hok.
  assert (Hnav : navigate b (ScraperInline.offerUrl asin m) (page st) = (Ok tt, landed)).
  { subst landed. change (ScraperMulti.offerUrl asin m) with (ScraperInline.offerUrl asin m).
    destruct (navigate b _ _) as [r p]. cbn [fst snd] in *. now subst r. }
  assert (Hinline := inline_probe_rejected b asin m st landed e Hnav Hrej).
  split; [exact Hinline | now apply scrapeWith_propagates].
Qed.

Lemma rejected_page_query_escapes_witness :
  let b := Cases.landing Cases.closed in
  let e := "page.title: Target closed" in
  (fst (ScraperMulti.extractAllSellers b "B07YDVWL4J" Samples.de Samples.idle) = Throw e
   /\ fst (ScraperMulti.scrapeAsinOnMarketplace b "B07YDVWL4J" Samples.de Samples.options
             Samples.idle) = Throw e)
  /\ (fst (ScraperInline.extractAllSellers b "B07YDVWL4J" Samples.de Samples.idle) = Throw e
      /\ fst (ScraperInline.scrapeAsinOnMarketplace b "B07YDVWL4J" Samples.de Samples.options
                Samples.idle) = Throw e).
Proof.
  destruct (rejected_page_query_escapes (Cases.landing Cases.closed) "B07YDVWL4J" Samples.de
              Samples.options Samples.idle "page.title: Target closed" (or_introl eq_refl))
    as [Hmulti Hinline].
  split; [exact Hmulti | exact (Hinline eq_refl)].
Defined.

Lemma multi_warnings_before_afterLoad (b : Browser) asin m st :
  fst (navigate b (ScraperMulti.offerUrl asin m) (page st)) = Ok tt ->
  exists st0,
    ScraperMulti.extractAllSellers b asin m st
    = ScraperMulti.afterLoad b (ScraperMulti.tagOf m) st0
    /\ page st0 = snd (navigate b (ScraperMulti.offerUrl asin m) (page st))
    /\ clock st0 = clock st
    /\ messages Warning st0 = messages Warning st.
Proof.
  unfold ScraperMulti.extractAllSellers.
  unfold bind at 1. unfold logAt at 1. cbv beta iota.
  unfold bind at 1. unfold tryCatch, goto, logAt at 1. cbn [page log clock].
  destruct (navigate b (ScraperMulti.offerUrl asin m) (page st)) as [[[]|e] p];
    cbn [fst]; [intros _ | discriminate].
  eexists. split; [reflexivity|]. split; [reflexivity|]. split; [reflexivity|].
  unfold messages. cbn [log]. rewrite !List.filter_app, !List.map_app. cbn.
  now rewrite !app_nil_r.
Qed.

(** X4: a rejected evaluation of the offer page is swallowed: after a
    navigation that succeeded, on a page that is neither taken for a
    missing product nor blocked by a CAPTCHA form, both offer-listing
    scrapers return no sellers and log no warning. *)
Theorem rejected_evaluation_is_silent (b : Browser) asin m st t e :
  let nav := navigate b (ScraperMulti.offerUrl asin m) (page st) in
  fst nav = Ok tt ->
  title (snd nav) = Ok t ->
  notFoundTitle t || JS.includes (url (snd nav)) "/errors/" = false ->
  captchaForm (snd nav) = Ok false ->
  document (snd nav) = Throw e ->
  (exists st',
      ScraperMulti.extractAllSellers b asin m st = (Ok [], st')
      /\ messages Warning st' = messages Warning st)
  /\ (exists st',
         ScraperInline.extractAllSellers b asin m st = (Ok [], st')
         /\ messages Warning st' = messages Warning st).
Proof.
  intros nav Hok Ht Hnf Hcap Hdoc. split.
  - destruct (multi_warnings_before_afterLoad b asin m st Hok) as (st0 & -> & Hp & _ & Hw).
    fold nav in Hp. rewrite <- Hp in Ht, Hnf, Hcap, Hdoc.
    destruct (afterLoad_extracts b (ScraperMulti.tagOf m) st0 t Ht Hnf Hcap)
      as (st' & Hrun & _ & _ & Hw').
    rewrite Hdoc in Hrun. exists st'. split; [exact Hrun | congruence].
  - assert (Hnav : navigate b (ScraperInline.offerUrl asin m) (page st) = (Ok tt, snd nav)).
    { subst nav. change (ScraperMulti.offerUrl asin m) with (ScraperInline.offerUrl asin m).
      destruct (navigate b _ _) as [r p]. cbn [fst snd] in *. now subst r. }
    destruct (inline_extracts b asin m st (snd nav) t Hnav Ht Hnf Hcap)
      as (st' & Hrun & _ & _ & Hw').
    rewrite Hdoc in Hrun. exists st'. split; [exact Hrun | exact Hw'].
Qed.

Lemma rejected_evaluation_is_silent_witness :
  let b := Cases.landing Cases.frozen in
  (exists st',
      ScraperMulti.extractAllSellers b "B07YDVWL4J" Samples.de Samples.idle = (Ok [], st')
      /\ messages Warning st' = [])
  /\ (exists st',
         ScraperInline.extractAllSellers b "B07YDVWL4J" Samples.de Samples.idle = (Ok [], st')
         /\ messages Warning st' = []).
Proof.
  exact (rejected_evaluation_is_silent (Cases.landing Cases.frozen) "B07YDVWL4J" Samples.de
           Samples.idle "Acme Widget : Amazon.de"
           "page.$$eval: Execution context was destroyed"
           eq_refl eq_refl eq_refl eq_refl eq_refl).
Defined.

Lemma afterLoad_clock (b : Browser) tag st :
  let st' := snd (ScraperMulti.afterLoad b tag st) in
  clock st' = clock st
  \/ (clock st' = clock st + 5000
      /\ List.find (appears (page st)) ScraperMulti.offerSelectors = None).
Proof.
  unfold ScraperMulti.afterLoad.
  unfold bind, getPage, lift, logAt, delay, tryCatch, evaluate, ret.
  cbn -[List.find String.append].
  destruct (title (page st)) as [pageTitle|e]; cbn -[List.find String.append];
    [|now left].
  destruct (_ || _); cbn -[List.find String.append]; [now left|].
  destruct (captchaForm (page st)) as [[]|e]; cbn -[List.find String.append];
    [now left | | now left].
  destruct (List.find _ _) eqn:Hfind; cbn -[List.find String.append];
    destruct (document (page st)) as [d|e] eqn:Hd; cbn -[List.find String.append];
    rewrite ?Hd; cbn -[List.find String.append]; auto.
Qed.

(** X5: the fixed waits of discovery.  The multi-strategy scraper calls
    [delay] at most once, for 5 s, and only when none of its six offer
    selectors appeared on the page it landed on; the one-selector scraper
    waits 2.5 s after a navigation that succeeded and not at all after one
    that failed. *)
Theorem discovery_waits (b : Browser) asin m st :
  (let st' := snd (ScraperMulti.extractAllSellers b asin m st) in
   clock st' = clock st
   \/ (clock st' = clock st + 5000
       /\ forall sel, In sel ScraperMulti.offerSelectors ->
                      appears (snd (navigate b (ScraperMulti.offerUrl asin m) (page st))) sel
                      = false))
  /\ (let st' := snd (ScraperInline.extractAllSellers b asin m st) in
      clock st' = clock st
                  + match fst (navigate b (ScraperInline.offerUrl asin m) (page st)) with
                    | Ok _ => 2500
                    | Throw _ => 0
                    end).
Proof.
  split.
  - destruct (multi_reaches_afterLoad b asin m st) as (st0 & -> & Hp & Hc).
    cbv zeta. rewrite <- Hp, <- Hc.
    destruct (afterLoad_clock b (ScraperMulti.tagOf m) st0) as [H | [H Hnone]];
      [now left | right]. split; [exact H|].
    intros sel Hsel. exact (find_none _ _ Hnone sel Hsel).
  - cbv zeta. unfold ScraperInline.extractAllSellers.
    unfold bind, getPage, lift, logAt, delay, tryCatch, evaluate, ret, goto.
    cbn -[String.append].
    destruct (navigate b (ScraperInline.offerUrl asin m) (page st)) as [[[]|e] p];
      cbn -[String.append]; [|lia].
    destruct (title p) as [pageTitle|e]; cbn -[String.append]; [|reflexivity].
    destruct (_ || _); cbn -[String.append]; [reflexivity|].
    destruct (captchaForm p) as [[]|e]; cbn -[String.append]; try reflexivity.
    destruct (document p) as [d|e]; reflexivity.
Qed.

End DiscoveryOutcomes.

(** ** What a discovered seller looks like *)
Section DiscoveredSellers.
Import Scraper Eff.
Context (b : Browser).

Lemma truthy_nonempty s : JS.truthy s = true -> s <> "".
Proof. destruct s; [discriminate | discriminate]. Qed.

Lemma candidate_sound tag linkName id href s :
  DiscoverySpec.candidate tag linkName id href = Some s ->
  name s = linkName /\ linkName <> "" /\ sellerId s <> "" /\ sellerHref s = href
  /\ strategy s = Some tag.
Proof.
  unfold DiscoverySpec.candidate. destruct id as [i|]; [|discriminate].
  destruct (JS.truthy i) eqn:Hi; [|discriminate].
  destruct (JS.truthy linkName) eqn:Hn; [|discriminate].
  intros [= <-]. cbn. auto using truthy_nonempty.
Qed.

Lemma In_omap {A B} (f : A -> option B) l y :
  In y (omap f l) -> exists x, In x l /\ f x = Some y.
Proof.
  induction l as [|a l IH]; cbn; [intros []|].
  destruct (f a) as [y'|] eqn:Hfa; cbn.
  - intros [<- | Hy]; [eauto|]. destruct (IH Hy) as (x & Hx & Hfx). eauto.
  - intros Hy. destruct (IH Hy) as (x & Hx & Hfx). eauto.
Qed.

Lemma candidates_from_links d s :
  In s (DiscoverySpec.candidates b d) ->
  exists a tag,
    In a (Dom.anchors d)
    /\ name s = JS.trim (Dom.textContent a) /\ name s <> "" /\ sellerId s <> ""
    /\ sellerHref s = Dom.href a /\ strategy s = Some tag
    /\ In tag ["aag"; "sellerParam"; "soldBy"; "soldByPath"].
Proof.
  unfold DiscoverySpec.candidates. rewrite !in_app_iff.
  intros [Hs | [Hs | Hs]]; apply In_omap in Hs as (a & Ha & Hs).
  - apply List.filter_In in Ha as [Ha _].
    apply candidate_sound in Hs as (Hn & Hne & Hid & Hh & Ht).
    exists a, "aag". rewrite Hn. cbn. repeat split; auto 6.
  - apply List.filter_In in Ha as [Ha _].
    apply candidate_sound in Hs as (Hn & Hne & Hid & Hh & Ht).
    exists a, "sellerParam". rewrite Hn. cbn. repeat split; auto 6.
  - unfold DiscoverySpec.viaSoldBy in Hs.
    destruct (ScraperMulti.nearSoldBy a); [|discriminate].
    destruct (DiscoverySpec.candidate "soldBy" _ _ _) as [s'|] eqn:Hc.
    + injection Hs as ->. apply candidate_sound in Hc as (Hn & Hne & Hid & Hh & Ht).
      exists a, "soldBy". rewrite Hn. cbn. repeat split; auto 6.
    + destruct (_ && _); [|discriminate].
      apply candidate_sound in Hs as (Hn & Hne & Hid & Hh & Ht).
      exists a, "soldByPath". rewrite Hn. cbn. repeat split; auto 6.
Qed.

Lemma inline_from_links d s :
  In s (ScraperInline.sellersInPage b d) ->
  exists a,
    In a (Dom.anchors d) /\ Dom.hrefContains "/gp/aag/main" a = true
    /\ name s = JS.trim (Dom.textContent a) /\ name s <> "" /\ sellerId s <> ""
    /\ sellerHref s = Dom.href a /\ strategy s = None.
Proof.
  unfold ScraperInline.sellersInPage. intros Hs.
  apply in_flat_map in Hs as (a & Ha & Hs). apply List.filter_In in Ha as [Ha Hsel].
  destruct (ScraperInline.linkSellerId b (Dom.href a)) as [id|]; [|destruct Hs].
  destruct (JS.truthy (JS.trim (Dom.textContent a))) eqn:Hn; [|destruct Hs].
  destruct (JS.truthy id) eqn:Hid; [|destruct Hs].
  destruct Hs as [<- | []]. exists a. cbn. auto 10 using truthy_nonempty.
Qed.

(** X6: every seller that [extractAllSellers] returns, in either
    offer-listing scraper, was read from a link of the page the
    navigation left: its [href] is the link's, its name is the trimmed
    text of the link, so it carries no blank at either end, and neither
    its name nor its seller id is empty. *)
Theorem discovered_seller_well_formed asin m st sellers s :
  let landed := snd (navigate b (ScraperMulti.offerUrl asin m) (page st)) in
  fst (ScraperMulti.extractAllSellers b asin m st) = Ok sellers
  \/ fst (ScraperInline.extractAllSellers b asin m st) = Ok sellers ->
  In s sellers ->
  name s <> "" /\ JS.trim (name s) = name s /\ sellerId s <> ""
  /\ exists d a,
       document landed = Ok d /\ In a (Dom.anchors d)
       /\ name s = JS.trim (Dom.textContent a) /\ sellerHref s = Dom.href a.
Proof.
  intros landed [Hrun | Hrun] Hs.
  - destruct (multi_sellers_first b asin m st sellers Hrun) as (_ & _ & Hfrom).
    destruct (Hfrom s Hs) as (d & pre & post & Hd & Hsplit & _).
    assert (Hc : In s (DiscoverySpec.candidates b d)).
    { rewrite Hsplit. apply in_or_app. right. now left. }
    apply candidates_from_links in Hc as (a & tag & Ha & Hn & Hne & Hid & Hh & _).
    repeat split; try assumption.
    + rewrite Hn. apply trim_idempotent.
    + exists d, a. auto.
  - destruct (inline_sellers_last b asin m st sellers Hrun) as (_ & Hfrom).
    destruct (Hfrom s Hs) as (d & pre & post & Hd & Hsplit & _).
    assert (Hc : In s (ScraperInline.sellersInPage b d)).
    { rewrite Hsplit. apply in_or_app. right. now left. }
    apply inline_from_links in Hc as (a & Ha & _ & Hn & Hne & Hid & Hh & _).
    repeat split; try assumption.
    + rewrite Hn. apply trim_idempotent.
    + exists d, a. auto.
Qed.

End DiscoveredSellers.

Section DiscoveredSellersCases.
Import Scraper Eff.

Lemma discovered_seller_well_formed_witness :
  let s := {| name := "Bolt GmbH"; sellerId := "B2QRS";
              sellerHref := "https://www.amazon.de/gp/aag/main?seller=B2QRS";
              strategy := Some "aag" |} in
  name s <> "" /\ JS.trim (name s) = name s /\ sellerId s <> ""
  /\ exists d a,
       document Samples.offers = Ok d /\ In a (Dom.anchors d)
       /\ name s = JS.trim (Dom.textContent a) /\ sellerHref s = Dom.href a.
Proof.
  apply (discovered_seller_well_formed Samples.online "B07YDVWL4J" Samples.de Samples.idle
           [ {| name := "Acme"; sellerId := "A1XYZ";
                sellerHref := "https://www.amazon.de/gp/aag/main?seller=A1XYZ&ref=1";
                strategy := Some "aag" |};
             {| name := "Bolt GmbH"; sellerId := "B2QRS";
                sellerHref := "https://www.amazon.de/gp/aag/main?seller=B2QRS";
                strategy := Some "aag" |} ]).
  - left. reflexivity.
  - right. left. reflexivity.
Defined.

End DiscoveredSellersCases.

(** ** From the discovered sellers to the records *)
Section Records.
Import Obj Scraper Eff Reading.

(** The sellers that [scrapeAsinOnMarketplace] visits. *)
Lemma dropAmazonSellers_run m l st :
  exists st',
    dropAmazonSellers m l st
    = (Ok (List.filter (fun s => negb (isAmazonSeller (Some (name s)))) l), st')
    /\ page st' = page st /\ clock st' = clock st.
Proof.
  revert st. induction l as [|s l IH]; intros st;
    cbn [dropAmazonSellers List.filter].
  - eexists. repeat split.
  - destruct (isAmazonSeller (Some (name s))); cbn [negb].
    + unfold bind at 1. unfold logAt at 1. cbv beta iota.
      match goal with |- context [dropAmazonSellers m l ?s0] =>
        destruct (IH s0) as (st' & -> & Hp & Hc) end.
      exists st'. repeat split; assumption.
    + unfold bind at 1. destruct (IH st) as (st' & -> & Hp & Hc).
      exists st'. repeat split; assumption.
Qed.

Lemma sellerRecord_recordOf asin m s info t : recordOf asin m s (sellerRecord asin m s info t).
Proof. repeat split. Qed.

Lemma visitSellers_records extract asin m o sellers :
  (forall sellerUrl st, exists info st', extract sellerUrl st = (Ok info, st')) ->
  (forall sellerUrl st, clock st <= clock (snd (extract sellerUrl st))) ->
  forall results st,
  exists visited st',
    visitSellers extract asin m o sellers results st = (Ok (results ++ visited), st')
    /\ Forall2 (recordOf asin m) sellers visited
    /\ clock st + length sellers * delayBetweenRequests o <= clock st'.
Proof.
  intros Htotal Hmono. induction sellers as [|seller rest IH]; intros results st; simpl.
  - exists [], st. unfold ret. rewrite app_nil_r. repeat split; [constructor | lia].
  - unfold bind at 1. unfold delay at 1. cbv beta iota.
    unfold bind at 1.
    match goal with |- context [extract ?u ?s] =>
      assert (Hm := Hmono u s); destruct (Htotal u s) as (info & st1 & Hrun) end.
    rewrite Hrun in Hm |- *. cbn [snd clock] in Hm.
    unfold bind at 1. unfold now at 1. cbv beta iota.
    match goal with |- context [visitSellers _ _ _ _ _ ?r ?s] =>
      destruct (IH r s) as (visited & st2 & -> & Hrec & Hclock) end.
    eexists (_ :: visited), st2. rewrite <- app_assoc. simpl. split; [reflexivity|].
    split; [constructor; [apply sellerRecord_recordOf | exact Hrec] | lia].
Qed.

End Records.

Section RecordsOfScrapers.
Import Obj Scraper Eff Reading.

Lemma extractSellerInfoWith_clock b inPage okPrefix failed sellerUrl st :
  clock st <= clock (snd (extractSellerInfoWith b inPage okPrefix failed sellerUrl st)).
Proof.
  unfold extractSellerInfoWith, tryCatch, bind, goto, delay, evaluate, logAt, ret.
  cbn -[String.append].
  destruct (navigate b sellerUrl (page st)) as [[[]|e] p]; cbn -[String.append]; [|lia].
  destruct (document p) as [d|e]; cbn -[String.append]; [|lia].
  destruct (inPage d) as [info|e]; cbn -[String.append]; [|lia].
  destruct (negb _); cbn -[String.append]; lia.
Qed.

Lemma scrapeWith_records extractAll extract asin m o st allSellers st1 :
  (forall sellerUrl st, exists info st', extract sellerUrl st = (Ok info, st')) ->
  (forall sellerUrl st, clock st <= clock (snd (extract sellerUrl st))) ->
  extractAll asin m st = (Ok allSellers, st1) ->
  exists records st',
    scrapeWith extractAll extract asin m o st = (Ok records, st')
    /\ Forall2 (recordOf asin m) (sellersToVisit o allSellers) records
    /\ clock st1 + length (sellersToVisit o allSellers) * delayBetweenRequests o <= clock st'
    /\ (sellersToVisit o allSellers = [] ->
        page st' = page st1 /\ clock st' = clock st1
        /\ In ("[" ++ Constants.code m ++ "] No third-party sellers to visit")%string
              (messages Info st')).
Proof.
  intros Htotal Hmono Hall. unfold scrapeWith. unfold bind at 1. rewrite Hall.
  assert (Hkept : exists st2,
             (if skipAmazonSellers o then dropAmazonSellers m allSellers else ret allSellers) st1
             = (Ok (sellersToVisit o allSellers), st2)
             /\ page st2 = page st1 /\ clock st2 = clock st1).
  { unfold sellersToVisit. destruct (skipAmazonSellers o).
    - apply dropAmazonSellers_run.
    - exists st1. repeat split. }
  destruct Hkept as (st2 & Hkept & Hp & Hc).
  unfold bind at 1. rewrite Hkept.
  destruct (sellersToVisit o allSellers) as [|s0 rest].
  - unfold bind, logAt, ret. cbn -[String.append]. eexists _, _. split; [reflexivity|].
    split; [constructor|]. split; [cbn; lia|]. intros _. cbn [page clock].
    repeat split; try assumption. apply messages_last.
  - unfold bind at 1. unfold logAt at 1. cbv beta iota.
    match goal with
    | |- context [visitSellers extract asin m o ?l [] ?s] =>
        destruct (visitSellers_records extract asin m o l Htotal Hmono [] s)
          as (visited & st3 & -> & Hrec & Hclock)
    end.
    cbn [app clock] in *. eexists _, _. split; [reflexivity|].
    split; [exact Hrec|]. split; [lia | discriminate].
Qed.

Lemma offer_listing_scraper_records (b : Browser) extractAll scrape asin m o st allSellers :
  (extractAll = ScraperMulti.extractAllSellers b
   /\ scrape = ScraperMulti.scrapeAsinOnMarketplace b)
  \/ (extractAll = ScraperInline.extractAllSellers b
      /\ scrape = ScraperInline.scrapeAsinOnMarketplace b) ->
  fst (extractAll asin m st) = Ok allSellers ->
  let st1 := snd (extractAll asin m st) in
  exists records st',
    scrape asin m o st = (Ok records, st')
    /\ Forall2 (recordOf asin m) (sellersToVisit o allSellers) records
    /\ clock st1 + length (sellersToVisit o allSellers) * delayBetweenRequests o <= clock st'
    /\ (sellersToVisit o allSellers = [] ->
        page st' = page st1 /\ clock st' = clock st1
        /\ In ("[" ++ Constants.code m ++ "] No third-party sellers to visit")%string
              (messages Info st')).
Proof.
  intros Hwhich Hall st1.
  assert (Hrun : extractAll asin m st = (Ok allSellers, st1)).
  { subst st1. destruct (extractAll asin m st) as [r s1]. cbn [fst snd] in *. now subst r. }
  destruct Hwhich as [[-> ->] | [-> ->]];
    (eapply scrapeWith_records;
     [intros; apply extractSellerInfoWith_returns
     |intros; apply extractSellerInfoWith_clock
     |exact Hrun]).
Qed.

(** X7: when discovery returns, [scrapeAsinOnMarketplace] of either
    offer-listing scraper returns one record per seller to visit, in the
    order of discovery, each with the [asin], the code and domain of the
    marketplace and the name and id of its seller; with
    [skipAmazonSellers] the sellers to visit are the discovered sellers
    that [isAmazonSeller] rejects, without it all of them. *)
Theorem records_follow_sellers_to_visit (b : Browser) extractAll scrape asin m o st allSellers :
  (extractAll = ScraperMulti.extractAllSellers b
   /\ scrape = ScraperMulti.scrapeAsinOnMarketplace b)
  \/ (extractAll = ScraperInline.extractAllSellers b
      /\ scrape = ScraperInline.scrapeAsinOnMarketplace b) ->
  fst (extractAll asin m st) = Ok allSellers ->
  exists records,
    fst (scrape asin m o st) = Ok records
    /\ Forall2 (recordOf asin m)
               (if skipAmazonSellers o
                then List.filter (fun s => negb (isAmazonSeller (Some (name s)))) allSellers
                else allSellers)
               records.
Proof.
  intros Hwhich Hall.
  destruct (offer_listing_scraper_records b extractAll scrape asin m o st allSellers Hwhich Hall)
    as (records & st' & Hrun & Hrec & _).
  exists records. rewrite Hrun. split; [reflexivity | exact Hrec].
Qed.

Lemma records_follow_sellers_to_visit_witness :
  exists records,
    fst (ScraperMulti.scrapeAsinOnMarketplace Samples.online "B07YDVWL4J" Samples.de
           Samples.options Samples.idle) = Ok records
    /\ Forall2 (recordOf "B07YDVWL4J" Samples.de)
               [ {| name := "Acme"; sellerId := "A1XYZ";
                    sellerHref := "https://www.amazon.de/gp/aag/main?seller=A1XYZ&ref=1";
                    strategy := Some "aag" |};
                 {| name := "Bolt GmbH"; sellerId := "B2QRS";
                    sellerHref := "https://www.amazon.de/gp/aag/main?seller=B2QRS";
                    strategy := Some "aag" |} ]
               records.
Proof.
  exact (records_follow_sellers_to_visit Samples.online _ _ "B07YDVWL4J" Samples.de
           Samples.options Samples.idle _ (or_introl (conj eq_refl eq_refl)) eq_refl).
Defined.

(** X8: when there is no seller to visit (none was discovered, or
    [skipAmazonSellers] is set and [isAmazonSeller] accepts every one),
    [scrapeAsinOnMarketplace] of either offer-listing scraper returns no
    record, logs "No third-party sellers to visit", and leaves the page
    and the waiting time as discovery left them: no profile is opened. *)
Theorem nothing_to_visit (b : Browser) extractAll scrape asin m o st allSellers :
  (extractAll = ScraperMulti.extractAllSellers b
   /\ scrape = ScraperMulti.scrapeAsinOnMarketplace b)
  \/ (extractAll = ScraperInline.extractAllSellers b
      /\ scrape = ScraperInline.scrapeAsinOnMarketplace b) ->
  fst (extractAll asin m st) = Ok allSellers ->
  (if skipAmazonSellers o
   then forallb (fun s => isAmazonSeller (Some (name s))) allSellers
   else match allSellers with [] => true | _ => false end) = true ->
  exists st',
    scrape asin m o st = (Ok [], st')
    /\ page st' = page (snd (extractAll asin m st))
    /\ clock st' = clock (snd (extractAll asin m st))
    /\ In ("[" ++ Constants.code m ++ "] No third-party sellers to visit")%string
          (messages Info st').
Proof.
  intros Hwhich Hall Hnone.
  destruct (offer_listing_scraper_records b extractAll scrape asin m o st allSellers Hwhich Hall)
    as (records & st' & Hrun & Hrec & _ & Hempty).
  assert (Hkept : sellersToVisit o allSellers = []).
  { unfold sellersToVisit. destruct (skipAmazonSellers o).
    - clear -Hnone. induction allSellers as [|s l IH]; [reflexivity|].
      cbn [forallb List.filter] in *. apply andb_true_iff in Hnone as [-> Hl].
      cbn [negb]. auto.
    - destruct allSellers; [reflexivity | discriminate]. }
  rewrite Hkept in Hrec. inversion Hrec; subst.
  exists st'. split; [exact Hrun|]. exact (Hempty Hkept).
Qed.

Lemma nothing_to_visit_witness :
  let b := Cases.landing Cases.firstParty in
  exists st',
    ScraperMulti.scrapeAsinOnMarketplace b "B07YDVWL4J" Samples.de Samples.options Samples.idle
    = (Ok [], st')
    /\ page st' = Cases.firstParty
    /\ clock st' = 0
    /\ In "[DE] No third-party sellers to visit" (messages Info st').
Proof.
  exact (nothing_to_visit (Cases.landing Cases.firstParty) _ _ "B07YDVWL4J" Samples.de
           Samples.options Samples.idle _ (or_introl (conj eq_refl eq_refl)) eq_refl eq_refl).
Defined.

(** X9: the pacing of the profile visits: in either offer-listing
    scraper, between the end of discovery and the return of
    [scrapeAsinOnMarketplace] the scraper has waited at least
    [delayBetweenRequests] for every seller it visits. *)
Theorem visits_are_paced (b : Browser) extractAll scrape asin m o st allSellers :
  (extractAll = ScraperMulti.extractAllSellers b
   /\ scrape = ScraperMulti.scrapeAsinOnMarketplace b)
  \/ (extractAll = ScraperInline.extractAllSellers b
      /\ scrape = ScraperInline.scrapeAsinOnMarketplace b) ->
  fst (extractAll asin m st) = Ok allSellers ->
  exists records,
    fst (scrape asin m o st) = Ok records
    /\ clock (snd (extractAll asin m st)) + length records * delayBetweenRequests o
       <= clock (snd (scrape asin m o st)).
Proof.
  intros Hwhich Hall.
  destruct (offer_listing_scraper_records b extractAll scrape asin m o st allSellers Hwhich Hall)
    as (records & st' & Hrun & Hrec & Hclock & _).
  exists records. rewrite Hrun. split; [reflexivity|]. cbn [snd].
  rewrite <- (Forall2_length _ _ _ Hrec). exact Hclock.
Qed.

Lemma visits_are_paced_witness :
  exists records,
    fst (ScraperInline.scrapeAsinOnMarketplace Samples.online "B07YDVWL4J" Samples.de
           Samples.options Samples.idle) = Ok records
    /\ clock (snd (ScraperInline.extractAllSellers Samples.online "B07YDVWL4J" Samples.de
                     Samples.idle))
       + length records * 3000
       <= clock (snd (ScraperInline.scrapeAsinOnMarketplace Samples.online "B07YDVWL4J"
                        Samples.de Samples.options Samples.idle)).
Proof.
  exact (visits_are_paced Samples.online _ _ "B07YDVWL4J" Samples.de Samples.options
           Samples.idle _ (or_intror (conj eq_refl eq_refl)) eq_refl).
Defined.

End RecordsOfScrapers.

(** ** The scraping loop as a whole *)
Section WholeRun.
Import Obj Eff Main Reading.
Context (scrape : string -> Constants.Marketplace -> Scraper.Options -> M St (list Object)).
Context (pushData : Object -> Exc unit).
Context (input : Input).

Lemma snoc_split {A} (l : list A) x pre y post :
  l ++ [x] = pre ++ y :: post ->
  (pre = l /\ y = x /\ post = [])
  \/ exists post', post = post' ++ [x] /\ l = pre ++ y :: post'.
Proof.
  destruct post as [|z post] using rev_ind.
  - intros H. apply app_inj_tail in H as [-> ->]. now left.
  - clear IHpost. rewrite app_comm_cons, app_assoc. intros H.
    apply app_inj_tail in H as [-> ->]. right. now exists post.
Qed.

Lemma existsb_eqb_In k l : existsb (String.eqb k) l = true <-> In k l.
Proof.
  rewrite existsb_exists. split.
  - intros (x & Hx & Heq). apply String.eqb_eq in Heq. now subst.
  - intros Hk. exists k. split; [exact Hk | apply String.eqb_refl].
Qed.

Lemma consistent_seen results seen rec :
  consistent results seen -> In rec results -> exists first, seen !! dedupeKey rec = Some first.
Proof.
  intros [Hrec _] Hin. apply in_split in Hin as (pre & post & ->).
  destruct (Hrec pre rec post eq_refl) as (_ & first & _ & Hseen). eauto.
Qed.

Lemma emit_consistent m seller run :
  consistent (allResults run) (sellersSeen run) ->
  let run' := snd (emit pushData m seller run) in
  consistent (allResults run') (sellersSeen run').
Proof.
  intros Hc. destruct (emit pushData m seller run) as [r run'] eqn:Hemit.
  apply emit_annotated in Hemit as (rec' & Hres & Hann & _).
  cbv zeta. cbn [snd annotated] in *. rewrite Hres.
  destruct (sellersSeen run !! dedupeKey rec') as [first|] eqn:Hseen;
    destruct Hann as (Hdup & Hfirst & ->).
  - destruct Hc as [Hrec Hdom]. split.
    + intros pre rec post Hsplit.
      apply snoc_split in Hsplit as [(-> & -> & ->) | (post' & -> & Heq)].
      * split; [|eauto]. rewrite Hdup. do 2 f_equal. symmetry.
        apply existsb_eqb_In. eapply Hdom, Hseen.
      * exact (Hrec pre rec post' Heq).
    + intros k f Hk. rewrite List.map_app. apply in_or_app. left. eauto.
  - assert (Hfresh : ~ In (dedupeKey rec') (List.map dedupeKey (allResults run))).
    { intros Hin. apply in_map_iff in Hin as (r0 & Hr & Hin).
      destruct (consistent_seen _ _ r0 Hc Hin) as [f Hf]. congruence. }
    destruct Hc as [Hrec Hdom]. split.
    + intros pre rec post Hsplit.
      apply snoc_split in Hsplit as [(-> & -> & ->) | (post' & -> & Heq)].
      * split.
        -- rewrite Hdup. do 2 f_equal. symmetry.
           apply not_true_is_false. intros H. apply Hfresh. now apply existsb_eqb_In.
        -- exists (Constants.code m). split; [exact Hfirst | apply lookup_insert_eq].
      * destruct (Hrec pre rec post' Heq) as (Hd & f & Hf & Hs). split; [exact Hd|].
        exists f. split; [exact Hf|]. rewrite lookup_insert_ne; [exact Hs | congruence].
    + intros k f Hk. rewrite List.map_app. apply in_or_app.
      destruct (String.eqb_spec (dedupeKey rec') k) as [<- | Hne].
      * right. now left.
      * left. rewrite lookup_insert_ne in Hk by exact Hne. eauto.
Qed.

Lemma forEach_keeps {S A} (P : S -> Prop) (body : A -> M S unit) xs :
  (forall x st, P st -> P (snd (body x st))) ->
  forall st, P st -> P (snd (forEach xs body st)).
Proof.
  intros Hbody. induction xs as [|x xs IH]; intros st Hst; [exact Hst|].
  cbn [forEach]. unfold bind. specialize (Hbody x st Hst).
  destruct (body x st) as [[[]|e] st1]; cbn [snd] in *; auto.
Qed.

Lemma processMarketplace_keeps (P : list Object -> gmap string string -> list Object -> Prop) asin m :
  (forall seller run, P (allResults run) (sellersSeen run) (dataset run) ->
                      let run' := snd (emit pushData m seller run) in
                      P (allResults run') (sellersSeen run') (dataset run')) ->
  forall run, P (allResults run) (sellersSeen run) (dataset run) ->
              let run' := snd (processMarketplace scrape pushData input asin m run) in
              P (allResults run') (sellersSeen run') (dataset run').
Proof.
  intros Hemit run Hrun. cbv zeta.
  unfold processMarketplace, tryCatch, bind, inScraper, logAt, delay.
  destruct (scrape asin m _ (scraper run)) as [[sellers|e] st1]; [|exact Hrun].
  match goal with
  | |- context [forEach sellers _ ?run0] =>
      assert (Hloop := forEach_keeps
                         (fun r => P (allResults r) (sellersSeen r) (dataset r))
                         (emit pushData m) sellers Hemit run0 Hrun);
      destruct (forEach sellers (emit pushData m) run0) as [[[]|e] run1]
  end; exact Hloop.
Qed.

Lemma scrapingLoop_keeps (P : list Object -> gmap string string -> list Object -> Prop) :
  (forall m seller run, P (allResults run) (sellersSeen run) (dataset run) ->
                        let run' := snd (emit pushData m seller run) in
                        P (allResults run') (sellersSeen run') (dataset run')) ->
  forall run, P (allResults run) (sellersSeen run) (dataset run) ->
              let run' := snd (scrapingLoop scrape pushData input run) in
              P (allResults run') (sellersSeen run') (dataset run').
Proof.
  intros Hemit run Hrun. unfold scrapingLoop.
  apply (forEach_keeps (fun r => P (allResults r) (sellersSeen r) (dataset r))); [|exact Hrun].
  intros asin run0 Hrun0. unfold processAsin. unfold bind at 1.
  unfold inScraper at 1. unfold bind, logAt. cbn -[String.append forEach].
  apply (forEach_keeps (fun r => P (allResults r) (sellersSeen r) (dataset r))); [|exact Hrun0].
  intros m run1. apply processMarketplace_keeps. apply Hemit.
Qed.

(** X10: across the whole run, whatever the scraper returns or throws and
    whatever the dataset accepts: a record of [allResults] is flagged
    [isDuplicate] exactly when an earlier record of the run has its
    seller id, its [firstSeenOnMarketplace] is the entry of [sellersSeen]
    for its seller id, so all records of one seller name the same
    marketplace, and [sellersSeen] holds no seller without a record. *)
Theorem run_wide_provenance st :
  let final := snd (scrapingLoop scrape pushData input (start st)) in
  (forall pre rec post,
      allResults final = pre ++ rec :: post ->
      rec !! "isDuplicate"
      = Some (VBool (existsb (String.eqb (dedupeKey rec)) (List.map dedupeKey pre)))
      /\ exists first,
           rec !! "firstSeenOnMarketplace" = Some (VStr first)
           /\ sellersSeen final !! dedupeKey rec = Some first)
  /\ (forall k first,
         sellersSeen final !! k = Some first -> In k (List.map dedupeKey (allResults final))).
Proof.
  apply (scrapingLoop_keeps (fun results seen _ => consistent results seen)).
  - intros m seller run. apply emit_consistent.
  - split.
    + intros [|r pre] rec post H; discriminate H.
    + intros k first H. cbn in H. rewrite lookup_empty in H. discriminate.
Qed.

(** One turn of the loop over the sellers, as an equation. *)
Lemma emit_cases m seller run :
  exists rec seen',
    dedupeKey rec = dedupeKey seller
    /\ emit pushData m seller run
       = (match pushData rec with Ok _ => Ok tt | Throw e => Throw e end,
          {| allResults := allResults run ++ [rec];
             sellersSeen := seen';
             dataset := match pushData rec with
                        | Ok _ => dataset run ++ [rec]
                        | Throw _ => dataset run
                        end;
             scraper := scraper run |}).
Proof.
  unfold emit. destruct (sellersSeen run !! dedupeKey seller) as [first|].
  - exists (<["isDuplicate" := VBool true]>
              (<["firstSeenOnMarketplace" := VStr first]> seller)), (sellersSeen run).
    split; [apply dedupeKey_annotation|]. destruct (pushData _) as [[]|e]; reflexivity.
  - exists (<["isDuplicate" := VBool false]>
              (<["firstSeenOnMarketplace" := VStr (Constants.code m)]> seller)),
           (<[dedupeKey seller := Constants.code m]> (sellersSeen run)).
    split; [apply dedupeKey_annotation|]. destruct (pushData _) as [[]|e]; reflexivity.
Qed.

(** X11: a throw of [scrapeAsinOnMarketplace] costs the run one
    marketplace of one product and nothing else: the turn of the
    marketplace loop returns, [allResults], [sellersSeen] and the dataset
    are as before, the error is logged with the marketplace and the
    product, and the delay between marketplaces is still kept. *)
Theorem scraper_failure_is_isolated asin m run e :
  let attempt :=
    scrape asin m {| Scraper.skipAmazonSellers := skipAmazonSellers input;
                     Scraper.delayBetweenRequests := delayBetweenRequests input |}
           (scraper run) in
  fst attempt = Throw e ->
  exists run',
    processMarketplace scrape pushData input asin m run = (Ok tt, run')
    /\ allResults run' = allResults run
    /\ sellersSeen run' = sellersSeen run
    /\ dataset run' = dataset run
    /\ In ("[" ++ Constants.code m ++ "] Unexpected error for ASIN " ++ asin ++ ": " ++ e)%string
          (messages Error (scraper run'))
    /\ page (scraper run') = page (snd attempt)
    /\ clock (scraper run') = clock (snd attempt) + delayBetweenRequests input.
Proof.
  intros attempt Hthrow. subst attempt.
  unfold processMarketplace, tryCatch, bind, inScraper, logAt, delay.
  destruct (scrape asin m _ (scraper run)) as [[sellers|e'] st1]; cbn [fst snd] in *;
    [discriminate|]. injection Hthrow as ->.
  cbn -[String.append]. eexists. split; [reflexivity|]. cbn -[String.append messages].
  repeat split. apply messages_last.
Qed.

Lemma dataset_sublist_emit m seller run :
  sublist (dataset run) (allResults run) ->
  let run' := snd (emit pushData m seller run) in
  sublist (dataset run') (allResults run').
Proof.
  intros Hsub. destruct (emit_cases m seller run) as (rec & seen' & _ & ->).
  cbv zeta. cbn [snd allResults dataset].
  destruct (pushData rec).
  - now apply sublist_app.
  - now apply sublist_inserts_r.
Qed.

Lemma dataset_complete_emit m seller run :
  (forall r, pushData r = Ok tt) ->
  dataset run = allResults run ->
  let run' := snd (emit pushData m seller run) in
  dataset run' = allResults run'.
Proof.
  intros Hok Heq. destruct (emit_cases m seller run) as (rec & seen' & _ & ->).
  cbv zeta. cbn [snd allResults dataset]. rewrite (Hok rec). now f_equal.
Qed.

(** X12: what reaches the dataset.  From the start of the run the
    dataset holds records of [allResults] only, in the order of
    [allResults]; when [Actor.pushData] never rejects, the two are the
    same list at the end of the run. *)
Theorem dataset_follows_results st :
  let final := snd (scrapingLoop scrape pushData input (start st)) in
  sublist (dataset final) (allResults final)
  /\ ((forall r, pushData r = Ok tt) -> dataset final = allResults final).
Proof.
  cbv zeta. split.
  - apply (scrapingLoop_keeps (fun results _ data => sublist data results)).
    + intros m seller run. apply dataset_sublist_emit.
    + constructor.
  - intros Hok.
    apply (scrapingLoop_keeps (fun results _ data => data = results)).
    + intros m seller run. now apply dataset_complete_emit.
    + reflexivity.
Qed.

Lemma forEach_emit_until_rejection m pre s post e :
  (forall r, In (dedupeKey r) (List.map dedupeKey pre) -> pushData r = Ok tt) ->
  (forall r, dedupeKey r = dedupeKey s -> pushData r = Throw e) ->
  forall run,
  exists emitted run',
    forEach (pre ++ s :: post) (emit pushData m) run = (Throw e, run')
    /\ allResults run' = allResults run ++ emitted
    /\ List.map dedupeKey emitted = List.map dedupeKey (pre ++ [s])
    /\ dataset run' = dataset run ++ removelast emitted
    /\ scraper run' = scraper run.
Proof.
  intros Hpre Hs. induction pre as [|s0 pre IH]; intros run.
  - cbn [app forEach]. unfold bind.
    destruct (emit_cases m s run) as (rec & seen' & Hkey & ->).
    rewrite (Hs rec Hkey). exists [rec]. eexists. split; [reflexivity|].
    cbn [allResults dataset scraper removelast List.map app]. rewrite Hkey, app_nil_r.
    repeat split.
  - cbn [app forEach]. unfold bind.
    destruct (emit_cases m s0 run) as (rec & seen' & Hkey & ->).
    rewrite (Hpre rec) by (rewrite Hkey; now left).
    match goal with |- context [forEach _ _ ?run0] =>
      destruct (IH (fun r Hr => Hpre r (or_intror Hr)) run0)
        as (emitted & run' & -> & Hres & Hkeys & Hdata & Hscr) end.
    cbn [allResults dataset scraper] in *.
    exists (rec :: emitted), run'. split; [reflexivity|].
    rewrite Hres, Hdata, <- !app_assoc. cbn [List.map app]. rewrite Hkey, Hkeys.
    repeat split; try assumption.
    destruct emitted as [|r1 emitted]; [destruct pre; discriminate Hkeys|]. reflexivity.
Qed.

(** X13: a rejected [Actor.pushData] ends the marketplace: when the
    dataset accepts the records of the sellers before [s] and rejects the
    record of [s], the turn of the marketplace loop still returns, the
    records up to that of [s] are in [allResults], the dataset has
    received all of them but the last, the sellers after [s] are neither
    recorded nor pushed, and the rejection is logged as an error. *)
Theorem rejected_push_ends_marketplace asin m run pre s post e :
  let attempt :=
    scrape asin m {| Scraper.skipAmazonSellers := skipAmazonSellers input;
                     Scraper.delayBetweenRequests := delayBetweenRequests input |}
           (scraper run) in
  fst attempt = Ok (pre ++ s :: post) ->
  (forall r, In (dedupeKey r) (List.map dedupeKey pre) -> pushData r = Ok tt) ->
  (forall r, dedupeKey r = dedupeKey s -> pushData r = Throw e) ->
  exists emitted run',
    processMarketplace scrape pushData input asin m run = (Ok tt, run')
    /\ allResults run' = allResults run ++ emitted
    /\ List.map dedupeKey emitted = List.map dedupeKey (pre ++ [s])
    /\ dataset run' = dataset run ++ removelast emitted
    /\ In ("[" ++ Constants.code m ++ "] Unexpected error for ASIN " ++ asin ++ ": " ++ e)%string
          (messages Error (scraper run')).
Proof.
  intros attempt Hok Hpre Hs. subst attempt.
  unfold processMarketplace, tryCatch. unfold bind at 1. unfold bind at 1.
  unfold inScraper at 1.
  destruct (scrape asin m _ (scraper run)) as [[sellers|e'] st1]; cbn [fst snd] in *;
    [|discriminate]. injection Hok as ->.
  match goal with |- context [forEach _ _ ?run0] =>
    destruct (forEach_emit_until_rejection m pre s post e Hpre Hs run0)
      as (emitted & run1 & -> & Hres & Hkeys & Hdata & Hscr) end.
  cbn [allResults dataset scraper] in *.
  unfold inScraper, logAt, delay. cbn -[String.append].
  exists emitted. eexists. split; [reflexivity|]. cbn -[String.append messages].
  repeat split; try assumption. apply messages_last.
Qed.

End WholeRun.

Section WholeRunCases.
Import Obj Eff Main.

Lemma scraper_failure_is_isolated_witness :
  let scrape := ScraperMulti.scrapeAsinOnMarketplace (Cases.landing Cases.closed) in
  exists run',
    processMarketplace scrape Samples.accepting Samples.input "B07YDVWL4J" Samples.de
      (start Samples.idle) = (Ok tt, run')
    /\ allResults run' = []
    /\ sellersSeen run' = ∅
    /\ dataset run' = []
    /\ In "[DE] Unexpected error for ASIN B07YDVWL4J: page.title: Target closed"
          (messages Error (scraper run'))
    /\ page (scraper run') = Cases.closed
    /\ clock (scraper run') = 3000.
Proof.
  exact (scraper_failure_is_isolated
           (ScraperMulti.scrapeAsinOnMarketplace (Cases.landing Cases.closed))
           Samples.accepting Samples.input "B07YDVWL4J" Samples.de (start Samples.idle)
           "page.title: Target closed" eq_refl).
Defined.

Lemma dataset_follows_results_witness :
  let final := snd (scrapingLoop (ScraperMulti.scrapeAsinOnMarketplace Samples.online)
                      Samples.accepting Samples.input (start Samples.idle)) in
  sublist (dataset final) (allResults final) /\ dataset final = allResults final.
Proof.
  destruct (dataset_follows_results (ScraperMulti.scrapeAsinOnMarketplace Samples.online)
              Samples.accepting Samples.input Samples.idle) as [Hsub Hall].
  split; [exact Hsub | exact (Hall (fun _ => eq_refl))].
Defined.

Lemma rejected_push_ends_marketplace_witness :
  let scrape := Cases.finding [Cases.sold "A1XYZ"; Cases.sold "B2QRS"; Cases.sold "C3TUV"] in
  exists emitted run',
    processMarketplace scrape (Cases.rejecting "B2QRS") Samples.input "B07YDVWL4J" Samples.de
      (start Samples.idle) = (Ok tt, run')
    /\ allResults run' = emitted
    /\ List.map dedupeKey emitted = ["A1XYZ"; "B2QRS"]
    /\ dataset run' = removelast emitted
    /\ In "[DE] Unexpected error for ASIN B07YDVWL4J: Dataset quota exceeded"
          (messages Error (scraper run')).
Proof.
  refine (rejected_push_ends_marketplace
            (Cases.finding [Cases.sold "A1XYZ"; Cases.sold "B2QRS"; Cases.sold "C3TUV"])
            (Cases.rejecting "B2QRS") Samples.input "B07YDVWL4J" Samples.de
            (start Samples.idle)
            [Cases.sold "A1XYZ"] (Cases.sold "B2QRS") [Cases.sold "C3TUV"]
            "Dataset quota exceeded" eq_refl _ _).
  - intros r Hr. unfold Cases.rejecting.
    destruct Hr as [Hr | []]. rewrite <- Hr. reflexivity.
  - intros r Hr. unfold Cases.rejecting. rewrite Hr. reflexivity.
Defined.

End WholeRunCases.

(** ** The marketplaces of a run *)
Section Selection.
Import Obj Eff Main Constants.

Lemma filter_sublist {A} (keep : A -> bool) l : sublist (List.filter keep l) l.
Proof.
  induction l as [|a l IH]; cbn [List.filter]; [constructor|].
  destruct (keep a); now constructor.
Qed.

Lemma codes_distinct : List.NoDup (List.map code MARKETPLACES).
Proof.
  unfold MARKETPLACES. cbn [List.map code].
  repeat (constructor; [cbn [In]; intros H;
                        repeat (destruct H as [H | H]; [discriminate H|]); exact H|]).
  constructor.
Qed.

(** X14: a non-empty selection of marketplace codes is scraped in the
    order of the [MARKETPLACES] table, not in the order of the selection:
    the marketplaces of the run are those of the table whose code is
    selected, each once however often its code is selected, and a selected
    code that the table does not hold is ignored. *)
Theorem selected_marketplaces_in_table_order input :
  selectedMarketplaces input <> [] ->
  (forall m, In m (marketplacesToScrape input)
             <-> In m MARKETPLACES /\ In (code m) (selectedMarketplaces input))
  /\ sublist (marketplacesToScrape input) MARKETPLACES
  /\ List.NoDup (List.map code (marketplacesToScrape input)).
Proof.
  intros Hsel. unfold marketplacesToScrape.
  destruct (selectedMarketplaces input) as [|c0 cs] eqn:Hcs; [contradiction|].
  split; [|split].
  - intros m. rewrite List.filter_In, existsb_exists. split.
    + intros (Hm & c & Hc & Heq). apply String.eqb_eq in Heq. subst c. auto.
    + intros (Hm & Hc). split; [exact Hm|]. exists (code m). split; [exact Hc|].
      apply String.eqb_refl.
  - apply filter_sublist.
  - apply NoDup_map_filter, codes_distinct.
Qed.

Lemma selected_marketplaces_in_table_order_witness :
  (forall m, In m (marketplacesToScrape Samples.input)
             <-> In m MARKETPLACES /\ In (code m) ["UK"; "DE"])
  /\ sublist (marketplacesToScrape Samples.input) MARKETPLACES
  /\ List.NoDup (List.map code (marketplacesToScrape Samples.input)).
Proof.
  apply (selected_marketplaces_in_table_order Samples.input). discriminate.
Defined.

(** X15: a selection that names no marketplace of the table does not
    fall back to all marketplaces: the run scrapes nothing, whatever the
    scraper would do; it records nothing, never waits and leaves the page
    alone. *)
Theorem unknown_selection_scrapes_nothing scrape pushData input st :
  selectedMarketplaces input <> [] ->
  (forall c, In c (selectedMarketplaces input) -> ~ In c (List.map code MARKETPLACES)) ->
  marketplacesToScrape input = []
  /\ exists final,
       scrapingLoop scrape pushData input (start st) = (Ok tt, final)
       /\ allResults final = [] /\ dataset final = []
       /\ page (scraper final) = page st /\ clock (scraper final) = clock st.
Proof.
  intros Hsel Hunknown.
  assert (Hnone : marketplacesToScrape input = []).
  { unfold marketplacesToScrape.
    destruct (selectedMarketplaces input) as [|c0 cs] eqn:Hcs; [contradiction|].
    induction MARKETPLACES as [|m ms IH]; [reflexivity|].
    cbn [List.filter].
    destruct (existsb (String.eqb (code m)) (c0 :: cs)) eqn:Hex.
    - exfalso. apply existsb_exists in Hex as (c & Hc & Heq). apply String.eqb_eq in Heq.
      subst c. apply (Hunknown (code m) Hc). now left.
    - apply IH. intros c Hc Hin. apply (Hunknown c Hc). now right. }
  split; [exact Hnone|].
  unfold scrapingLoop. generalize (asinsToProcess input). intros todo.
  assert (Hloop : forall run, exists final,
             forEach todo (processAsin scrape pushData input) run = (Ok tt, final)
             /\ allResults final = allResults run /\ dataset final = dataset run
             /\ page (scraper final) = page (scraper run)
             /\ clock (scraper final) = clock (scraper run)).
  { assert (Hasin : forall asin run, exists run',
               processAsin scrape pushData input asin run = (Ok tt, run')
               /\ allResults run' = allResults run /\ dataset run' = dataset run
               /\ page (scraper run') = page (scraper run)
               /\ clock (scraper run') = clock (scraper run)).
    { intros asin run. unfold processAsin. rewrite Hnone.
      unfold bind, inScraper, logAt, ret. cbn -[String.append].
      eexists. repeat split. }
    induction todo as [|asin todo IH]; intros run.
    - exists run. repeat split.
    - cbn [forEach]. unfold bind at 1.
      destruct (Hasin asin run) as (run1 & -> & Hres1 & Hdata1 & Hpage1 & Hclock1).
      destruct (IH run1) as (final & -> & Hres & Hdata & Hpage & Hclock).
      exists final. repeat split; congruence. }
  destruct (Hloop (start st)) as (final & Hrun & Hres & Hdata & Hpage & Hclock).
  exists final. repeat split; assumption.
Qed.

Lemma unknown_selection_scrapes_nothing_witness :
  marketplacesToScrape Cases.overseas = []
  /\ exists final,
       scrapingLoop (ScraperMulti.scrapeAsinOnMarketplace Samples.online) Samples.accepting
         Cases.overseas (start Samples.idle) = (Ok tt, final)
       /\ allResults final = [] /\ dataset final = []
       /\ page (scraper final) = Samples.blankPage /\ clock (scraper final) = 0.
Proof.
  apply (unknown_selection_scrapes_nothing
           (ScraperMulti.scrapeAsinOnMarketplace Samples.online) Samples.accepting
           Cases.overseas Samples.idle).
  - discriminate.
  - intros c [<- | []]. cbn. intros H.
    repeat (destruct H as [H | H]; [discriminate H|]). exact H.
Defined.

End Selection.

(** ** The lines of the detail block *)
Section DetailLines.
Import Obj JS Profile Reading.

Lemma includes_char s (c : ascii) :
  includes s (String c EmptyString)
  = match s with
    | EmptyString => false
    | String a s' => Ascii.eqb c a || includes s' (String c EmptyString)
    end.
Proof.
  destruct s as [|a s']; [reflexivity|]. cbn [includes startsWith].
  destruct s'; now rewrite andb_true_r.
Qed.

Lemma includes_char_app s t (c : ascii) :
  includes (s ++ t) (String c EmptyString)
  = includes s (String c EmptyString) || includes t (String c EmptyString).
Proof.
  induction s as [|a s IH]; [reflexivity|].
  cbn [String.append]. rewrite (includes_char (String a (s ++ t))), (includes_char (String a s)), IH.
  now rewrite orb_assoc.
Qed.

(** [split] at the first separator. *)
Lemma splitChar_first sep label rest :
  includes label (String sep EmptyString) = false ->
  splitChar sep (label ++ String sep rest) = label :: splitChar sep rest.
Proof.
  induction label as [|a label IH]; intros Hno.
  - cbn [String.append splitChar]. now rewrite Ascii.eqb_refl.
  - rewrite includes_char in Hno. apply orb_false_elim in Hno as [Ha Hno].
    cbn [String.append splitChar]. rewrite Ascii.eqb_sym, Ha, (IH Hno). reflexivity.
Qed.

(** [split] and [join] with the same separator give the string back. *)
Lemma join_splitChar sep s : join (String sep EmptyString) (splitChar sep s) = s.
Proof.
  induction s as [|a s IH]; [reflexivity|]. cbn [splitChar].
  destruct (Ascii.eqb_spec a sep) as [-> | Hne].
  - destruct (splitChar sep s) as [|p ps] eqn:Hs; cbn [join] in *.
    + now subst s.
    + change (join (String sep EmptyString) (EmptyString :: p :: ps))
        with (String sep (join (String sep EmptyString) (p :: ps))).
      now rewrite IH.
  - destruct (splitChar sep s) as [|p ps] eqn:Hs; cbn [join] in *.
    + now subst s.
    + destruct ps as [|q qs]; cbn [String.append] in *; now rewrite <- IH.
Qed.

(** X16: a line of the detail block is read as label and value at its
    first colon: the label counts without the blanks around it and
    without regard to letter case, and the value is all that follows the
    first colon, further colons included, without the blanks around it
    (the no-break space is such a blank).  With a non-empty value the
    line sets the property of its label and nothing else, and a line
    with any other label changes nothing.  With an empty value the two
    address labels set their address to the lines that follow, up to the
    next line with a colon or with "This seller", joined by ", "; any
    other label changes nothing. *)
Theorem detail_line_label_and_value label rest following (result : Object) :
  includes label ":" = false ->
  parseLine (label ++ ":" ++ rest) following result
  = if truthy (trim rest) then
      match labelled (toLowerCase (trim label)) with
      | Some property => <[property := VStr (trim rest)]> result
      | None => result
      end
    else
      match addressLabelled (toLowerCase (trim label)) with
      | Some property => <[property := VStr (join ", " (addrLines following))]> result
      | None => result
      end.
Proof.
  intros Hlabel. unfold parseLine.
  change (label ++ ":" ++ rest)%string with (label ++ String ":" rest)%string.
  rewrite (includes_char_app label (String ":" rest) ":"), Hlabel.
  rewrite (includes_char (String ":" rest)). cbn [orb negb Ascii.eqb Bool.eqb].
  rewrite (splitChar_first ":" label rest Hlabel).
  rewrite (join_splitChar ":" rest).
  unfold labelled, addressLabelled.
  destruct (truthy (trim rest)).
  - repeat match goal with
           | |- context [String.eqb ?a ?b] => destruct (String.eqb a b); [reflexivity|]
           end.
    reflexivity.
  - destruct (String.eqb (toLowerCase (trim label)) "business address"); [reflexivity|].
    destruct (String.eqb (toLowerCase (trim label)) "customer services address");
      reflexivity.
Qed.

Lemma detail_line_label_and_value_witness :
  parseLine " E-Mail : mailto:office@acme.example " [] ∅ = ∅
  /\ parseLine " EMAIL : mailto:office@acme.example " [] ∅
     = {[ "email" := VStr "mailto:office@acme.example" ]}
  /\ parseLine ("Business Address:" ++ Samples.nbsp)
               ["12 High Street"; "London"; "VAT Number: GB1"; "Leeds"] ∅
     = {[ "businessAddress" := VStr "12 High Street, London" ]}
  /\ parseLine ("VAT" ++ Samples.nbsp ++ "Number:" ++ Samples.nbsp) ["GB1"] ∅ = ∅.
Proof.
  split; [|split; [|split]].
  - exact (detail_line_label_and_value " E-Mail " " mailto:office@acme.example " [] ∅
             eq_refl).
  - exact (detail_line_label_and_value " EMAIL " " mailto:office@acme.example " [] ∅
             eq_refl).
  - exact (detail_line_label_and_value "Business Address" Samples.nbsp
             ["12 High Street"; "London"; "VAT Number: GB1"; "Leeds"] ∅ eq_refl).
  - exact (detail_line_label_and_value ("VAT" ++ Samples.nbsp ++ "Number") Samples.nbsp
             ["GB1"] ∅ eq_refl).
Defined.

Lemma parseLine_frame line following (result : Object) k :
  ~ In k parsed -> parseLine line following result !! k = result !! k.
Proof.
  intros Hk. unfold parseLine.
  destruct (negb (includes line ":")); [reflexivity|].
  destruct (splitChar ":" line) as [|rawKey rest]; [reflexivity|].
  repeat match goal with
         | |- context [if ?c then _ else _] => destruct c
         end;
    try reflexivity;
    (apply lookup_insert_ne; intros <-; apply Hk; unfold parsed; cbn [In]; tauto).
Qed.

Lemma parseLines_frame lines (result : Object) k :
  ~ In k parsed -> parseLines lines result !! k = result !! k.
Proof.
  intros Hk. revert result. induction lines as [|line following IH]; intros result;
    [reflexivity|].
  cbn [parseLines]. rewrite IH. now apply parseLine_frame.
Qed.

(** X17: the loop over the lines of the detail block writes the eight
    business properties only: any other property of the profile, such
    as the display name, the rating or [hasDetailedInfo], is after the
    loop what it was before, whatever the lines say. *)
Theorem detail_block_writes_business_properties_only lines (result : Object) k :
  ~ In k parsed -> parseLines lines result !! k = result !! k.
Proof.
  intros Hk. destruct lines as [|line following]; [reflexivity|].
  cbn [parseLines]. rewrite parseLines_frame by exact Hk. now apply parseLine_frame.
Qed.

Lemma detail_block_writes_business_properties_only_witness :
  parseLines ["hasDetailedInfo: no"; "Rating: 1"; "Phone number: 030 222"]
             {[ "hasDetailedInfo" := VBool true ]} !! "hasDetailedInfo"
  = Some (VBool true).
Proof.
  refine (detail_block_writes_business_properties_only
            ["hasDetailedInfo: no"; "Rating: 1"; "Phone number: 030 222"]
            {[ "hasDetailedInfo" := VBool true ]} "hasDetailedInfo" _).
  unfold parsed. cbn [In]. intros H.
  repeat (destruct H as [H | H]; [discriminate H|]). exact H.
Defined.

End DetailLines.

(** ** The text of the detail block *)
Section BlockText.
Import Obj JS Profile.

Lemma splitChar_pieces sep s piece :
  In piece (splitChar sep s) -> includes piece (String sep EmptyString) = false.
Proof.
  revert piece. induction s as [|a s IH]; intros piece; cbn [splitChar].
  - intros [<- | []]. reflexivity.
  - destruct (Ascii.eqb_spec a sep) as [-> | Hne].
    + intros [<- | Hin]; [reflexivity | now apply IH].
    + destruct (splitChar sep s) as [|p ps] eqn:Hs.
      * intros [<- | []]. rewrite includes_char, includes_char. cbn [orb].
        rewrite orb_false_r. apply Ascii.eqb_neq. congruence.
      * intros [<- | Hin].
        -- rewrite includes_char, (IH p (or_introl eq_refl)), orb_false_r.
           apply Ascii.eqb_neq. congruence.
        -- apply IH. now right.
Qed.

Lemma trimStart_keeps_out s (c : ascii) :
  includes s (String c EmptyString) = false ->
  includes (trimStart s) (String c EmptyString) = false.
Proof.
  destruct (trimStart_split s) as (w & Hsplit & _). intros Hno.
  rewrite Hsplit, includes_char_app in Hno. now apply orb_false_elim in Hno as [_ Hno].
Qed.

Lemma trimEnd_keeps_out s (c : ascii) :
  includes s (String c EmptyString) = false ->
  includes (trimEnd s) (String c EmptyString) = false.
Proof.
  destruct (trimEnd_split s) as (w & Hsplit & _). intros Hno.
  rewrite Hsplit, includes_char_app in Hno. now apply orb_false_elim in Hno as [Hno _].
Qed.

(** X18: the lines that the parser of the detail block works on: each
    is a line of the block's text without the blanks around it; none is
    empty, none begins or ends with a blank, and none holds a line
    break. *)
Theorem detail_lines_are_trimmed allText line :
  In line (textLines allText) ->
  line <> ""
  /\ trim line = line
  /\ includes line (String Regex.newline EmptyString) = false
  /\ exists raw, In raw (splitChar Regex.newline allText) /\ line = trim raw.
Proof.
  unfold textLines. intros Hin. apply List.filter_In in Hin as [Hin Hne].
  apply in_map_iff in Hin as (raw & <- & Hraw).
  split; [now apply truthy_nonempty|]. split; [apply trim_idempotent|].
  split; [|eauto].
  unfold trim. apply trimEnd_keeps_out, trimStart_keeps_out.
  now apply (splitChar_pieces Regex.newline allText).
Qed.

Lemma detail_lines_are_trimmed_witness :
  let line := "Phone number: 030 222" in
  line <> ""
  /\ trim line = line
  /\ includes line (String Regex.newline EmptyString) = false
  /\ exists raw,
       In raw (splitChar Regex.newline
                 ("Business Name: Acme GmbH" ++ Samples.nl ++ "   " ++ Samples.nl
                    ++ "  Phone number: 030 222 ")%string)
       /\ line = trim raw.
Proof.
  apply (detail_lines_are_trimmed
           ("Business Name: Acme GmbH" ++ Samples.nl ++ "   " ++ Samples.nl
              ++ "  Phone number: 030 222 ")%string).
  vm_compute. right. left. reflexivity.
Defined.

End BlockText.

(** ** When the in-page code returns *)
Section InPage.
Import Obj Eff Profile.

(** X19: on a document with a body the in-page code of every scraper
    returns a profile and does not throw; the profile holds
    [hasDetailedInfo], true exactly when some h3 heading contains
    "Detailed Seller Information", and [sellerDisplayName], the trimmed
    text of the first h1 or [null] without h1. *)
Theorem profile_returned_with_body inPage d text :
  inPage = sellerInfoInPage \/ inPage = sellerInfoInPageAod ->
  Dom.body d = Some text ->
  exists info,
    inPage d = Ok info
    /\ info !! "hasDetailedInfo"
       = Some (VBool (match List.find isDetailHeading (Dom.h3 d) with
                      | Some _ => true
                      | None => false
                      end))
    /\ info !! "sellerDisplayName"
       = Some (ofOption (fun t => VStr (JS.trim t)) (Dom.h1 d)).
Proof.
  intros Hwhich Hbody.
  assert (Hflag : ~ In "hasDetailedInfo" Reading.parsed)
    by (unfold Reading.parsed; cbn [In]; intuition discriminate).
  assert (Hdisplay : ~ In "sellerDisplayName" Reading.parsed)
    by (unfold Reading.parsed; cbn [In]; intuition discriminate).
  destruct Hwhich as [-> | ->]; unfold sellerInfoInPage, sellerInfoInPageAod, bodyText;
    rewrite Hbody;
    match goal with
    | |- context [<["hasDetailedInfo" := VBool false]> ?r] => set (rated := r)
    end;
    (assert (Hname : rated !! "sellerDisplayName"
                     = Some (ofOption (fun t => VStr (JS.trim t)) (Dom.h1 d)));
     [subst rated; unfold ratingProps;
      repeat match goal with
             | |- context [match ?x with _ => _ end] => destruct x
             end;
      now rewrite ?lookup_insert_ne, lookup_insert_eq by discriminate|]);
    clearbody rated;
    (destruct (List.find isDetailHeading (Dom.h3 d)) as [h|];
     [destruct (Dom.container h) as [allText|];
      [destruct (Regex.search csPhonePattern text) as [m|]; [destruct (falsy _)|]|]
     |try destruct (Regex.search csPhonePattern text) as [m|]]);
    eexists; (split; [reflexivity|]); split;
    repeat first [ rewrite lookup_insert_ne by discriminate
                 | rewrite parseLines_frame by assumption ];
    first [apply lookup_insert_eq | exact Hname].
Qed.

Lemma profile_returned_with_body_witness :
  exists info,
    sellerInfoInPage Samples.fullProfile = Ok info
    /\ info !! "hasDetailedInfo" = Some (VBool true)
    /\ info !! "sellerDisplayName" = Some (VStr "Acme Trading").
Proof.
  exact (profile_returned_with_body sellerInfoInPage Samples.fullProfile _
           (or_introl eq_refl) eq_refl).
Defined.

End InPage.

(** ** First-party names, once more *)
Section ContainsAmazon.
Import JS Constants.

Lemma startsWith_prefix p post : startsWith (p ++ post) p = true.
Proof.
  induction p as [|a p IH]; [now destruct post|].
  cbn [String.append startsWith]. now rewrite Ascii.eqb_refl, IH.
Qed.

Lemma startsWith_split s p : startsWith s p = true -> exists post, s = (p ++ post)%string.
Proof.
  revert s. induction p as [|a p IH]; intros s H.
  - now exists s.
  - destruct s as [|b s]; [discriminate|]. cbn [startsWith] in H.
    apply andb_prop in H as [Hab Hp]. apply Ascii.eqb_eq in Hab. subst b.
    destruct (IH s Hp) as [post ->]. now exists post.
Qed.

Lemma includes_split s sub :
  includes s sub = true <-> exists pre post, s = (pre ++ sub ++ post)%string.
Proof.
  split.
  - induction s as [|a s IH]; cbn [includes]; intros H.
    + rewrite orb_false_r in H. apply startsWith_split in H as [post ->].
      now exists EmptyString, post.
    + apply orb_prop in H as [H | H].
      * apply startsWith_split in H as [post ->]. now exists EmptyString, post.
      * destruct (IH H) as (pre & post & ->). now exists (String a pre), post.
  - intros (pre & post & ->). induction pre as [|a pre IH].
    + cbn [String.append]. destruct (sub ++ post)%string eqn:Heq; cbn [includes];
        rewrite <- Heq, startsWith_prefix; reflexivity.
    + cbn [String.append includes]. rewrite IH. apply orb_true_r.
Qed.

Lemma string_app_assoc (a b c : string) : ((a ++ b) ++ c = a ++ b ++ c)%string.
Proof. induction a as [|x a IH]; [reflexivity|]. cbn [String.append]. now rewrite IH. Qed.

Lemma includes_trans a b c :
  includes a b = true -> includes b c = true -> includes a c = true.
Proof.
  rewrite !includes_split. intros (p1 & q1 & ->) (p2 & q2 & ->).
  exists (p1 ++ p2)%string, (q2 ++ q1)%string.
  now rewrite !string_app_assoc.
Qed.

Lemma names_contain_amazon entry :
  In entry AMAZON_SELLER_NAMES -> includes entry "amazon" = true.
Proof.
  unfold AMAZON_SELLER_NAMES. cbn [In].
  intros H; repeat (destruct H as [<- | H]; [reflexivity|]); destruct H.
Qed.

(** X20: for the containment of a listed name the list is no more than
    its first entry: a non-empty name is taken for Amazon's exactly when
    its normal form (lower case, without the white space of the language
    around it) contains "amazon" anywhere or is itself part of a listed
    name.  So a third-party seller whose name merely contains "amazon"
    is dropped with the first-party offers. *)
Theorem isAmazonSeller_contains_amazon s :
  isEmpty s = false ->
  let normalized := trim (toLowerCase s) in
  isAmazonSeller (Some s) = true
  <-> includes normalized "amazon" = true
      \/ exists entry, In entry AMAZON_SELLER_NAMES /\ includes entry normalized = true.
Proof.
  intros Hne normalized. rewrite (isAmazonSeller_nonempty _ Hne). fold normalized.
  rewrite existsb_exists. split.
  - intros (entry & Hin & H). apply orb_prop in H as [H | H].
    + left. exact (includes_trans _ _ _ H (names_contain_amazon entry Hin)).
    + right. eauto.
  - intros [H | (entry & Hin & H)].
    + exists "amazon"%string. split; [now left|]. now rewrite H.
    + exists entry. split; [exact Hin|]. rewrite H. apply orb_true_r.
Qed.

Lemma isAmazonSeller_contains_amazon_witness :
  (isAmazonSeller (Some "Amazonas Trading Ltd"%string) = true
   <-> includes "amazonas trading ltd" "amazon" = true
       \/ exists entry, In entry AMAZON_SELLER_NAMES
                        /\ includes entry "amazonas trading ltd" = true)
  /\ (isAmazonSeller (Some Samples.nbsp) = true
      <-> includes "" "amazon" = true
          \/ exists entry, In entry AMAZON_SELLER_NAMES /\ includes entry "" = true)
  /\ (isAmazonSeller (Some (Samples.ideographicSpace ++ "U" ++ Samples.kelvin)%string) = true
      <-> includes "uk" "amazon" = true
          \/ exists entry, In entry AMAZON_SELLER_NAMES /\ includes entry "uk" = true).
Proof.
  split; [|split].
  - exact (isAmazonSeller_contains_amazon "Amazonas Trading Ltd" eq_refl).
  - exact (isAmazonSeller_contains_amazon Samples.nbsp eq_refl).
  - exact (isAmazonSeller_contains_amazon
             (Samples.ideographicSpace ++ "U" ++ Samples.kelvin)%string eq_refl).
Defined.

End ContainsAmazon.

(** ** Which strategy a seller is attributed to *)
Section Attribution.
Import Scraper Eff.
Context (b : Browser).

Lemma viaLink_candidates d a c :
  In a (Dom.anchors d) ->
  Dom.hrefContains "/gp/aag/main" a = true ->
  DiscoverySpec.viaLink b "aag" a = Some c ->
  exists rest,
    DiscoverySpec.candidates b d
    = omap (DiscoverySpec.viaLink b "aag")
           (List.filter (Dom.hrefContains "/gp/aag/main") (Dom.anchors d)) ++ rest
    /\ In c (omap (DiscoverySpec.viaLink b "aag")
                  (List.filter (Dom.hrefContains "/gp/aag/main") (Dom.anchors d))).
Proof.
  intros Ha Hsel Hc. eexists. split; [reflexivity|].
  assert (Hin : In a (List.filter (Dom.hrefContains "/gp/aag/main") (Dom.anchors d)))
    by (apply List.filter_In; auto).
  revert Hin. generalize (List.filter (Dom.hrefContains "/gp/aag/main") (Dom.anchors d)).
  intros l. induction l as [|x l IH]; [intros []|].
  intros [-> | Hin]; cbn [omap list_omap].
  - rewrite Hc. now left.
  - destruct (DiscoverySpec.viaLink b "aag" x); [right|]; auto.
Qed.

(** X21: the storefront link wins the attribution.  When a link to
    "/gp/aag/main" with a non-empty text carries a seller id, the seller
    that the multi-strategy scraper returns under that id has strategy
    "aag", however many other links and "Sold by" labels name the same
    seller. *)
Theorem storefront_link_wins_attribution asin m st sellers d a id s :
  fst (ScraperMulti.extractAllSellers b asin m st) = Ok sellers ->
  document (snd (navigate b (ScraperMulti.offerUrl asin m) (page st))) = Ok d ->
  In a (Dom.anchors d) ->
  Dom.hrefContains "/gp/aag/main" a = true ->
  ScraperMulti.extractSellerId b (Dom.href a) = Some id ->
  id <> "" ->
  JS.trim (Dom.textContent a) <> "" ->
  In s sellers -> sellerId s = id ->
  strategy s = Some "aag".
Proof.
  intros Hrun Hd Ha Hsel Hid Hne Hname Hs Hsid.
  destruct (multi_sellers_first b asin m st sellers Hrun) as (_ & _ & Hfrom).
  destruct (Hfrom s Hs) as (d' & pre & post & Hd' & Hsplit & Hfirst).
  cbv zeta in Hd'. rewrite Hd in Hd'. injection Hd' as <-.
  assert (Hc : exists c, DiscoverySpec.viaLink b "aag" a = Some c /\ sellerId c = id).
  { unfold DiscoverySpec.viaLink, DiscoverySpec.candidate. rewrite Hid.
    destruct id as [|x id]; [contradiction|].
    destruct (JS.trim (Dom.textContent a)) as [|y t]; [contradiction|].
    eexists. split; reflexivity. }
  destruct Hc as (c & Hc & Hcid).
  destruct (viaLink_candidates d a c Ha Hsel Hc) as (rest & Hcands & Hin).
  rewrite Hcands in Hsplit.
  apply app_eq_app in Hsplit as [l [[Hfront Hback] | [Hfront Hback]]].
  - destruct l as [|x l].
    + rewrite app_nil_r in Hfront. rewrite Hfront in Hin.
      exfalso. apply (Hfirst c Hin). congruence.
    + injection Hback as <- _.
      assert (Hs' : In s (omap (DiscoverySpec.viaLink b "aag")
                            (List.filter (Dom.hrefContains "/gp/aag/main") (Dom.anchors d)))).
      { rewrite Hfront. apply in_or_app. right. now left. }
      apply In_omap in Hs' as (a' & _ & Hvia).
      now apply candidate_sound in Hvia.
  - exfalso. apply (Hfirst c); [|congruence].
    rewrite Hfront. apply in_or_app. now left.
Qed.

End Attribution.

Section AttributionCases.
Import Scraper Eff.

Lemma storefront_link_wins_attribution_witness :
  let sellers :=
    [ {| name := "Acme"; sellerId := "A1XYZ";
         sellerHref := "https://www.amazon.de/gp/aag/main?seller=A1XYZ&ref=1";
         strategy := Some "aag" |};
      {| name := "Bolt GmbH"; sellerId := "B2QRS";
         sellerHref := "https://www.amazon.de/gp/aag/main?seller=B2QRS";
         strategy := Some "aag" |} ] in
  fst (ScraperMulti.extractAllSellers Samples.online "B07YDVWL4J" Samples.de Samples.idle)
  = Ok sellers
  /\ forall s, In s sellers -> sellerId s = "A1XYZ" -> strategy s = Some "aag".
Proof.
  split; [reflexivity|]. intros s Hs Hid.
  refine (storefront_link_wins_attribution Samples.online "B07YDVWL4J" Samples.de Samples.idle
            _ Samples.repeatedSeller
            (Samples.link "https://www.amazon.de/gp/aag/main?seller=A1XYZ&ref=2"
                          "Acme Trading Ltd" "" "Acme Trading Ltd")
            "A1XYZ" s eq_refl eq_refl _ eq_refl eq_refl _ _ Hs Hid).
  - right. right. left. reflexivity.
  - discriminate.
  - discriminate.
Defined.

End AttributionCases.

(** ** The product-page flow *)
Section ProductPageFlow.
Import Obj Eff ScraperAodFlow.
Context (site : Site).

Ltac steps :=
  unfold bind, getPage, lift, logAt, delay, tryCatch, ret, goto, clickIngress;
  cbn -[String.append].

Lemma extractProductPageInfo_returns st :
  exists info st',
    extractProductPageInfo site st = (Ok info, st')
    /\ page st' = page st /\ clock st' = clock st
    /\ messages Warning st' = messages Warning st
    /\ primarySeller info = match readPrimary (view site (page st)) with
                            | Ok found => Some found
                            | Throw _ => None
                            end
    /\ hasOtherSellers info = match otherSellersBox (view site (page st)) with
                              | Ok _ => true
                              | Throw _ => false
                              end.
Proof.
  unfold extractProductPageInfo. steps.
  destruct (readPrimary (view site (page st))) as [found|e]; steps;
    [|destruct (merchantInfo (view site (page st))) as [t|e']; steps];
    (destruct (otherSellersBox (view site (page st))) as [t'|e'']; steps);
    eexists _, _; (split; [reflexivity|]); cbn [page clock primarySeller hasOtherSellers fst];
    repeat split;
    unfold messages; cbn [log]; rewrite !List.filter_app, !List.map_app; cbn;
    now rewrite !app_nil_r.
Qed.

Lemma extractSellersFromAOD_returns st :
  exists st',
    extractSellersFromAOD site st
    = (Ok match Reading.panel site (page st) with
          | Ok offers => Scraper.uniqueBySellerId (sellersInOffers site offers)
          | Throw _ => []
          end, st')
    /\ page st' = snd (click site (page st))
    /\ clock st <= clock st'
    /\ match Reading.panel site (page st) with
       | Ok _ => messages Warning st' = messages Warning st
       | Throw e => In ("  Failed to extract sellers from AOD: " ++ e)%string
                       (messages Warning st')
       end.
Proof.
  unfold extractSellersFromAOD, Reading.panel. steps.
  destruct (click site (page st)) as [[[]|e] p]; steps;
    [|eexists; (split; [reflexivity|]); cbn [page clock]; repeat split;
      [lia | apply messages_last]].
  destruct (offerListShown (view site p)) as [[]|e]; steps;
    [|eexists; (split; [reflexivity|]); cbn [page clock]; repeat split;
      [lia | apply messages_last]].
  destruct (offerLinks (view site p)) as [offers|e]; steps;
    eexists; (split; [reflexivity|]); cbn [page clock]; repeat split;
    [lia | | lia | apply messages_last].
  unfold messages. cbn [log]. rewrite !List.filter_app, !List.map_app. cbn.
  now rewrite !app_nil_r.
Qed.

Lemma sellersInOffers_sound offers s :
  In s (sellersInOffers site offers) ->
  Scraper.name s <> "" /\ Scraper.sellerId s <> ""
  /\ exists link,
       In (Some link) offers
       /\ Scraper.name s = JS.trim (Dom.textContent link)
       /\ Scraper.sellerHref s = Dom.href link.
Proof.
  unfold sellersInOffers. intros Hs. apply in_flat_map in Hs as ([link|] & Hoffer & Hs);
    [|destruct Hs].
  destruct (ScraperInline.linkSellerId (browser site) (Dom.href link)) as [id|]; [|destruct Hs].
  destruct (JS.truthy (JS.trim (Dom.textContent link))) eqn:Hn; [|destruct Hs].
  destruct (JS.truthy id) eqn:Hid; [|destruct Hs].
  destruct Hs as [<- | []]. cbn. eauto 10 using truthy_nonempty.
Qed.

Lemma NoDup_snoc {A} (l : list A) x : List.NoDup l -> ~ In x l -> List.NoDup (l ++ [x]).
Proof.
  induction l as [|a l IH]; intros Hnd Hx; cbn [app].
  - constructor; [intros [] | constructor].
  - apply NoDup_cons_iff in Hnd as [Ha Hl]. constructor.
    + rewrite in_app_iff. intros [H | [-> | []]]; [auto | apply Hx; now left].
    + apply IH; [exact Hl | intros H; apply Hx; now right].
Qed.

Lemma sameId_eq a c : sameId a c = true <-> a = c.
Proof.
  destruct a as [x|], c as [y|]; cbn; try (split; [discriminate | congruence]);
    [|tauto].
  rewrite String.eqb_eq. split; congruence.
Qed.

Lemma addOthers_returns skip aod acc st :
  exists added st',
    addOthers skip aod acc st = (Ok (acc ++ added), st')
    /\ page st' = page st /\ clock st' = clock st
    /\ messages Warning st' = messages Warning st
    /\ (List.NoDup (List.map sellerId acc) ->
        List.NoDup (List.map sellerId (acc ++ added)))
    /\ forall s, In s added ->
         exists seller,
           In seller aod /\ s = ofSeller seller
           /\ (skip = true -> isAmazonSeller (Some (Scraper.name seller)) = false).
Proof.
  revert acc st. induction aod as [|seller rest IH]; intros acc st; cbn [addOthers].
  - exists [], st. rewrite app_nil_r. repeat split; [auto | intros s []].
  - destruct (skip && isAmazonSeller (Some (Scraper.name seller))) eqn:Hskip.
    + unfold bind at 1. unfold logAt at 1. cbv beta iota.
      match goal with |- context [addOthers skip rest acc ?st0] =>
        destruct (IH acc st0) as (added & st' & -> & Hp & Hc & Hw & Hnd & Hfrom) end.
      exists added, st'. split; [reflexivity|]. cbn [page clock] in *.
      repeat split; try assumption.
      * rewrite Hw. unfold messages. cbn [log].
        rewrite List.filter_app, List.map_app. cbn. now rewrite app_nil_r.
      * intros s Hs. destruct (Hfrom s Hs) as (x & Hx & Heq & Hnox).
        exists x. split; [now right | auto].
    + assert (Hno : skip = true -> isAmazonSeller (Some (Scraper.name seller)) = false).
      { intros ->. exact Hskip. }
      destruct (existsb _ acc) eqn:Hknown.
      * destruct (IH acc st) as (added & st' & -> & Hp & Hc & Hw & Hnd & Hfrom).
        exists added, st'. repeat split; try assumption.
        intros s Hs. destruct (Hfrom s Hs) as (x & Hx & Heq & Hnox).
        exists x. split; [now right | auto].
      * destruct (IH (acc ++ [ofSeller seller]) st)
          as (added & st' & -> & Hp & Hc & Hw & Hnd & Hfrom).
        exists (ofSeller seller :: added), st'. rewrite <- app_assoc. cbn [app].
        repeat split; try assumption.
        -- intros Hacc. rewrite (app_assoc acc [ofSeller seller] added : acc ++ ofSeller seller :: added = _).
           apply Hnd. rewrite List.map_app. cbn [List.map]. apply NoDup_snoc; [exact Hacc|].
           intros Hin. apply in_map_iff in Hin as (s0 & Hid & Hs0).
           assert (Hex : existsb (fun s => sameId (sellerId s) (Some (Scraper.sellerId seller)))
                                 acc = true).
           { apply existsb_exists. exists s0. split; [exact Hs0|]. now apply sameId_eq. }
           congruence.
        -- intros s [<- | Hs].
           ++ exists seller. split; [now left | auto].
           ++ destruct (Hfrom s Hs) as (x & Hx & Heq & Hnox).
              exists x. split; [now right | auto].
Qed.

Lemma uniqueBySellerId_In l s : In s (Scraper.uniqueBySellerId l) -> In s l.
Proof.
  intros Hs. apply uniqueBySellerId_last in Hs as (pre & post & -> & _).
  apply in_or_app. right. now left.
Qed.

(** X22: [extractSellersFromAOD] never throws.  When the click on the
    "other sellers" link, the wait for the offer list or the evaluation
    of the offer blocks is rejected, it returns no sellers and logs the
    message of the rejection as a warning; otherwise it returns sellers
    with pairwise different ids, each with a non-empty name and id, read
    from the seller link of an offer block. *)
Theorem panel_extraction_never_throws st :
  exists sellers st',
    extractSellersFromAOD site st = (Ok sellers, st')
    /\ List.NoDup (List.map Scraper.sellerId sellers)
    /\ (forall s, In s sellers ->
          Scraper.name s <> "" /\ Scraper.sellerId s <> ""
          /\ exists offers link,
               Reading.panel site (page st) = Ok offers /\ In (Some link) offers
               /\ Scraper.name s = JS.trim (Dom.textContent link)
               /\ Scraper.sellerHref s = Dom.href link)
    /\ (forall e, Reading.panel site (page st) = Throw e ->
          sellers = []
          /\ In ("  Failed to extract sellers from AOD: " ++ e)%string (messages Warning st')).
Proof.
  destruct (extractSellersFromAOD_returns st) as (st' & Hrun & _ & _ & Hlog).
  eexists _, st'. split; [exact Hrun|].
  destruct (Reading.panel site (page st)) as [offers|e].
  - split; [apply uniqueBySellerId_NoDup|]. split; [|discriminate].
    intros s Hs. apply uniqueBySellerId_In, sellersInOffers_sound in Hs
      as (Hn & Hid & link & Hlink & Hname & Hhref).
    eauto 10.
  - split; [constructor|]. split; [intros s []|].
    intros e' [= <-]. split; [reflexivity | exact Hlog].
Qed.

Lemma collectSellers_returns options st :
  let v := view site (page st) in
  let kept := match readPrimary v with
              | Ok primary =>
                  if Scraper.skipAmazonSellers options && isAmazonSeller (Some (name primary))
                  then []
                  else [primary]
              | Throw _ => []
              end in
  exists added st',
    collectSellers site options st = (Ok (kept ++ added), st')
    /\ List.NoDup (List.map sellerId (kept ++ added))
    /\ (forall s, In s added ->
          exists seller,
            s = ofSeller seller
            /\ Scraper.name seller <> "" /\ Scraper.sellerId seller <> ""
            /\ (Scraper.skipAmazonSellers options = true ->
                isAmazonSeller (Some (Scraper.name seller)) = false))
    /\ clock st <= clock st'
    /\ match otherSellersBox v with
       | Throw _ => added = [] /\ page st' = page st /\ clock st' = clock st
       | Ok _ => page st' = snd (click site (page st))
       end.
Proof.
  intros v kept. unfold collectSellers. unfold bind at 1.
  destruct (extractProductPageInfo_returns st)
    as (info & st1 & -> & Hp1 & Hc1 & _ & Hprimary & Hbox).
  fold v in Hprimary, Hbox.
  assert (Hkept : exists st2,
             match primarySeller info with
             | Some primary =>
                 if Scraper.skipAmazonSellers options && isAmazonSeller (Some (name primary))
                 then bind (logAt Info ("  Skipping primary seller (Amazon): " ++ name primary))
                           (fun _ => ret [])
                 else ret [primary]
             | None => ret []
             end st1 = (Ok kept, st2)
             /\ page st2 = page st /\ clock st2 = clock st
             /\ List.NoDup (List.map sellerId kept)).
  { subst kept. rewrite Hprimary. destruct (readPrimary v) as [primary|e].
    - destruct (_ && _).
      + unfold bind, logAt, ret. cbn -[String.append]. eexists. repeat split; try assumption.
        constructor.
      + exists st1. repeat split; try assumption. repeat constructor. intros [].
    - exists st1. repeat split; try assumption. constructor. }
  destruct Hkept as (st2 & Hkept & Hp2 & Hc2 & Hnd).
  unfold bind at 1. rewrite Hkept. rewrite Hbox.
  destruct (otherSellersBox v) as [t|e].
  - unfold bind at 1.
    destruct (extractSellersFromAOD_returns st2) as (st3 & -> & Hp3 & Hc3 & _).
    match goal with |- context [addOthers _ ?aod kept st3] =>
      destruct (addOthers_returns (Scraper.skipAmazonSellers options) aod kept st3)
        as (added & st' & -> & Hp & Hc & _ & Hnd' & Hfrom)
    end.
    exists added, st'. split; [reflexivity|]. split; [auto|].
    split; [|split; [lia | congruence]].
    intros s Hs. destruct (Hfrom s Hs) as (seller & Hseller & -> & Hno).
    exists seller. split; [reflexivity|].
    destruct (Reading.panel site (page st2)) as [offers|e']; [|destruct Hseller].
    apply uniqueBySellerId_In, sellersInOffers_sound in Hseller as (Hn & Hid & _).
    auto.
  - exists [], st2. rewrite app_nil_r. split; [reflexivity|]. split; [exact Hnd|].
    split; [intros s []|]. split; [lia | auto].
Qed.

(** X23: the sellers that the product-page scraper sets out to visit.
    Steps 1 and 2 never throw; the sellers they collect have pairwise
    different ids; the primary seller, when the page names one and it is
    not skipped as Amazon's, comes first; every other seller comes from
    the offers panel with a non-empty name and id; and with
    [skipAmazonSellers] no collected seller has a name that
    [isAmazonSeller] accepts. *)
Theorem sellers_to_visit_of_product_page options st :
  exists found st',
    collectSellers site options st = (Ok found, st')
    /\ List.NoDup (List.map sellerId found)
    /\ (forall primary,
          readPrimary (view site (page st)) = Ok primary ->
          Scraper.skipAmazonSellers options && isAmazonSeller (Some (name primary)) = false ->
          hd_error found = Some primary)
    /\ (forall s, In s found ->
          readPrimary (view site (page st)) = Ok s
          \/ exists i, sellerId s = Some i /\ i <> "" /\ name s <> "")
    /\ (Scraper.skipAmazonSellers options = true ->
        forall s, In s found -> isAmazonSeller (Some (name s)) = false).
Proof.
  destruct (collectSellers_returns options st) as (added & st' & Hrun & Hnd & Hfrom & _).
  cbv zeta in Hrun, Hnd. eexists _, st'. split; [exact Hrun|]. split; [exact Hnd|].
  split; [|split].
  - intros primary Hp Hkeep. rewrite Hp, Hkeep. reflexivity.
  - intros s Hs. apply in_app_or in Hs as [Hs | Hs].
    + left. destruct (readPrimary (view site (page st))) as [primary|e]; [|destruct Hs].
      destruct (_ && _); [destruct Hs|]. destruct Hs as [<- | []]. reflexivity.
    + right. destruct (Hfrom s Hs) as (seller & -> & Hn & Hid & _).
      exists (Scraper.sellerId seller). auto.
  - intros Hskip s Hs. apply in_app_or in Hs as [Hs | Hs].
    + destruct (readPrimary (view site (page st))) as [primary|e]; [|destruct Hs].
      rewrite Hskip in Hs. cbn [andb] in Hs.
      destruct (isAmazonSeller (Some (name primary))) eqn:Ha; [destruct Hs|].
      destruct Hs as [<- | []]. exact Ha.
    + destruct (Hfrom s Hs) as (seller & -> & _ & _ & Hno). exact (Hno Hskip).
Qed.

(** X24: the offers panel is opened for the "other sellers" box alone.
    Without the box nothing is clicked: steps 1 and 2 leave the page and
    the waiting time as they were and collect the primary seller at
    most.  With the box the link is clicked whatever count the box
    shows, and the page is the one that the click left. *)
Theorem panel_opened_with_the_box_only options st :
  exists found st',
    collectSellers site options st = (Ok found, st')
    /\ match otherSellersBox (view site (page st)) with
       | Throw _ => page st' = page st /\ clock st' = clock st /\ length found <= 1
       | Ok _ => page st' = snd (click site (page st))
       end.
Proof.
  destruct (collectSellers_returns options st) as (added & st' & Hrun & _ & _ & _ & Hbox).
  cbv zeta in Hrun, Hbox. eexists _, st'. split; [exact Hrun|].
  destruct (otherSellersBox (view site (page st))) as [t|e]; [exact Hbox|].
  destruct Hbox as (-> & Hp & Hc). rewrite app_nil_r. repeat split; try assumption.
  destruct (readPrimary (view site (page st))) as [primary|e']; [|cbn; lia].
  destruct (_ && _); cbn; lia.
Qed.

Lemma visitFound_returns asin m o sellers :
  forall results st,
  exists visited st',
    visitFound site asin m o sellers results st = (Ok (results ++ visited), st')
    /\ length visited = length sellers.
Proof.
  induction sellers as [|seller rest IH]; intros results st; cbn [visitFound].
  - exists [], st. unfold ret. now rewrite app_nil_r.
  - unfold bind at 1. unfold delay at 1. cbv beta iota. unfold bind at 1.
    match goal with |- context [ScraperAod.extractSellerInfo ?b ?u ?s] =>
      destruct (extractSellerInfoWith_returns b Profile.sellerInfoInPageAod "    Seller: "
                  (fun sellerUrl err =>
                     "    Failed to extract seller info from " ++ sellerUrl ++ ": " ++ err)%string
                  u s) as (info & st1 & Hinfo) end.
    unfold ScraperAod.extractSellerInfo. rewrite Hinfo.
    unfold bind at 1. unfold now at 1. cbv beta iota.
    match goal with |- context [visitFound _ _ _ _ _ ?r ?s] =>
      destruct (IH r s) as (visited & st2 & -> & Hlen) end.
    eexists (_ :: visited), st2. rewrite <- app_assoc. cbn [app length].
    split; [reflexivity | now rewrite Hlen].
Qed.

(** X25: the two early exits of the product-page scraper.  When the
    navigation to the product page is rejected, [scrapeAsinOnMarketplace]
    returns no record, logs the warning "Failed to load product page"
    with the message and has not waited; when the page it lands on has a
    title with "Page Not Found", "404" or "Sorry", it returns no record
    after its 2 s wait and logs that the product was not found.  In both
    cases the page is as the navigation left it: no selector was read
    and nothing was clicked. *)
Theorem product_page_early_exits asin m o st :
  let nav := navigate (browser site) (productUrl asin m) (page st) in
  (forall e,
      fst nav = Throw e ->
      exists st',
        scrapeAsinOnMarketplace site asin m o st = (Ok [], st')
        /\ page st' = snd nav /\ clock st' = clock st
        /\ In (("[" ++ Constants.code m ++ "] ") ++ "Failed to load product page: " ++ e)%string
              (messages Warning st'))
  /\ (forall t,
         fst nav = Ok tt -> title (snd nav) = Ok t -> Scraper.notFoundTitle t = true ->
         exists st',
           scrapeAsinOnMarketplace site asin m o st = (Ok [], st')
           /\ page st' = snd nav /\ clock st' = clock st + 2000
           /\ In (("[" ++ Constants.code m ++ "] ")
                   ++ "Product not found on this marketplace")%string
                 (messages Info st')).
Proof.
  intros nav. subst nav. split.
  - intros e Hnav. unfold scrapeAsinOnMarketplace. steps.
    destruct (navigate (browser site) (productUrl asin m) (page st)) as [r p].
    cbn [fst snd] in *. subst r. steps. eexists. split; [reflexivity|].
    cbn [page clock]. repeat split. apply messages_last.
  - intros t Hnav Ht Hnf. unfold scrapeAsinOnMarketplace. steps.
    destruct (navigate (browser site) (productUrl asin m) (page st)) as [r p].
    cbn [fst snd] in *. subst r. steps. rewrite Ht. steps. rewrite Hnf. steps.
    eexists. split; [reflexivity|]. cbn [page clock]. repeat split.
    apply messages_last.
Qed.

(** X26: the product-page scraper throws in one case only: after a
    navigation that succeeded, [scrapeAsinOnMarketplace] throws exactly
    when [page.title()] is rejected, and then with the message of that
    rejection; every failure of a later step is absorbed. *)
Theorem product_page_scrape_throws_on_title_only asin m o st e :
  let nav := navigate (browser site) (productUrl asin m) (page st) in
  fst (scrapeAsinOnMarketplace site asin m o st) = Throw e
  <-> fst nav = Ok tt /\ title (snd nav) = Throw e.
Proof.
  intros nav. subst nav. unfold scrapeAsinOnMarketplace. steps.
  destruct (navigate (browser site) (productUrl asin m) (page st)) as [[[]|e0] p];
    steps; cbn [fst snd]; [|split; [discriminate | intros [H _]; discriminate H]].
  destruct (title p) as [t|e1]; steps;
    [|split; [intros [= ->]; auto | intros [_ [= ->]]; reflexivity]].
  destruct (Scraper.notFoundTitle t); steps;
    [split; [discriminate | intros [_ H]; discriminate H]|].
  match goal with |- context [collectSellers site o ?s0] =>
    destruct (collectSellers_returns o s0) as (added & st1 & Hrun & _) end.
  cbv zeta in Hrun. rewrite Hrun.
  match goal with |- context [match ?l with [] => _ | _ :: _ => _ end] =>
    destruct l as [|s0 l0] eqn:Hl end;
    cbn -[String.append visitFound];
    [split; [discriminate | intros [_ H]; discriminate H]|].
  match goal with |- context [visitFound site asin m o ?l [] ?s1] =>
    destruct (visitFound_returns asin m o l [] s1) as (visited & st2 & Hvisit & _) end.
  rewrite Hvisit. cbn [fst]. split; [discriminate | intros [_ H]; discriminate H].
Qed.

Lemma foundRecord_reads asin m s info t :
  let r := foundRecord asin m s info t in
  r !! "asin" = Some (VStr asin)
  /\ r !! "marketplace" = Some (VStr (Constants.code m))
  /\ r !! "sellerName" = Some (VStr (name s))
  /\ r !! "sellerId" = option_map VStr (sellerId s)
  /\ Main.dedupeKey r = idText s.
Proof.
  unfold foundRecord, idText, Main.dedupeKey. destruct (sellerId s) as [i|]; cbv zeta.
  - repeat split.
  - rewrite !lookup_delete_ne by discriminate. rewrite lookup_delete_eq. repeat split.
Qed.

(** X27: step 3 of the product-page scraper never throws and returns one
    record per seller to visit, in order, after waiting at least
    [delayBetweenRequests] for each.  A record carries the name and the
    id of its seller; for a primary seller whose link gave no seller
    id the record has no [sellerId], and [main.js] files it under the
    key "undefined". *)
Theorem product_page_visits asin m o sellers st :
  exists records st',
    visitFound site asin m o sellers [] st = (Ok records, st')
    /\ Forall2 (fun s r =>
                  r !! "asin" = Some (VStr asin)
                  /\ r !! "marketplace" = Some (VStr (Constants.code m))
                  /\ r !! "sellerName" = Some (VStr (name s))
                  /\ r !! "sellerId" = option_map VStr (sellerId s)
                  /\ Main.dedupeKey r = match sellerId s with
                                        | Some i => i
                                        | None => "undefined"
                                        end)
               sellers records
    /\ clock st + length sellers * Scraper.delayBetweenRequests o <= clock st'.
Proof.
  assert (Hgen : forall results st,
             exists visited st',
               visitFound site asin m o sellers results st = (Ok (results ++ visited), st')
               /\ Forall2 (fun s r =>
                             r !! "asin" = Some (VStr asin)
                             /\ r !! "marketplace" = Some (VStr (Constants.code m))
                             /\ r !! "sellerName" = Some (VStr (name s))
                             /\ r !! "sellerId" = option_map VStr (sellerId s)
                             /\ Main.dedupeKey r = idText s)
                          sellers visited
               /\ clock st + length sellers * Scraper.delayBetweenRequests o <= clock st').
  { clear st. induction sellers as [|seller rest IH]; intros results st; cbn [visitFound].
    - exists [], st. unfold ret. rewrite app_nil_r. repeat split; [constructor | cbn; lia].
    - unfold bind at 1. unfold delay at 1. cbv beta iota. unfold bind at 1.
      unfold ScraperAod.extractSellerInfo.
      match goal with |- context [Scraper.extractSellerInfoWith ?b ?f ?pre ?w ?u ?s] =>
        assert (Hm := extractSellerInfoWith_clock b f pre w u s);
        destruct (extractSellerInfoWith_returns b f pre w u s) as (info & st1 & Hinfo) end.
      rewrite Hinfo in Hm |- *. cbn [snd clock] in Hm.
      unfold bind at 1. unfold now at 1. cbv beta iota.
      match goal with |- context [visitFound _ _ _ _ _ ?r ?s] =>
        destruct (IH r s) as (visited & st2 & -> & Hrec & Hclock) end.
      eexists (_ :: visited), st2. rewrite <- app_assoc. cbn [app length].
      split; [reflexivity|]. split; [|lia].
      constructor; [apply foundRecord_reads | exact Hrec]. }
  destruct (Hgen [] st) as (visited & st' & Hrun & Hrec & Hclock).
  exists visited, st'. auto.
Qed.

End ProductPageFlow.

Section ProductPageCases.
Import Obj Eff ScraperAodFlow.

(** The sample product page: the primary seller comes first, the offer
    of the same seller and Amazon's own offer are left out. *)
Lemma sample_product_page :
  fst (collectSellers (Cases.shop Samples.online) Samples.options Samples.idle)
  = Ok [ {| name := "Acme"; sellerId := Some "A1XYZ";
            href := "https://www.amazon.de/sp?seller=A1XYZ&asin=B07YDVWL4J" |};
         {| name := "Bolt GmbH"; sellerId := Some "B2QRS";
            href := "https://www.amazon.de/gp/aag/main?seller=B2QRS" |} ]
  /\ messages Info (snd (collectSellers (Cases.shop Samples.online) Samples.options
                           Samples.idle))
     = [ "  Primary seller: Acme (A1XYZ)"; "  Other sellers found: 3";
         "  Extracted 3 unique sellers from AOD panel";
         "  Skipping seller (Amazon): Amazon.de" ].
Proof. split; vm_compute; reflexivity. Qed.

Lemma product_page_early_exits_witness :
  (exists st',
      scrapeAsinOnMarketplace (Cases.shop Samples.offline) "B07YDVWL4J" Samples.de
        Samples.options Samples.idle = (Ok [], st')
      /\ page st' = Samples.blankPage /\ clock st' = 0
      /\ In "[DE] Failed to load product page: net::ERR_INTERNET_DISCONNECTED"
            (messages Warning st'))
  /\ (exists st',
         scrapeAsinOnMarketplace (Cases.shop (Cases.landing Cases.missing)) "B07YDVWL4J"
           Samples.de Samples.options Samples.idle = (Ok [], st')
         /\ page st' = Cases.missing /\ clock st' = 2000
         /\ In "[DE] Product not found on this marketplace" (messages Info st')).
Proof.
  split.
  - exact (proj1 (product_page_early_exits (Cases.shop Samples.offline) "B07YDVWL4J"
                    Samples.de Samples.options Samples.idle)
                 "net::ERR_INTERNET_DISCONNECTED" eq_refl).
  - exact (proj2 (product_page_early_exits (Cases.shop (Cases.landing Cases.missing))
                    "B07YDVWL4J" Samples.de Samples.options Samples.idle)
                 "Amazon.se Page Not Found" eq_refl eq_refl eq_refl).
Defined.

End ProductPageCases.

(** ** The figures of the summary *)
Section Summary.
Import Obj Eff Main MainSummary Reading.
Context (scrape : string -> Constants.Marketplace -> Scraper.Options -> M St (list Object)).
Context (pushData : Object -> Exc unit).
Context (input : Input).

Lemma emit_counts m seller run :
  size (sellersSeen run) = length (List.filter firstOfSeller (allResults run)) ->
  let run' := snd (emit pushData m seller run) in
  size (sellersSeen run') = length (List.filter firstOfSeller (allResults run')).
Proof.
  intros Hcount. destruct (emit pushData m seller run) as [r run'] eqn:Hemit.
  apply emit_annotated in Hemit as (rec' & Hres & Hann & _).
  cbv zeta. cbn [snd annotated] in *. rewrite Hres, List.filter_app, length_app.
  cbn [List.filter]. unfold firstOfSeller at 2.
  destruct (sellersSeen run !! dedupeKey rec') as [first|] eqn:Hseen;
    destruct Hann as (Hdup & _ & ->); rewrite Hdup; cbn [length].
  - lia.
  - rewrite map_size_insert_None by exact Hseen. lia.
Qed.

(** X28: the "Unique sellers" figure of the summary is the number of
    records of the run that are not flagged as duplicates, and the
    "Total seller records" figure is the number of all records, whatever
    the scraper and the dataset did during the run. *)
Theorem summary_counts_first_records st :
  let final := snd (scrapingLoop scrape pushData input (start st)) in
  let told := messages Info (scraper (snd (summary input final))) in
  size (sellersSeen final) = length (List.filter firstOfSeller (allResults final))
  /\ In ("Unique sellers: "
           ++ pretty (length (List.filter firstOfSeller (allResults final))))%string told
  /\ In ("Total seller records: " ++ pretty (length (allResults final)))%string told.
Proof.
  cbv zeta.
  assert (Hsize : size (sellersSeen (snd (scrapingLoop scrape pushData input (start st))))
                  = length (List.filter firstOfSeller
                              (allResults (snd (scrapingLoop scrape pushData input
                                                  (start st)))))).
  { apply (scrapingLoop_keeps scrape pushData input
             (fun results seen _ => size seen = length (List.filter firstOfSeller results))).
    - intros m seller run. apply emit_counts.
    - reflexivity. }
  split; [exact Hsize|]. rewrite <- Hsize.
  generalize (snd (scrapingLoop scrape pushData input (start st))). intros final.
  unfold summary, inScraper, bind, logAt. cbn -[String.append pretty].
  unfold messages. cbn [log]. rewrite !List.filter_app, !List.map_app. cbn -[String.append pretty].
  rewrite !in_app_iff. cbn [In]. split; tauto.
Qed.

End Summary.
